(** * The training / evaluation control loop of [FCN8s]

    A shallow embedding of the control code of [fcn8s_tensorflow.py]:
    [_initialize_metrics], [train], [_evaluate], [evaluate] and [save].

    The TensorFlow graph, the session and the data generators are external
    collaborators.  They are kept abstract (class [GraphProvider]); every
    call the Python code makes to one of them is recorded, in program order,
    in the [trace] of the world.  Python exceptions are results of the
    monad [M]; the world reached when the exception is raised is kept, as
    the attributes of [self] keep the values assigned before a [raise].

    Floating-point numbers are rationals extended with [NaN] (the value of
    [np.mean] on an empty array); rounding is not modelled.  The step
    counter of the graph is a 32-bit integer and wraps around.  The name
    of a saved model is kept as the list of its parts; the string the code
    joins them to, and the clock it reads for a time stamp, belong to the
    collaborators. *)

From Stdlib Require Import ZArith QArith Qreduction List String Bool Lia.
From Stdlib Require Import DecimalString.
Import ListNotations.
Local Open Scope string_scope.
Local Open Scope Z_scope.
Local Open Scope list_scope.

Set Implicit Arguments.

(** ** Floats *)

Inductive pyfloat : Type :=
| Fin (q : Q)
| NaN.

Definition Qlt_bool (x y : Q) : bool :=
  (Qnum x * QDen y <? Qnum y * QDen x)%Z.

(** [a < b] and [a > b] on floats: every comparison with [NaN] is false. *)
Definition float_lt (a b : pyfloat) : bool :=
  match a, b with
  | Fin x, Fin y => Qlt_bool x y
  | _, _ => false
  end.

Definition float_gt (a b : pyfloat) : bool := float_lt b a.

Fixpoint float_sum (l : list pyfloat) : option Q :=
  match l with
  | [] => Some 0%Q
  | Fin q :: l' =>
      match float_sum l' with
      | Some s => Some (q + s)%Q
      | None => None
      end
  | NaN :: _ => None
  end.

(** [np.mean(np.array(l))]: the arithmetic mean, [NaN] on an empty array. *)
Definition np_mean (l : list pyfloat) : pyfloat :=
  match l, float_sum l with
  | _ :: _, Some s => Fin (Qred (s / inject_Z (Z.of_nat (List.length l))))
  | _, _ => NaN
  end.

(** ** [collections.deque] with a [maxlen] *)

(** [d.append(x)] on [deque(maxlen=maxlen)]: the element is added on the
    right and, when the deque has grown past [maxlen], the leftmost one is
    dropped. *)
Definition deque_append (maxlen : nat) (d : list pyfloat) (x : pyfloat)
  : list pyfloat :=
  let d' := d ++ [x] in
  if (maxlen <? List.length d')%nat then tl d' else d'.

(** ** 32-bit integers *)

(** The value of a signed 32-bit integer after an overflow: [z] modulo
    [2^32], in the range from [-2^31] to [2^31 - 1]. *)
Definition wrap32 (z : Z) : Z :=
  (z + 2147483648) mod 4294967296 - 2147483648.
Arguments wrap32 z : simpl never.

(** ** Exceptions and results *)

Inductive exn : Type :=
| ValueError
| TypeError
| IndexError
| ZeroDivisionError
| StopIteration
| UnboundLocalError
| AssertionError.

Inductive result (A : Type) : Type :=
| Ok (a : A)
| Raise (e : exn).
Arguments Ok {A} a.
Arguments Raise {A} e.

(** ** The metrics of the graph *)

(** The three pairs (value tensor, update op) built by [_build_metrics]:
    [mean_loss_*], [mean_iou_*] and [acc_*]. *)
Inductive metric : Type :=
| MeanLoss
| MeanIoU
| Acc.

(** ** The parts of the name of a saved model *)

Inductive name_part : Type :=
| NPrefix                                   (* 'saved_model' *)
| NName (name : string)                     (* '_' + name *)
| NGlobalStep (g_step : option Z)           (* '_(globalstep-{})' *)
| NTrainLoss (training_loss : pyfloat)      (* '_(trainloss-{:.4f})' *)
| NEvalOn (val : bool)                      (* '_(eval_on_..._dataset)' *)
| NMetric (name : string) (value : pyfloat) (* '_({}-{:.4f})' *)
| NTimestamp.                               (* '_{}'.format(time.time()) *)

(** ** The external collaborators *)

Class GraphProvider : Type := {
  (** the values of the trainable variables *)
  Weights : Type;
  (** one [(batch_images, batch_labels)] pair *)
  Batch : Type;
  (** the local variables of the streaming metrics *)
  MetricVars : Type;
  (** [generator_source g i]: the [i]-th value the generator with handle
      [g] yields, [None] when it is exhausted by then *)
  generator_source : nat -> nat -> option Batch;
  (** [sess.run([train_op, loss, ...])] on the weights, a batch, the
      learning rate and [keep_prob]: the updated weights and the loss *)
  run_train_op : Weights -> Batch -> pyfloat -> pyfloat -> Weights * pyfloat;
  (** the state of the metric variables after [metrics_reset_op] *)
  metric_vars_initial : MetricVars;
  (** [sess.run(update_ops)] on a batch with [keep_prob] 1.0 *)
  run_update_ops : list metric -> Weights -> Batch -> MetricVars -> MetricVars;
  (** [sess.run(value_tensor)] *)
  run_value_tensor : MetricVars -> metric -> pyfloat;
  (** [tf.test.gpu_device_name()] *)
  gpu_device_name : string;
  (** [fetches_advanced_step c]: whether [sess.run([train_op, ...,
      global_step])], run while the step counter is [c], fetches the
      counter after [train_op] has advanced it ([true]) or before
      ([false]); the graph does not order the two operations *)
  fetches_advanced_step : Z -> bool;
  (** [time_at n]: what [time.time()] reads when [n] events have been
      recorded *)
  time_at : nat -> pyfloat;
  (** [export_path d name t]: the string
      [os.path.join(d, model_name)], for the [model_name] that the parts
      [name] are formatted to; a time stamp is formatted from [t] *)
  export_path : string -> list name_part -> pyfloat -> string
}.

(** ** Trace of the calls to the collaborators *)

Inductive bar : Type :=
| BarEpoch (epoch epochs : Z)     (* 'Epoch {}/{}' *)
| BarText (description : string).

Inductive event : Type :=
| EvWarn (msg : string)           (* a warning is issued *)
| EvPrint (msg : string)
| EvPrintEval (results : list (string * pyfloat))
| EvBar (b : bar)
| EvPostfix (loss : pyfloat) (learning_rate : pyfloat)
| EvNext (generator : nat) (index : nat)
| EvTrainRun (loss : pyfloat) (learning_rate : pyfloat) (with_summary : bool)
| EvReset
| EvUpdate (ops : list metric)
| EvRead (tensors : list metric)
| EvWriter (logdir : string * string)
| EvSummary (evaluation : bool) (global_step : option Z)
| EvSave (model_save_dir : string) (model_name : list name_part)
         (tags : list string).

(** ** The world: the attributes of [self], the session, the generators
       and the file system *)

Section Model.

Context {G : GraphProvider}.

Record SavedModel : Type := {
  sm_dir : string;
  sm_name : list name_part;
  (* the export directory, [os.path.join(sm_dir, model_name)] *)
  sm_path : string;
  sm_tags : list string;
  sm_weights : Weights;
  sm_global_step : Z
}.

Record World : Type := {
  (* attributes of [self] *)
  variables_updated : bool;
  self_eval_dataset : option string;
  metric_names : list string;
  metric_values : list pyfloat;
  best_metric_values : list pyfloat;
  metric_value_tensors : list metric;
  metric_update_ops : list metric;
  training_loss : option pyfloat;
  best_training_loss : pyfloat;
  g_step : option Z;
  (* the variables of [self.sess] *)
  sess_weights : Weights;
  sess_global_step : Z;
  sess_metric_vars : MetricVars;
  (* how many batches each generator has yielded so far *)
  generator_position : nat -> nat;
  (* the models written to disk *)
  saved_models : list SavedModel;
  trace : list event
}.

(** Assignments to one attribute. *)

Definition set_variables_updated (v : bool) (w : World) : World :=
  {| variables_updated := v; self_eval_dataset := self_eval_dataset w;
     metric_names := metric_names w; metric_values := metric_values w;
     best_metric_values := best_metric_values w;
     metric_value_tensors := metric_value_tensors w;
     metric_update_ops := metric_update_ops w;
     training_loss := training_loss w;
     best_training_loss := best_training_loss w; g_step := g_step w;
     sess_weights := sess_weights w; sess_global_step := sess_global_step w;
     sess_metric_vars := sess_metric_vars w;
     generator_position := generator_position w;
     saved_models := saved_models w; trace := trace w |}.

Definition set_self_eval_dataset (v : option string) (w : World) : World :=
  {| variables_updated := variables_updated w; self_eval_dataset := v;
     metric_names := metric_names w; metric_values := metric_values w;
     best_metric_values := best_metric_values w;
     metric_value_tensors := metric_value_tensors w;
     metric_update_ops := metric_update_ops w;
     training_loss := training_loss w;
     best_training_loss := best_training_loss w; g_step := g_step w;
     sess_weights := sess_weights w; sess_global_step := sess_global_step w;
     sess_metric_vars := sess_metric_vars w;
     generator_position := generator_position w;
     saved_models := saved_models w; trace := trace w |}.

Definition set_metric_names (v : list string) (w : World) : World :=
  {| variables_updated := variables_updated w;
     self_eval_dataset := self_eval_dataset w; metric_names := v;
     metric_values := metric_values w;
     best_metric_values := best_metric_values w;
     metric_value_tensors := metric_value_tensors w;
     metric_update_ops := metric_update_ops w;
     training_loss := training_loss w;
     best_training_loss := best_training_loss w; g_step := g_step w;
     sess_weights := sess_weights w; sess_global_step := sess_global_step w;
     sess_metric_vars := sess_metric_vars w;
     generator_position := generator_position w;
     saved_models := saved_models w; trace := trace w |}.

Definition set_metric_values (v : list pyfloat) (w : World) : World :=
  {| variables_updated := variables_updated w;
     self_eval_dataset := self_eval_dataset w;
     metric_names := metric_names w; metric_values := v;
     best_metric_values := best_metric_values w;
     metric_value_tensors := metric_value_tensors w;
     metric_update_ops := metric_update_ops w;
     training_loss := training_loss w;
     best_training_loss := best_training_loss w; g_step := g_step w;
     sess_weights := sess_weights w; sess_global_step := sess_global_step w;
     sess_metric_vars := sess_metric_vars w;
     generator_position := generator_position w;
     saved_models := saved_models w; trace := trace w |}.

Definition set_best_metric_values (v : list pyfloat) (w : World) : World :=
  {| variables_updated := variables_updated w;
     self_eval_dataset := self_eval_dataset w;
     metric_names := metric_names w; metric_values := metric_values w;
     best_metric_values := v; metric_value_tensors := metric_value_tensors w;
     metric_update_ops := metric_update_ops w;
     training_loss := training_loss w;
     best_training_loss := best_training_loss w; g_step := g_step w;
     sess_weights := sess_weights w; sess_global_step := sess_global_step w;
     sess_metric_vars := sess_metric_vars w;
     generator_position := generator_position w;
     saved_models := saved_models w; trace := trace w |}.

Definition set_metric_value_tensors (v : list metric) (w : World) : World :=
  {| variables_updated := variables_updated w;
     self_eval_dataset := self_eval_dataset w;
     metric_names := metric_names w; metric_values := metric_values w;
     best_metric_values := best_metric_values w; metric_value_tensors := v;
     metric_update_ops := metric_update_ops w;
     training_loss := training_loss w;
     best_training_loss := best_training_loss w; g_step := g_step w;
     sess_weights := sess_weights w; sess_global_step := sess_global_step w;
     sess_metric_vars := sess_metric_vars w;
     generator_position := generator_position w;
     saved_models := saved_models w; trace := trace w |}.

Definition set_metric_update_ops (v : list metric) (w : World) : World :=
  {| variables_updated := variables_updated w;
     self_eval_dataset := self_eval_dataset w;
     metric_names := metric_names w; metric_values := metric_values w;
     best_metric_values := best_metric_values w;
     metric_value_tensors := metric_value_tensors w; metric_update_ops := v;
     training_loss := training_loss w;
     best_training_loss := best_training_loss w; g_step := g_step w;
     sess_weights := sess_weights w; sess_global_step := sess_global_step w;
     sess_metric_vars := sess_metric_vars w;
     generator_position := generator_position w;
     saved_models := saved_models w; trace := trace w |}.

Definition set_training_loss (v : option pyfloat) (w : World) : World :=
  {| variables_updated := variables_updated w;
     self_eval_dataset := self_eval_dataset w;
     metric_names := metric_names w; metric_values := metric_values w;
     best_metric_values := best_metric_values w;
     metric_value_tensors := metric_value_tensors w;
     metric_update_ops := metric_update_ops w; training_loss := v;
     best_training_loss := best_training_loss w; g_step := g_step w;
     sess_weights := sess_weights w; sess_global_step := sess_global_step w;
     sess_metric_vars := sess_metric_vars w;
     generator_position := generator_position w;
     saved_models := saved_models w; trace := trace w |}.

Definition set_best_training_loss (v : pyfloat) (w : World) : World :=
  {| variables_updated := variables_updated w;
     self_eval_dataset := self_eval_dataset w;
     metric_names := metric_names w; metric_values := metric_values w;
     best_metric_values := best_metric_values w;
     metric_value_tensors := metric_value_tensors w;
     metric_update_ops := metric_update_ops w;
     training_loss := training_loss w; best_training_loss := v;
     g_step := g_step w; sess_weights := sess_weights w;
     sess_global_step := sess_global_step w;
     sess_metric_vars := sess_metric_vars w;
     generator_position := generator_position w;
     saved_models := saved_models w; trace := trace w |}.

Definition set_g_step (v : option Z) (w : World) : World :=
  {| variables_updated := variables_updated w;
     self_eval_dataset := self_eval_dataset w;
     metric_names := metric_names w; metric_values := metric_values w;
     best_metric_values := best_metric_values w;
     metric_value_tensors := metric_value_tensors w;
     metric_update_ops := metric_update_ops w;
     training_loss := training_loss w;
     best_training_loss := best_training_loss w; g_step := v;
     sess_weights := sess_weights w; sess_global_step := sess_global_step w;
     sess_metric_vars := sess_metric_vars w;
     generator_position := generator_position w;
     saved_models := saved_models w; trace := trace w |}.

Definition set_sess_weights (v : Weights) (w : World) : World :=
  {| variables_updated := variables_updated w;
     self_eval_dataset := self_eval_dataset w;
     metric_names := metric_names w; metric_values := metric_values w;
     best_metric_values := best_metric_values w;
     metric_value_tensors := metric_value_tensors w;
     metric_update_ops := metric_update_ops w;
     training_loss := training_loss w;
     best_training_loss := best_training_loss w; g_step := g_step w;
     sess_weights := v; sess_global_step := sess_global_step w;
     sess_metric_vars := sess_metric_vars w;
     generator_position := generator_position w;
     saved_models := saved_models w; trace := trace w |}.

Definition set_sess_global_step (v : Z) (w : World) : World :=
  {| variables_updated := variables_updated w;
     self_eval_dataset := self_eval_dataset w;
     metric_names := metric_names w; metric_values := metric_values w;
     best_metric_values := best_metric_values w;
     metric_value_tensors := metric_value_tensors w;
     metric_update_ops := metric_update_ops w;
     training_loss := training_loss w;
     best_training_loss := best_training_loss w; g_step := g_step w;
     sess_weights := sess_weights w; sess_global_step := v;
     sess_metric_vars := sess_metric_vars w;
     generator_position := generator_position w;
     saved_models := saved_models w; trace := trace w |}.

Definition set_sess_metric_vars (v : MetricVars) (w : World) : World :=
  {| variables_updated := variables_updated w;
     self_eval_dataset := self_eval_dataset w;
     metric_names := metric_names w; metric_values := metric_values w;
     best_metric_values := best_metric_values w;
     metric_value_tensors := metric_value_tensors w;
     metric_update_ops := metric_update_ops w;
     training_loss := training_loss w;
     best_training_loss := best_training_loss w; g_step := g_step w;
     sess_weights := sess_weights w; sess_global_step := sess_global_step w;
     sess_metric_vars := v; generator_position := generator_position w;
     saved_models := saved_models w; trace := trace w |}.

Definition set_generator_position (v : nat -> nat) (w : World) : World :=
  {| variables_updated := variables_updated w;
     self_eval_dataset := self_eval_dataset w;
     metric_names := metric_names w; metric_values := metric_values w;
     best_metric_values := best_metric_values w;
     metric_value_tensors := metric_value_tensors w;
     metric_update_ops := metric_update_ops w;
     training_loss := training_loss w;
     best_training_loss := best_training_loss w; g_step := g_step w;
     sess_weights := sess_weights w; sess_global_step := sess_global_step w;
     sess_metric_vars := sess_metric_vars w; generator_position := v;
     saved_models := saved_models w; trace := trace w |}.

Definition set_saved_models (v : list SavedModel) (w : World) : World :=
  {| variables_updated := variables_updated w;
     self_eval_dataset := self_eval_dataset w;
     metric_names := metric_names w; metric_values := metric_values w;
     best_metric_values := best_metric_values w;
     metric_value_tensors := metric_value_tensors w;
     metric_update_ops := metric_update_ops w;
     training_loss := training_loss w;
     best_training_loss := best_training_loss w; g_step := g_step w;
     sess_weights := sess_weights w; sess_global_step := sess_global_step w;
     sess_metric_vars := sess_metric_vars w;
     generator_position := generator_position w; saved_models := v;
     trace := trace w |}.

Definition set_trace (v : list event) (w : World) : World :=
  {| variables_updated := variables_updated w;
     self_eval_dataset := self_eval_dataset w;
     metric_names := metric_names w; metric_values := metric_values w;
     best_metric_values := best_metric_values w;
     metric_value_tensors := metric_value_tensors w;
     metric_update_ops := metric_update_ops w;
     training_loss := training_loss w;
     best_training_loss := best_training_loss w; g_step := g_step w;
     sess_weights := sess_weights w; sess_global_step := sess_global_step w;
     sess_metric_vars := sess_metric_vars w;
     generator_position := generator_position w;
     saved_models := saved_models w; trace := v |}.

(** ** The monad of the Python code: state and exceptions *)

Definition M (A : Type) : Type := World -> result A * World.

Definition ret {A : Type} (a : A) : M A := fun w => (Ok a, w).

Definition bind {A B : Type} (c : M A) (k : A -> M B) : M B :=
  fun w =>
    match c w with
    | (Ok a, w') => k a w'
    | (Raise e, w') => (Raise e, w')
    end.

Definition raise {A : Type} (e : exn) : M A := fun w => (Raise e, w).

Definition get : M World := fun w => (Ok w, w).

Definition modify (f : World -> World) : M unit := fun w => (Ok tt, f w).

Definition emit (e : event) : M unit :=
  modify (fun w => set_trace (trace w ++ [e]) w).

Definition when (b : bool) (c : M unit) : M unit :=
  if b then c else ret tt.

Fixpoint foldM {A B : Type} (f : B -> A -> M B) (l : list A) (b : B) : M B :=
  match l with
  | [] => ret b
  | x :: l' => bind (f b x) (foldM f l')
  end.

Definition forM_ {A : Type} (l : list A) (f : A -> M unit) : M unit :=
  foldM (fun _ x => f x) l tt.

End Model.

Declare Scope py_scope.
Delimit Scope py_scope with py.
Notation "x <- c ;; k" := (bind c (fun x => k))
  (at level 61, c at next level, right associativity) : py_scope.
Notation "c ;; k" := (bind c (fun _ => k))
  (at level 61, right associativity) : py_scope.
Local Open Scope py_scope.

(** ** Python primitives *)

Section Primitives.

Context {G : GraphProvider}.

(** [x in l] on strings *)
Definition mem (x : string) (l : list string) : bool :=
  existsb (String.eqb x) l.

Definition is_none {A : Type} (o : option A) : bool :=
  match o with
  | None => true
  | Some _ => false
  end.

(** [a % b] on Python integers *)
Definition py_mod (a b : Z) : M Z :=
  if b =? 0 then raise ZeroDivisionError else ret (a mod b).

(** [a % b] where [a] is a [numpy.int32], as the step counter fetched by
    [sess.run] is: a zero divisor gives [0] and a [RuntimeWarning]. *)
Definition np_mod (a b : Z) : M Z :=
  if b =? 0
  then emit (EvWarn "divide by zero encountered in remainder") ;; ret 0
  else ret (a mod b).

Fixpoint index_of (x : string) (l : list string) : option nat :=
  match l with
  | [] => None
  | y :: l' => if String.eqb y x then Some O else option_map S (index_of x l')
  end.

(** [l.index(x)] *)
Definition py_index (l : list string) (x : string) : M nat :=
  match index_of x l with
  | Some i => ret i
  | None => raise ValueError
  end.

(** [l[i]] *)
Definition py_getitem {A : Type} (l : list A) (i : nat) : M A :=
  match nth_error l i with
  | Some v => ret v
  | None => raise IndexError
  end.

Fixpoint list_set {A : Type} (l : list A) (i : nat) (v : A) : list A :=
  match l, i with
  | [], _ => []
  | _ :: l', O => v :: l'
  | x :: l', S i' => x :: list_set l' i' v
  end.

(** [range(n)] and [range(1, n+1)] *)
Definition range (n : Z) : list nat := seq 0 (Z.to_nat n).
Definition range1 (n : Z) : list Z := map Z.of_nat (seq 1 (Z.to_nat n)).

(** [next(generator)] *)
Definition next (generator : nat) : M Batch :=
  w <- get ;;
  let i := generator_position w generator in
  match generator_source generator i with
  | Some batch =>
      modify (set_generator_position
                (fun h => if (h =? generator)%nat then S i
                          else generator_position w h)) ;;
      emit (EvNext generator i) ;;
      ret batch
  | None => raise StopIteration
  end.

(** [self.g_step % summaries_frequency]: [self.g_step] is an integer once
    [train] has fetched it. *)
Definition the_g_step : M Z :=
  w <- get ;;
  match g_step w with
  | Some g => ret g
  | None => raise TypeError
  end.

(** The two [self.sess.run([self.train_op, self.loss, self.global_step, ...])]
    calls of [train]: [train_op] updates the weights and advances the
    [global_step] variable by one ([optimizer.minimize(loss,
    global_step=global_step)]); the variable is a 32-bit integer
    ([tf.Variable(0, trainable=False)]).  The step fetched in the same run
    is stored in [self.g_step]: the advanced one or the one before, as
    the graph has it. *)
Definition sess_run_train (batch : Batch) (learning_rate keep_prob : pyfloat)
           (with_summary : bool) : M pyfloat :=
  w <- get ;;
  let '(weights, current_loss) :=
    run_train_op (sess_weights w) batch learning_rate keep_prob in
  let advanced := wrap32 (sess_global_step w + 1) in
  modify (set_sess_weights weights) ;;
  modify (set_sess_global_step advanced) ;;
  modify (set_g_step (Some (if fetches_advanced_step (sess_global_step w)
                            then advanced else sess_global_step w))) ;;
  emit (EvTrainRun current_loss learning_rate with_summary) ;;
  ret current_loss.

End Primitives.

(** ** The methods of [FCN8s] *)

Section FCN8s.

Context {G : GraphProvider}.

(** The attributes set by [__init__], for a graph whose variables hold
    [weights] and whose step counter is [global_step]. *)
Definition FCN8s_init (weights : Weights) (global_step : Z) : World :=
  {| variables_updated := false;
     self_eval_dataset := None;
     metric_names := [];
     metric_values := [];
     best_metric_values := [];
     metric_value_tensors := [];
     metric_update_ops := [];
     training_loss := None;
     best_training_loss := Fin (999999999 # 10);
     g_step := None;
     sess_weights := weights;
     sess_global_step := global_step;
     sess_metric_vars := metric_vars_initial;
     generator_position := fun _ => O;
     saved_models := [];
     trace := [] |}.

Definition track (name : string) (best : pyfloat) (m : metric) : M unit :=
  modify (fun w => set_metric_names (metric_names w ++ [name]) w) ;;
  modify (fun w => set_best_metric_values (best_metric_values w ++ [best]) w) ;;
  modify (fun w => set_metric_update_ops (metric_update_ops w ++ [m]) w) ;;
  modify (fun w => set_metric_value_tensors (metric_value_tensors w ++ [m]) w).

Definition _initialize_metrics (metrics : list string) : M unit :=
  modify (set_metric_names []) ;;
  modify (set_best_metric_values []) ;;
  modify (set_metric_update_ops []) ;;
  modify (set_metric_value_tensors []) ;;
  when (mem "loss" metrics) (track "loss" (Fin (999999999 # 10)) MeanLoss) ;;
  when (mem "mean_iou" metrics) (track "mean_iou" (Fin 0) MeanIoU) ;;
  when (mem "accuracy" metrics) (track "accuracy" (Fin 0) Acc).

(** [for metric in metrics: if not metric in [...]: raise ValueError] *)
Definition check_metrics (metrics : list string) : M unit :=
  forM_ metrics (fun metric =>
    if negb (mem metric ["loss"; "mean_iou"; "accuracy"])
    then raise ValueError
    else ret tt).

(** The body of [for step in tr] in [_evaluate]: one batch is pulled and
    the update ops of the tracked metrics are run on it. *)
Definition accumulate_batch (data_generator : nat) (step : nat) : M unit :=
  batch <- next data_generator ;;
  w <- get ;;
  modify (set_sess_metric_vars
            (run_update_ops (metric_update_ops w) (sess_weights w) batch
                            (sess_metric_vars w))) ;;
  emit (EvUpdate (metric_update_ops w)).

Definition _evaluate (data_generator : nat) (metrics : list string)
           (num_batches : Z) (description : string) : M unit :=
  (* Reset all metrics' accumulator variables. *)
  modify (set_sess_metric_vars metric_vars_initial) ;;
  emit EvReset ;;
  emit (EvBar (BarText description)) ;;
  (* Accumulate metrics in batches. *)
  forM_ (range num_batches) (accumulate_batch data_generator) ;;
  (* Compute final metric values. *)
  w <- get ;;
  modify (set_metric_values
            (map (run_value_tensor (sess_metric_vars w))
                 (metric_value_tensors w))) ;;
  emit (EvRead (metric_value_tensors w)) ;;
  w <- get ;;
  results <- foldM (fun acc i =>
                      metric_name <- py_getitem (metric_names w) i ;;
                      v <- py_getitem (metric_values w) i ;;
                      ret (acc ++ [(metric_name, v)]))
                   (seq 0 (List.length (metric_names w))) [] ;;
  emit (EvPrintEval results).

Definition evaluate (data_generator : nat) (num_batches : Z)
           (metrics : list string) : M unit :=
  check_metrics metrics ;;
  _initialize_metrics metrics ;;
  _evaluate data_generator metrics num_batches "Running evaluation".

Definition nothing_to_save : string :=
  "Abort: Nothing to save, no training has been performed since the model was last saved.".

Definition save (model_save_dir : option string) (tags : list string)
           (name : option string)
           (include_global_step include_last_training_loss
            include_metrics : bool) : M unit :=
  w <- get ;;
  if negb (variables_updated w) then
    emit (EvPrint nothing_to_save)
  else
    let model_name := [NPrefix] in
    let model_name :=
      match name with
      | Some n => model_name ++ [NName n]
      | None => model_name
      end in
    let model_name :=
      if include_global_step
      then model_name ++ [NGlobalStep (g_step w)] else model_name in
    model_name <-
      (if include_last_training_loss then
         match training_loss w with
         | Some l => ret (model_name ++ [NTrainLoss l])
         | None => raise TypeError
         end
       else ret model_name) ;;
    model_name <-
      (if include_metrics then
         let val :=
           match self_eval_dataset w with
           | Some d => String.eqb d "val"
           | None => false
           end in
         foldM (fun model_name i =>
                  metric_name <- py_getitem (metric_names w) i ;;
                  v <- py_getitem (metric_values w) i ;;
                  ret (model_name ++ [NMetric metric_name v]))
               (seq 0 (List.length (metric_names w)))
               (model_name ++ [NEvalOn val])
       else ret model_name) ;;
    let model_name :=
      if negb (include_global_step || include_last_training_loss
               || include_metrics) && is_none name
      then model_name ++ [NTimestamp] else model_name in
    (* os.path.join(model_save_dir, model_name) *)
    dir <- match model_save_dir with
           | Some d => ret d
           | None => raise TypeError
           end ;;
    let path :=
      export_path dir model_name (time_at (List.length (trace w))) in
    (* SavedModelBuilder(path): the export directory must not exist *)
    if existsb (fun m => String.eqb (sm_path m) path) (saved_models w)
    then raise AssertionError
    else
      modify (fun w => set_saved_models
                         (saved_models w ++
                          [{| sm_dir := dir; sm_name := model_name;
                              sm_path := path;
                              sm_tags := tags; sm_weights := sess_weights w;
                              sm_global_step := sess_global_step w |}]) w) ;;
      emit (EvSave dir model_name tags) ;;
      modify (set_variables_updated false).

End FCN8s.

(** ** [train] *)

Record TrainArgs : Type := {
  train_generator : nat;
  epochs : Z;
  steps_per_epoch : Z;
  learning_rate_schedule : Z -> pyfloat;
  keep_prob : pyfloat;
  eval_dataset : string;
  eval_frequency : Z;
  val_generator : option nat;
  val_steps : option Z;
  metrics : list string;
  save_during_training : bool;
  save_dir : option string;
  save_best_only : bool;
  save_tags : list string;
  save_frequency : Z;
  monitor : string;
  record_summaries : bool;
  summaries_frequency : Z;
  summaries_dir : option string;
  summaries_name : option string;
  training_loss_display_averaging : Z
}.


Section Train.

Context {G : GraphProvider}.

Variable a : TrainArgs.

(** The GPU check at the top of [train]. *)
Definition gpu_check : M unit :=
  if String.eqb gpu_device_name ""
  then emit (EvWarn "No GPU found. Please note that training this network will be unbearably slow without a GPU.")
  else emit (EvPrint (String.append "Default GPU Device: " gpu_device_name)).

(** The four configuration checks of [train], in the order of the code. *)
Definition check_config : M unit :=
  (if negb (mem (eval_dataset a) ["train"; "val"])
   then raise ValueError else ret tt) ;;
  (if String.eqb (eval_dataset a) "val"
      && (is_none (val_generator a) || is_none (val_steps a))
   then raise ValueError else ret tt) ;;
  check_metrics (metrics a) ;;
  (if negb (mem (monitor a) (metrics a)) && negb (String.eqb (monitor a) "loss")
   then raise ValueError else ret tt).

(** [os.path.join(summaries_dir, summaries_name)] raises on [None]. *)
Definition setup_writers : M unit :=
  when (record_summaries a)
    (match summaries_dir a, summaries_name a with
     | Some d, Some n =>
         emit (EvWriter (d, n)) ;;
         when (0 <? Z.of_nat (List.length (metrics a)))
              (emit (EvWriter (d, String.append n "_eval")))
     | _, _ => raise TypeError
     end).

(** The body of [for train_step in tr], on the local variables
    [learning_rate] and [loss_history]. *)
Definition train_step (locals : pyfloat * list pyfloat) (step : nat)
  : M (pyfloat * list pyfloat) :=
  let '(learning_rate, loss_history) := locals in
  batch <- next (train_generator a) ;;
  with_summary <-
    (if record_summaries a then
       g <- the_g_step ;;
       m <- np_mod g (summaries_frequency a) ;;
       ret (m =? 0)
     else ret false) ;;
  current_loss <- sess_run_train batch learning_rate (keep_prob a)
                                 with_summary ;;
  when with_summary
       (w <- get ;; emit (EvSummary false (g_step w))) ;;
  modify (set_variables_updated true) ;;
  let loss_history :=
    deque_append (Z.to_nat (training_loss_display_averaging a))
                 loss_history current_loss in
  let losses := loss_history in
  modify (set_training_loss (Some (np_mean losses))) ;;
  emit (EvPostfix (np_mean losses) learning_rate) ;;
  g <- the_g_step ;;
  ret (learning_rate_schedule a g, loss_history).

(** [a < b] where [a] may be [None] (Python 3: ordering [None] and a
    float raises [TypeError]). *)
Definition lt_opt (x : option pyfloat) (y : pyfloat) : M bool :=
  match x with
  | Some v => ret (float_lt v y)
  | None => raise TypeError
  end.

(** The [if save_best_only: ... else: save = True] block: the value of the
    local variable [save]. *)
Definition decide_save : M bool :=
  if save_best_only a then
    w <- get ;;
    first <-
      (if String.eqb (monitor a) "loss" && negb (mem "loss" (metric_names w))
       then lt_opt (training_loss w) (best_training_loss w)
       else ret false) ;;
    save <-
      (if first then ret true
       else
         i <- py_index (metric_names w) (monitor a) ;;
         (if String.eqb (monitor a) "loss" then
            v <- py_getitem (metric_values w) i ;;
            b <- py_getitem (best_metric_values w) i ;;
            if float_lt v b then ret true
            else
              if mem (monitor a) ["accuracry"; "mean_iou"] then
                v <- py_getitem (metric_values w) i ;;
                b <- py_getitem (best_metric_values w) i ;;
                ret (float_gt v b)
              else ret false
          else
            if mem (monitor a) ["accuracry"; "mean_iou"] then
              v <- py_getitem (metric_values w) i ;;
              b <- py_getitem (best_metric_values w) i ;;
              ret (float_gt v b)
            else ret false)) ;;
    (if save
     then emit (EvPrint (String.append "New best "
                  (String.append (monitor a) " value, saving model.")))
     else emit (EvPrint (String.append "No improvement over previous best "
                  (String.append (monitor a) " value, not saving model.")))) ;;
    ret save
  else ret true.

(** The body of [for i, metric_name in enumerate(self.metric_names)]. *)
Definition update_best_metric (i : nat) : M unit :=
  w <- get ;;
  metric_name <- py_getitem (metric_names w) i ;;
  lower <-
    (if String.eqb metric_name "loss" then
       v <- py_getitem (metric_values w) i ;;
       b <- py_getitem (best_metric_values w) i ;;
       ret (float_lt v b)
     else ret false) ;;
  if lower then
    v <- py_getitem (metric_values w) i ;;
    modify (set_best_metric_values (list_set (best_metric_values w) i v))
  else
    if mem metric_name ["accuracry"; "mean_iou"] then
      v <- py_getitem (metric_values w) i ;;
      b <- py_getitem (best_metric_values w) i ;;
      if float_gt v b then
        modify (set_best_metric_values (list_set (best_metric_values w) i v))
      else ret tt
    else ret tt.

(** The block "Update the current best metric values". *)
Definition update_best (epoch : Z) : M unit :=
  w <- get ;;
  lower <- lt_opt (training_loss w) (best_training_loss w) ;;
  (match lower, training_loss w with
   | true, Some l => modify (set_best_training_loss l)
   | _, _ => ret tt
   end) ;;
  m <- py_mod epoch (eval_frequency a) ;;
  when (m =? 0)
       (w <- get ;;
        forM_ (seq 0 (List.length (metric_names w))) update_best_metric).

(** The body of [for epoch in range(1, epochs+1)], on the local variable
    [learning_rate]. *)
Definition train_epoch (learning_rate : pyfloat) (epoch : Z) : M pyfloat :=
  (* loss_history = deque(maxlen=training_loss_display_averaging) *)
  (if training_loss_display_averaging a <? 0
   then raise ValueError else ret tt) ;;
  emit (EvBar (BarEpoch epoch (epochs a))) ;;
  locals <- foldM train_step (range (steps_per_epoch a)) (learning_rate, []) ;;
  let learning_rate := fst locals in
  (* Maybe evaluate the model after this epoch. *)
  do_eval <-
    (if 0 <? Z.of_nat (List.length (metrics a)) then
       m <- py_mod epoch (eval_frequency a) ;; ret (m =? 0)
     else ret false) ;;
  when do_eval
    ((if String.eqb (eval_dataset a) "train" then
        _evaluate (train_generator a) (metrics a) (steps_per_epoch a)
                  "Evaluation on training dataset"
      else if String.eqb (eval_dataset a) "val" then
        match val_generator a, val_steps a with
        | Some data_generator, Some num_batches =>
            _evaluate data_generator (metrics a) num_batches
                      "Evaluation on validation dataset"
        | _, _ => raise TypeError
        end
      else raise UnboundLocalError) ;;
     when (record_summaries a)
          (w <- get ;; emit (EvSummary true (g_step w)))) ;;
  (* Maybe save the model after this epoch. *)
  do_save <-
    (if save_during_training a then
       m <- py_mod epoch (save_frequency a) ;; ret (m =? 0)
     else ret false) ;;
  when do_save
    (save_now <- decide_save ;;
     when save_now
       (w <- get ;;
        save (save_dir a) (save_tags a) None true true
                   (0 <? Z.of_nat (List.length (metric_names w))))) ;;
  (* Update the current best metric values. *)
  update_best epoch ;;
  ret learning_rate.

Definition train : M unit :=
  gpu_check ;;
  check_config ;;
  modify (set_self_eval_dataset (Some (eval_dataset a))) ;;
  w <- get ;;
  modify (set_g_step (Some (sess_global_step w))) ;;
  let learning_rate := learning_rate_schedule a (sess_global_step w) in
  _initialize_metrics (metrics a) ;;
  setup_writers ;;
  foldM train_epoch (range1 (epochs a)) learning_rate ;;
  ret tt.

End Train.

(** ** A small concrete graph, to run the model on

    The weights count the updates applied; a batch is the loss the graph
    computes on it; the metric variables count the batches folded in.
    Generator [0] yields the losses 1, 2, 3, ... for ever, generator [1]
    yields two batches and is then exhausted, generator [2] yields the
    losses 1, 1/2, 1/3, ... for ever.  The value tensors of the metrics
    read 0.6 (loss), 0.9 (mean IoU) and 0.85 (accuracy).  A run fetches
    the advanced step counter, the clock reads the number of events
    recorded, and the parts of a name are joined as the code joins them,
    with floats written as fractions. *)

Module Toy.

Definition source (g i : nat) : option pyfloat :=
  match g with
  | 0%nat => Some (Fin (inject_Z (Z.of_nat (S i))))
  | 1%nat => if (i <? 2)%nat then Some (Fin (1 # 2)) else None
  | 2%nat => Some (Fin (1 # Pos.of_nat (S i)))
  | _ => None
  end.

Definition value (vars : nat) (m : metric) : pyfloat :=
  match m with
  | MeanLoss => Fin (6 # 10)
  | MeanIoU => Fin (9 # 10)
  | Acc => Fin (85 # 100)
  end.

(** ['{}'.format(z)] *)
Definition format_int (z : Z) : string :=
  NilZero.string_of_int (Z.to_int z).

(** A float, written as the fraction it is. *)
Definition format_float (x : pyfloat) : string :=
  match x with
  | Fin q => format_int (Qnum q) ++ ":" ++ format_int (QDen q)
  | NaN => "nan"
  end.

Definition format_part (t : pyfloat) (part : name_part) : string :=
  match part with
  | NPrefix => "saved_model"
  | NName name => "_" ++ name
  | NGlobalStep (Some g) => "_(globalstep-" ++ format_int g ++ ")"
  | NGlobalStep None => "_(globalstep-None)"
  | NTrainLoss l => "_(trainloss-" ++ format_float l ++ ")"
  | NEvalOn true => "_(eval_on_val_dataset)"
  | NEvalOn false => "_(eval_on_train_dataset)"
  | NMetric name v => "_(" ++ name ++ "-" ++ format_float v ++ ")"
  | NTimestamp => "_" ++ format_float t
  end.

(** [os.path.join(d, model_name)] *)
Definition join (d : string) (name : list name_part) (t : pyfloat) : string :=
  d ++ "/" ++ String.concat "" (map (format_part t) name).

Definition graph : GraphProvider :=
  {| Weights := Z;
     Batch := pyfloat;
     MetricVars := nat;
     generator_source := source;
     run_train_op := fun weights batch _ _ => (weights + 1, batch);
     metric_vars_initial := O;
     run_update_ops := fun _ _ _ vars => S vars;
     run_value_tensor := value;
     gpu_device_name := "";
     fetches_advanced_step := fun _ => true;
     time_at := fun n => Fin (inject_Z (Z.of_nat n));
     export_path := join |}.

(** A constant learning rate. *)
Definition schedule (_ : Z) : pyfloat := Fin (1 # 1000).

(** A model built from scratch. *)
Definition fresh : @World graph := @FCN8s_init graph 0 0.

(** [train(train_generator, epochs, steps_per_epoch, schedule,
           eval_dataset='train', record_summaries=False,
           save_dir='models', ...)] *)
Definition args (train_generator : nat) (epochs steps_per_epoch : Z)
           (metrics : list string) (monitor : string)
           (eval_frequency save_frequency : Z)
           (save_during_training save_best_only : bool) : TrainArgs :=
  {| train_generator := train_generator;
     epochs := epochs;
     steps_per_epoch := steps_per_epoch;
     learning_rate_schedule := schedule;
     keep_prob := Fin (1 # 2);
     eval_dataset := "train";
     eval_frequency := eval_frequency;
     val_generator := None;
     val_steps := None;
     metrics := metrics;
     save_during_training := save_during_training;
     save_dir := Some "models";
     save_best_only := save_best_only;
     save_tags := ["default"];
     save_frequency := save_frequency;
     monitor := monitor;
     record_summaries := false;
     summaries_frequency := 10;
     summaries_dir := None;
     summaries_name := None;
     training_loss_display_averaging := 3 |}.

(** The same call with [training_loss_display_averaging=k]. *)
Definition averaging (k : Z) (a : TrainArgs) : TrainArgs :=
  {| train_generator := train_generator a;
     epochs := epochs a;
     steps_per_epoch := steps_per_epoch a;
     learning_rate_schedule := learning_rate_schedule a;
     keep_prob := keep_prob a;
     eval_dataset := eval_dataset a;
     eval_frequency := eval_frequency a;
     val_generator := val_generator a;
     val_steps := val_steps a;
     metrics := metrics a;
     save_during_training := save_during_training a;
     save_dir := save_dir a;
     save_best_only := save_best_only a;
     save_tags := save_tags a;
     save_frequency := save_frequency a;
     monitor := monitor a;
     record_summaries := record_summaries a;
     summaries_frequency := summaries_frequency a;
     summaries_dir := summaries_dir a;
     summaries_name := summaries_name a;
     training_loss_display_averaging := k |}.

(** The learning rate [1 / (g + 1)] at the step [g]. *)
Definition decay (g : Z) : pyfloat := Fin (1 # Pos.of_nat (S (Z.to_nat g))).

(** The same call with [learning_rate_schedule=decay,
    record_summaries=True, summaries_frequency=frequency,
    summaries_dir='logs', summaries_name='run']. *)
Definition recording (frequency : Z) (a : TrainArgs) : TrainArgs :=
  {| train_generator := train_generator a;
     epochs := epochs a;
     steps_per_epoch := steps_per_epoch a;
     learning_rate_schedule := decay;
     keep_prob := keep_prob a;
     eval_dataset := eval_dataset a;
     eval_frequency := eval_frequency a;
     val_generator := val_generator a;
     val_steps := val_steps a;
     metrics := metrics a;
     save_during_training := save_during_training a;
     save_dir := save_dir a;
     save_best_only := save_best_only a;
     save_tags := save_tags a;
     save_frequency := save_frequency a;
     monitor := monitor a;
     record_summaries := true;
     summaries_frequency := frequency;
     summaries_dir := Some "logs";
     summaries_name := Some "run";
     training_loss_display_averaging :=
       training_loss_display_averaging a |}.



(** The world left by [evaluate(generator 0, 1, {'mean_iou'})]. *)
Definition evaluated : @World graph :=
  snd (@evaluate graph 0 1 ["mean_iou"] fresh).

End Toy.

(** ** Vocabulary of the specification *)

(** Two floats that denote the same number (or are both [NaN]). *)
Definition float_same (x y : pyfloat) : Prop :=
  match x, y with
  | Fin p, Fin q => (p == q)%Q
  | NaN, NaN => True
  | _, _ => False
  end.

(** The last [k] elements of [l] (all of [l] when it is shorter). *)
Definition lastn {A : Type} (k : nat) (l : list A) : list A :=
  skipn (List.length l - k) l.

(** The simple moving average over a trailing window of size [k]: after the
    [n]-th loss, the mean of the last [k] of the first [n] losses. *)
Definition moving_average (k : nat) (losses : list pyfloat) : list pyfloat :=
  map (fun n => np_mean (lastn k (firstn n losses)))
      (seq 1 (List.length losses)).

(** What the step loop computes: the means of the successive contents of
    the deque, starting from the contents [d]. *)
Fixpoint running (k : nat) (d : list pyfloat) (losses : list pyfloat)
  : list pyfloat :=
  match losses with
  | [] => []
  | c :: losses' =>
      np_mean (deque_append k d c) :: running k (deque_append k d c) losses'
  end.

(** The step counter that stood at [g], after [n] training steps. *)
Definition counter_after (n : nat) (g : Z) : Z :=
  match n with
  | O => g
  | S _ => wrap32 (g + Z.of_nat n)
  end.

(** The values of a signed 32-bit integer. *)
Definition int32 (z : Z) : Prop := -2147483648 <= z <= 2147483647.

(** The losses returned by the training steps of a trace, in order. *)
Definition step_losses (t : list event) : list pyfloat :=
  flat_map (fun e => match e with
                     | EvTrainRun loss _ _ => [loss]
                     | _ => []
                     end) t.

(** The smoothed losses shown on the progress bar, in order. *)
Definition shown_losses (t : list event) : list pyfloat :=
  flat_map (fun e => match e with
                     | EvPostfix loss _ => [loss]
                     | _ => []
                     end) t.

(** The epochs whose progress bar was opened, in order. *)
Definition epoch_bars (t : list event) : list Z :=
  flat_map (fun e => match e with
                     | EvBar (BarEpoch epoch _) => [epoch]
                     | _ => []
                     end) t.

(** The batches pulled, as (generator, index) pairs, in order. *)
Definition pulls (t : list event) : list (nat * nat) :=
  flat_map (fun e => match e with
                     | EvNext g i => [(g, i)]
                     | _ => []
                     end) t.

Section Vocabulary.

Context {G : GraphProvider}.

(** [c] relates every world to the world it leaves, whatever it returns
    or raises. *)
Definition preserves (R : World -> World -> Prop) {A : Type} (c : M A)
  : Prop :=
  forall w, R w (snd (c w)).

(** [w'] extends the trace of [w]. *)
Definition extends (w w' : World) : Prop :=
  exists t, trace w' = trace w ++ t.

(** The training state: step counter, smoothed and best training loss,
    weights and the variables-updated flag. *)
Definition same_training_state (w w' : World) : Prop :=
  g_step w' = g_step w /\
  sess_global_step w' = sess_global_step w /\
  training_loss w' = training_loss w /\
  best_training_loss w' = best_training_loss w /\
  sess_weights w' = sess_weights w /\
  variables_updated w' = variables_updated w.

(** [w'] extends the trace of [w] by events that are neither training
    steps, nor progress-bar updates of the loss, nor epoch bars, and has
    the same step counter and smoothed training loss. *)
Definition no_training (w w' : World) : Prop :=
  sess_global_step w' = sess_global_step w /\
  training_loss w' = training_loss w /\
  exists t, trace w' = trace w ++ t /\
            step_losses t = [] /\ shown_losses t = [] /\ epoch_bars t = [].

(** [w'] extends the trace of [w] and pulls no batch, runs no training
    step, leaves the session, the generators and the disk as they are. *)
Definition nothing_run (w w' : World) : Prop :=
  generator_position w' = generator_position w /\
  sess_global_step w' = sess_global_step w /\
  sess_weights w' = sess_weights w /\
  sess_metric_vars w' = sess_metric_vars w /\
  saved_models w' = saved_models w /\
  exists t, trace w' = trace w ++ t /\ pulls t = [] /\ step_losses t = [].

(** The events of the accumulation loop of [_evaluate]: [n] times, one
    batch pulled from [g] (from position [p] on) and one run of the
    update ops. *)
Fixpoint accumulation (g p : nat) (ops : list metric) (n : nat)
  : list event :=
  match n with
  | O => []
  | S n' => EvNext g p :: EvUpdate ops :: accumulation g (S p) ops n'
  end.

(** The metric variables after folding in, one by one, the [n] batches
    that [g] yields from position [p] on. *)
Fixpoint accumulated (ops : list metric) (weights : Weights) (g p n : nat)
         (vars : MetricVars) : MetricVars :=
  match n with
  | O => vars
  | S n' =>
      match generator_source g p with
      | Some batch =>
          accumulated ops weights g (S p) n'
                      (run_update_ops ops weights batch vars)
      | None => vars
      end
  end.

(** The most recent of the values [shown], [before] when there is none. *)
Definition latest (shown : list pyfloat) (before : option pyfloat)
  : option pyfloat :=
  fold_left (fun _ x => Some x) shown before.

(** A metric name outside ['loss'], ['mean_iou'], ['accuracy']. *)
Definition unknown_metric (metrics : list string) : Prop :=
  exists m, In m metrics /\ mem m ["loss"; "mean_iou"; "accuracy"] = false.

(** The metrics [_initialize_metrics] tracks for the requested names, in
    its order: name, initial best value, and graph metric. *)
Definition tracked (metrics : list string)
  : list (string * pyfloat * metric) :=
  (if mem "loss" metrics
   then [("loss", Fin (999999999 # 10), MeanLoss)] else [])
  ++ (if mem "mean_iou" metrics then [("mean_iou", Fin 0, MeanIoU)] else [])
  ++ (if mem "accuracy" metrics then [("accuracy", Fin 0, Acc)] else []).

(** The lists of tracked metrics are those of the requested names. *)
Definition tracks (metrics : list string) (w : World) : Prop :=
  metric_names w = map (fun x => fst (fst x)) (tracked metrics) /\
  metric_update_ops w = map snd (tracked metrics) /\
  metric_value_tensors w = map snd (tracked metrics).

(** The four configuration errors of [train]. *)
Definition config_error (a : TrainArgs) : Prop :=
  unknown_metric (metrics a) \/
  mem (eval_dataset a) ["train"; "val"] = false \/
  (eval_dataset a = "val" /\ (val_generator a = None \/ val_steps a = None)) \/
  (mem (monitor a) (metrics a) = false /\ monitor a <> "loss").

(** A call of [train] that only trains: no metrics, no checkpoints, no
    summaries, and a training generator that is never exhausted. *)
Definition plain_training (a : TrainArgs) : Prop :=
  eval_dataset a = "train" /\
  metrics a = [] /\
  monitor a = "loss" /\
  record_summaries a = false /\
  save_during_training a = false /\
  eval_frequency a <> 0 /\
  0 <= training_loss_display_averaging a /\
  0 < steps_per_epoch a /\
  forall i, generator_source (train_generator a) i <> None.

End Vocabulary.

(** ** Vocabulary of the further properties *)

(** The learning rate fed to each training step of a trace and whether the
    step recorded a summary, in order. *)
Definition train_runs (t : list event) : list (pyfloat * bool) :=
  flat_map (fun e => match e with
                     | EvTrainRun _ learning_rate with_summary =>
                         [(learning_rate, with_summary)]
                     | _ => []
                     end) t.

Section FurtherVocabulary.

Context {G : GraphProvider}.

(** [w'] extends the trace of [w] by events that are not training steps,
    and has the step counter and [self.g_step] of [w]. *)
Definition no_step (w w' : World) : Prop :=
  sess_global_step w' = sess_global_step w /\
  g_step w' = g_step w /\
  exists t, trace w' = trace w ++ t /\ train_runs t = [].

(** The step counter that [sess.run] fetches together with a training
    step, run while the counter is [c]. *)
Definition fetched (c : Z) : Z :=
  if fetches_advanced_step c then wrap32 (c + 1) else c.

(** [self.g_step] and the step counter after [n] training steps, from
    [self.g_step = g] and the counter [c]. *)
Fixpoint steps_state (n : nat) (g c : Z) : Z * Z :=
  match n with
  | O => (g, c)
  | S n' => steps_state n' (fetched c) (wrap32 (c + 1))
  end.

(** The values of [self.g_step] at the start of each of [n] training
    steps in a row, from [self.g_step = g] and the counter [c]. *)
Fixpoint fetched_steps (g c : Z) (n : nat) : list Z :=
  match n with
  | O => []
  | S n' => g :: fetched_steps (fetched c) (wrap32 (c + 1)) n'
  end.

(** Whether a training step that starts with [self.g_step = g] records a
    summary: [record_summaries and g % summaries_frequency == 0], where
    the remainder by zero is zero. *)
Definition summary_due (a : TrainArgs) (g : Z) : bool :=
  record_summaries a
  && ((summaries_frequency a =? 0) || (g mod summaries_frequency a =? 0)).

(** What a training step that starts with [self.g_step = g] is fed: the
    learning rate of the schedule at [g], and whether it records a
    summary. *)
Definition expected_run (a : TrainArgs) (g : Z) : pyfloat * bool :=
  (learning_rate_schedule a g, summary_due a g).

(** From [w] to [w'] the training steps were fed as expected from the
    value of [self.g_step] in [w], and [self.g_step] and the step counter
    follow them. *)
Definition runs_as_expected (a : TrainArgs) (w w' : World) : Prop :=
  forall g,
    g_step w = Some g ->
    exists t,
      trace w' = trace w ++ t /\
      train_runs t =
        map (expected_run a)
            (fetched_steps g (sess_global_step w)
                           (List.length (train_runs t))) /\
      g_step w' =
        Some (fst (steps_state (List.length (train_runs t)) g
                               (sess_global_step w))) /\
      sess_global_step w' =
        snd (steps_state (List.length (train_runs t)) g
                         (sess_global_step w)).

(** The step counters at which a call that saves every [save_frequency]
    epochs saves, for the epochs [l] run from the step counter [g] on. *)
Fixpoint checkpoint_steps (a : TrainArgs) (g : Z) (l : list Z) : list Z :=
  match l with
  | [] => []
  | epoch :: l' =>
      (if epoch mod save_frequency a =? 0
       then [counter_after (Z.to_nat (steps_per_epoch a)) g] else [])
      ++ checkpoint_steps a (counter_after (Z.to_nat (steps_per_epoch a)) g)
                          l'
  end.

(** [w'] has the disk, the step counter and the variables-updated flag of
    [w]. *)
Definition same_checkpoints (w w' : World) : Prop :=
  saved_models w' = saved_models w /\
  sess_global_step w' = sess_global_step w /\
  variables_updated w' = variables_updated w.

(** [w'] has the best and the smoothed training loss of [w]. *)
Definition same_losses (w w' : World) : Prop :=
  best_training_loss w' = best_training_loss w /\
  training_loss w' = training_loss w.

(** [w'] has every generator at the position it has in [w]. *)
Definition same_positions (w w' : World) : Prop :=
  generator_position w' = generator_position w.

(** Whether [train] evaluates the model after the epoch [epoch]. *)
Definition evaluates (a : TrainArgs) (epoch : Z) : bool :=
  (0 <? Z.of_nat (List.length (metrics a)))
  && (epoch mod eval_frequency a =? 0).

(** The best training loss of [w'] is the one of [w] or is strictly
    below it. *)
Definition not_worse (w w' : World) : Prop :=
  best_training_loss w' = best_training_loss w \/
  float_lt (best_training_loss w') (best_training_loss w) = true.

End FurtherVocabulary.

(** * Properties *)

(** ** The trailing window *)

Lemma tl_skipn {A : Type} (n : nat) (l : list A) :
  tl (skipn n l) = skipn (S n) l.
Proof.
  revert l. induction n as [|n IH]; intros [|x l]; simpl; auto.
Qed.

Lemma lastn_nil {A : Type} (k : nat) : lastn k (@nil A) = [].
Proof. unfold lastn. apply skipn_nil. Qed.

(** Appending to a deque that holds the last [k] elements of [p] leaves
    the last [k] elements of [p ++ [c]]. *)
Lemma deque_append_lastn (k : nat) (p : list pyfloat) (c : pyfloat) :
  deque_append k (lastn k p) c = lastn k (p ++ [c]).
Proof.
  unfold deque_append, lastn.
  rewrite !length_app, length_skipn. simpl.
  destruct (Nat.ltb_spec k (List.length p - (List.length p - k) + 1)) as [H|H].
  - assert (Hk : (k <= List.length p)%nat) by lia.
    replace (List.length p + 1 - k)%nat with (S (List.length p - k)) by lia.
    destruct k as [|k].
    + rewrite Nat.sub_0_r, skipn_all.
      transitivity (@nil pyfloat); [reflexivity|].
      symmetry. apply skipn_all2. rewrite length_app. simpl. lia.
    + rewrite skipn_app.
      replace (S (List.length p - S k) - List.length p)%nat with O by lia.
      simpl skipn at 3. rewrite <- tl_skipn.
      destruct (skipn (List.length p - S k) p) as [|x q] eqn:E.
      * apply (f_equal (@List.length _)) in E.
        rewrite length_skipn in E. simpl in E. lia.
      * reflexivity.
  - replace (List.length p - k)%nat with O by lia.
    replace (List.length p + 1 - k)%nat with O by lia.
    reflexivity.
Qed.

Lemma running_lastn (k : nat) (losses : list pyfloat) :
  forall p,
    running k (lastn k p) losses =
    map (fun n => np_mean (lastn k (p ++ firstn n losses)))
        (seq 1 (List.length losses)).
Proof.
  induction losses as [|c losses IH]; intros p; simpl.
  - reflexivity.
  - rewrite deque_append_lastn. f_equal.
    rewrite IH, <- (seq_shift (List.length losses) 1), map_map.
    apply map_ext. intros n. simpl. now rewrite <- app_assoc.
Qed.

(** The step loop, started on an empty deque, computes the moving
    average. *)
Lemma running_moving_average (k : nat) (losses : list pyfloat) :
  running k [] losses = moving_average k losses.
Proof.
  rewrite <- (lastn_nil k). apply running_lastn.
Qed.

Lemma np_mean_single (c : pyfloat) : float_same (np_mean [c]) c.
Proof.
  destruct c as [q|]; [|exact I].
  unfold np_mean, float_same. cbn [float_sum List.length].
  rewrite Qred_correct. change (inject_Z (Z.of_nat 1)) with 1%Q.
  unfold Qdiv. change (/ 1)%Q with 1%Q.
  rewrite Qmult_1_r. apply Qplus_0_r.
Qed.

Lemma latest_app (s1 s2 : list pyfloat) (before : option pyfloat) :
  latest (s1 ++ s2) before = latest s2 (latest s1 before).
Proof. apply fold_left_app. Qed.

(** ** The 32-bit step counter *)

Lemma wrap32_add (x y : Z) : wrap32 (wrap32 x + y) = wrap32 (x + y).
Proof.
  unfold wrap32. f_equal.
  replace ((x + 2147483648) mod 4294967296 - 2147483648 + y + 2147483648)
    with ((x + 2147483648) mod 4294967296 + y) by lia.
  rewrite Zplus_mod_idemp_l. f_equal. lia.
Qed.

Lemma wrap32_int32 (z : Z) : int32 (wrap32 z).
Proof.
  unfold wrap32, int32.
  pose proof (Z.mod_pos_bound (z + 2147483648) 4294967296). lia.
Qed.

Lemma wrap32_small (z : Z) : int32 z -> wrap32 z = z.
Proof.
  unfold wrap32, int32. intros H.
  rewrite Z.mod_small; lia.
Qed.

Lemma counter_after_S (n : nat) (g : Z) :
  counter_after n (wrap32 (g + 1)) = counter_after (S n) g.
Proof.
  destruct n as [|n]; [reflexivity|].
  cbn [counter_after]. rewrite wrap32_add. f_equal. lia.
Qed.

Lemma counter_after_add (n m : nat) (g : Z) :
  counter_after m (counter_after n g) = counter_after (n + m) g.
Proof.
  destruct n as [|n]; [reflexivity|].
  destruct m as [|m].
  - now rewrite Nat.add_0_r.
  - cbn [counter_after Nat.add]. rewrite wrap32_add. f_equal. lia.
Qed.

Lemma counter_after_small (n : nat) (g : Z) :
  int32 g -> g + Z.of_nat n <= 2147483647 ->
  counter_after n g = g + Z.of_nat n.
Proof.
  unfold int32. intros Hg Hn. destruct n as [|n].
  - cbn. lia.
  - cbn [counter_after]. apply wrap32_small. unfold int32. lia.
Qed.

(** ** Reasoning about the monad *)

Section Monad.

Context {G : GraphProvider}.

Lemma bind_ok_inv {A B : Type} (c : M A) (k : A -> M B) w y w' :
  bind c k w = (Ok y, w') ->
  exists x w1, c w = (Ok x, w1) /\ k x w1 = (Ok y, w').
Proof.
  unfold bind. destruct (c w) as [[x|e] w1]; intros H.
  - now exists x, w1.
  - discriminate.
Qed.

Lemma bind_ok {A B : Type} (c : M A) (k : A -> M B) w x w1 :
  c w = (Ok x, w1) -> bind c k w = k x w1.
Proof. unfold bind. now intros ->. Qed.

Lemma bind_raise {A B : Type} (c : M A) (k : A -> M B) w e w1 :
  c w = (Raise e, w1) -> bind c k w = (Raise e, w1).
Proof. unfold bind. now intros ->. Qed.

Lemma bind_cases {A B : Type} (c : M A) (k : A -> M B) (w : World)
      (P : result B * World -> Prop) :
  (forall x w1, c w = (Ok x, w1) -> P (k x w1)) ->
  (forall e w1, c w = (Raise e, w1) -> P (Raise e, w1)) ->
  P (bind c k w).
Proof.
  intros Hok Hraise. unfold bind.
  destruct (c w) as [[x|e] w1]; [apply Hok | apply Hraise]; reflexivity.
Qed.

Variable R : World -> World -> Prop.
Hypothesis R_refl : forall w, R w w.
Hypothesis R_trans : forall w1 w2 w3, R w1 w2 -> R w2 w3 -> R w1 w3.

Lemma preserves_ret {A : Type} (x : A) : preserves R (ret x).
Proof. intros w. apply R_refl. Qed.

Lemma preserves_raise {A : Type} (e : exn) : preserves R (@raise _ A e).
Proof. intros w. apply R_refl. Qed.

Lemma preserves_get : preserves R get.
Proof. intros w. apply R_refl. Qed.

Lemma preserves_modify (f : World -> World) :
  (forall w, R w (f w)) -> preserves R (modify f).
Proof. intros H w. apply H. Qed.

Lemma preserves_bind {A B : Type} (c : M A) (k : A -> M B) :
  preserves R c -> (forall x, preserves R (k x)) -> preserves R (bind c k).
Proof.
  intros Hc Hk w. unfold bind. specialize (Hc w).
  destruct (c w) as [[x|e] w1]; simpl in *; auto.
  eapply R_trans; [exact Hc | apply Hk].
Qed.

Lemma preserves_foldM {A B : Type} (f : B -> A -> M B) (l : list A) :
  (forall b x, preserves R (f b x)) -> forall b, preserves R (foldM f l b).
Proof.
  intros Hf. induction l as [|x l IH]; intros b; simpl.
  - apply preserves_ret.
  - apply preserves_bind; auto.
Qed.

End Monad.

Create HintDb py discriminated.
#[local] Hint Unfold train train_epoch update_best update_best_metric
  decide_save lt_opt train_step setup_writers check_config gpu_check
  evaluate _evaluate accumulate_batch save check_metrics _initialize_metrics track
  sess_run_train the_g_step next py_getitem py_index py_mod np_mod
  forM_ when emit : py.

(** [pres fin] proves [preserves R c] by following the structure of [c];
    [fin] closes the goals [R w (f w)] left by the assignments. *)
Ltac pres_step fin :=
  lazymatch goal with
  | |- preserves _ (ret _) => apply preserves_ret; assumption
  | |- preserves _ (raise _) => apply preserves_raise; assumption
  | |- preserves _ get => apply preserves_get; assumption
  | |- preserves _ (bind _ _) =>
      apply preserves_bind; [assumption | | intros ? ]
  | |- preserves _ (foldM _ _ _) =>
      apply preserves_foldM; [assumption | assumption | intros ? ? ]
  | |- preserves _ (modify _) => apply preserves_modify; intros ?; cbn; fin
  | |- preserves _ (if ?b then _ else _) => destruct b
  | |- preserves _ (match ?x with _ => _ end) => destruct x
  end.

Ltac pres fin := repeat autounfold with py; repeat pres_step fin.

(** ** Frames *)

Section Frames.

Context {G : GraphProvider}.

Lemma same_training_state_refl w : same_training_state w w.
Proof. repeat split. Qed.

Lemma same_training_state_trans w1 w2 w3 :
  same_training_state w1 w2 -> same_training_state w2 w3 ->
  same_training_state w1 w3.
Proof. unfold same_training_state. intuition congruence. Qed.

Lemma no_training_refl w : no_training w w.
Proof.
  repeat split. exists []. rewrite app_nil_r. repeat split.
Qed.

Lemma no_training_trans w1 w2 w3 :
  no_training w1 w2 -> no_training w2 w3 -> no_training w1 w3.
Proof.
  intros (Hg1 & Hl1 & t1 & Ht1 & Hs1 & Hp1 & Hb1)
         (Hg2 & Hl2 & t2 & Ht2 & Hs2 & Hp2 & Hb2).
  split; [congruence|]. split; [congruence|].
  exists (t1 ++ t2). rewrite Ht2, Ht1, app_assoc.
  unfold step_losses, shown_losses, epoch_bars in *.
  rewrite !flat_map_app, Hs1, Hs2, Hp1, Hp2, Hb1, Hb2. repeat split.
Qed.

Lemma nothing_run_refl w : nothing_run w w.
Proof.
  repeat split. exists []. rewrite app_nil_r. repeat split.
Qed.

Lemma nothing_run_trans w1 w2 w3 :
  nothing_run w1 w2 -> nothing_run w2 w3 -> nothing_run w1 w3.
Proof.
  intros (Ha1 & Hb1 & Hc1 & Hd1 & He1 & t1 & Ht1 & Hp1 & Hs1)
         (Ha2 & Hb2 & Hc2 & Hd2 & He2 & t2 & Ht2 & Hp2 & Hs2).
  repeat (split; [congruence|]).
  exists (t1 ++ t2). rewrite Ht2, Ht1, app_assoc.
  unfold pulls, step_losses in *.
  rewrite !flat_map_app, Hp1, Hp2, Hs1, Hs2. repeat split.
Qed.

End Frames.

Ltac fin_trace :=
  repeat (split; [reflexivity|]);
  first [ exists []; rewrite app_nil_r; repeat split; reflexivity
        | eexists; split; [reflexivity | repeat split; reflexivity] ].

Ltac pres_no_training :=
  pose proof no_training_refl; pose proof no_training_trans;
  pres fin_trace.

Section Quiet.

Context {G : GraphProvider}.

Lemma evaluate_same_training_state g ms n d :
  preserves same_training_state (_evaluate g ms n d).
Proof.
  pose proof same_training_state_refl. pose proof same_training_state_trans.
  pres ltac:(repeat split).
Qed.

Lemma evaluate_no_training g ms n d :
  preserves no_training (_evaluate g ms n d).
Proof. pres_no_training. Qed.

Lemma save_no_training dir tags name b1 b2 b3 :
  preserves no_training (save dir tags name b1 b2 b3).
Proof. pres_no_training. Qed.

Lemma decide_save_no_training a : preserves no_training (decide_save a).
Proof. pres_no_training. Qed.

Lemma update_best_no_training a epoch :
  preserves no_training (update_best a epoch).
Proof. pres_no_training. Qed.

Lemma initialize_metrics_no_training ms :
  preserves no_training (_initialize_metrics ms).
Proof. pres_no_training. Qed.

Lemma setup_writers_no_training a : preserves no_training (setup_writers a).
Proof. pres_no_training. Qed.

Lemma gpu_check_no_training : preserves no_training gpu_check.
Proof. pres_no_training. Qed.

Lemma check_config_no_training a : preserves no_training (check_config a).
Proof. pres_no_training. Qed.

End Quiet.

(** ** The step loop *)

Ltac break_match :=
  match goal with
  | |- context [match ?x with _ => _ end] =>
      match type of x with
      | result _ => fail 1
      | (_ * World)%type => fail 1
      | _ => destruct x eqn:?
      end
  end.

Lemma step_losses_app t1 t2 :
  step_losses (t1 ++ t2) = step_losses t1 ++ step_losses t2.
Proof. apply flat_map_app. Qed.

Lemma shown_losses_app t1 t2 :
  shown_losses (t1 ++ t2) = shown_losses t1 ++ shown_losses t2.
Proof. apply flat_map_app. Qed.

Lemma epoch_bars_app t1 t2 :
  epoch_bars (t1 ++ t2) = epoch_bars t1 ++ epoch_bars t2.
Proof. apply flat_map_app. Qed.

Section Steps.
Context {G : GraphProvider}.
Variable a : TrainArgs.
Local Abbreviation K := (Z.to_nat (training_loss_display_averaging a)).

Lemma train_step_spec lr h i w :
  match train_step a (lr, h) i w with
  | (Ok (lr', h'), w') =>
      exists c t,
        h' = deque_append K h c /\
        trace w' = trace w ++ t /\
        step_losses t = [c] /\
        shown_losses t = [np_mean h'] /\
        epoch_bars t = [] /\
        training_loss w' = Some (np_mean h') /\
        sess_global_step w' = wrap32 (sess_global_step w + 1) /\
        variables_updated w' = true
  | (Raise _, w') => no_training w w'
  end.
Proof.
  unfold train_step. repeat autounfold with py.
  unfold bind, get, modify, ret, raise. cbn.
  repeat (break_match; cbn); try fin_trace;
    eexists; eexists; rewrite <- !app_assoc; repeat split; reflexivity.
Qed.

Lemma train_steps_spec l :
  forall lr h w,
    match foldM (train_step a) l (lr, h) w with
    | (r, w') =>
        exists t,
          trace w' = trace w ++ t /\
          shown_losses t = running K h (step_losses t) /\
          epoch_bars t = [] /\
          training_loss w' = latest (shown_losses t) (training_loss w) /\
          sess_global_step w' =
            counter_after (List.length (step_losses t)) (sess_global_step w) /\
          match r with
          | Ok (_, h') =>
              List.length (step_losses t) = List.length l /\
              h' = fold_left (deque_append K) (step_losses t) h /\
              (l = [] -> w' = w) /\
              (l <> [] -> variables_updated w' = true)
          | Raise _ => (List.length (step_losses t) < List.length l)%nat
          end
    end.
Proof.
  induction l as [|i l IH]; intros lr h w.
  - simpl. exists []. rewrite app_nil_r. cbn.
    repeat split. congruence.
  - simpl. pose proof (train_step_spec lr h i w) as Hs.
    destruct (train_step a (lr, h) i w) as [[[lr1 h1]|e] w1] eqn:E.
    + erewrite bind_ok by exact E.
      destruct Hs as (c & t1 & Hh & Ht & Hl & Hsh & Hb & Htl & Hg & Hv).
      specialize (IH lr1 h1 w1).
      destruct (foldM (train_step a) l (lr1, h1) w1) as [r w'].
      destruct IH as (t2 & Ht2 & Hsh2 & Hb2 & Htl2 & Hg2 & Hr).
      exists (t1 ++ t2).
      rewrite step_losses_app, shown_losses_app, epoch_bars_app.
      rewrite Hl, Hsh, Hb, Hb2, latest_app. cbn [app running].
      rewrite <- Hh, <- Hsh2, Ht2, Ht, app_assoc, Hg2, Hg.
      repeat split; auto.
      * rewrite Htl2, Htl. reflexivity.
      * apply counter_after_S.
      * destruct r as [[lr' h']|e']; [|cbn [List.length]; lia].
        destruct Hr as (Hlen & Hh' & Hnil & Hvu). cbn [List.length fold_left].
        rewrite <- Hh. repeat split; auto; try congruence.
        intros _. destruct l; [|apply Hvu; congruence].
        rewrite Hnil by reflexivity. exact Hv.
    + erewrite bind_raise by exact E.
      destruct Hs as (Hg & Hl & t & Ht & Hs1 & Hs2 & Hs3).
      exists t. rewrite Hs1, Hs2, Hs3, Hg, Hl. cbn.
      repeat split; [exact Ht | lia].
Qed.

Lemma train_epoch_spec lr epoch w :
  match train_epoch a lr epoch w with
  | (r, w') =>
      exists t,
        trace w' = trace w ++ t /\
        shown_losses t = moving_average K (step_losses t) /\
        training_loss w' = latest (shown_losses t) (training_loss w) /\
        sess_global_step w' =
          counter_after (List.length (step_losses t)) (sess_global_step w) /\
        match r with
        | Ok _ =>
            List.length (step_losses t) = Z.to_nat (steps_per_epoch a) /\
            epoch_bars t = [epoch]
        | Raise _ =>
            (List.length (step_losses t) <= Z.to_nat (steps_per_epoch a))%nat /\
            (epoch_bars t = [] \/ epoch_bars t = [epoch])
        end
  end.
Proof.
  unfold train_epoch.
  match goal with
  | |- context [bind (foldM _ _ _) ?k] =>
      assert (Hk : forall locals, preserves no_training (k locals))
        by (intros locals; cbv beta; pres_no_training)
  end.
  destruct (training_loss_display_averaging a <? 0).
  - erewrite bind_raise by reflexivity.
    exists []. rewrite app_nil_r. repeat split; [cbn; lia | now left].
  - erewrite bind_ok by reflexivity.
    erewrite bind_ok by reflexivity.
    match goal with
    | |- context [bind (foldM ?f ?l ?b) _ ?w0] =>
        pose proof (train_steps_spec l lr [] w0) as Hs;
        destruct (foldM f l b w0) as [[[lr1 h1]|e] w1] eqn:E
    end.
    + erewrite bind_ok by exact E.
      destruct Hs as (t1 & Ht1 & Hsh & Hb & Htl & Hg & Hlen & _).
      pose proof (Hk (lr1, h1)) as Hq. unfold preserves in Hq.
      specialize (Hq w1). cbn [fst] in Hq |- *. cbn in Ht1, Htl, Hg.
      match type of Hq with
      | no_training _ (snd ?x) => destruct x as [r w']
      end.
      destruct Hq as (Hg2 & Hl2 & t2 & Ht2 & Hs2 & Hp2 & Hb2).
      cbn [snd] in *.
      exists ([EvBar (BarEpoch epoch (epochs a))] ++ t1 ++ t2).
      rewrite !step_losses_app, !shown_losses_app, !epoch_bars_app.
      rewrite Hs2, Hp2, Hb2, Hb, !app_nil_r. cbn [step_losses shown_losses epoch_bars flat_map app].
      rewrite running_moving_average in Hsh. rewrite Hsh in Htl.
      rewrite Hsh, Ht2, Ht1, Hl2, Htl, Hg2, Hg.
      cbn. rewrite <- !app_assoc. repeat split.
      unfold range in Hlen. rewrite length_seq in Hlen.
      destruct r; (split; [lia|auto]).
    + erewrite bind_raise by exact E.
      destruct Hs as (t1 & Ht1 & Hsh & Hb & Htl & Hg & Hlen).
      cbn in Ht1, Htl, Hg.
      unfold range in Hlen. rewrite length_seq in Hlen.
      exists ([EvBar (BarEpoch epoch (epochs a))] ++ t1).
      rewrite !step_losses_app, !shown_losses_app, !epoch_bars_app, Hb.
      cbn [step_losses shown_losses epoch_bars flat_map app].
      rewrite running_moving_average in Hsh. rewrite Hsh in Htl.
      rewrite Hsh, Ht1, Htl, Hg.
      cbn. rewrite <- !app_assoc. repeat split; [lia | now right].
Qed.

Lemma train_epochs_spec l :
  forall lr w,
    match foldM (train_epoch a) l lr w with
    | (r, w') =>
        exists t,
          trace w' = trace w ++ t /\
          sess_global_step w' =
            counter_after (List.length (step_losses t)) (sess_global_step w) /\
          match r with
          | Ok _ =>
              List.length (step_losses t) =
                (Z.to_nat (steps_per_epoch a) * List.length l)%nat /\
              epoch_bars t = l
          | Raise _ =>
              (List.length (step_losses t) <=
                 Z.to_nat (steps_per_epoch a) * List.length l)%nat /\
              exists k, epoch_bars t = firstn k l
          end
    end.
Proof.
  induction l as [|epoch l IH]; intros lr w.
  - simpl. exists []. rewrite app_nil_r, Nat.mul_0_r.
    repeat split.
  - simpl. pose proof (train_epoch_spec lr epoch w) as Hs.
    destruct (train_epoch a lr epoch w) as [[lr1|e] w1] eqn:E.
    + erewrite bind_ok by exact E.
      destruct Hs as (t1 & Ht1 & _ & _ & Hg1 & Hlen1 & Hb1).
      specialize (IH lr1 w1).
      destruct (foldM (train_epoch a) l lr1 w1) as [r w'].
      destruct IH as (t2 & Ht2 & Hg2 & Hr).
      exists (t1 ++ t2).
      rewrite step_losses_app, epoch_bars_app, length_app, Ht2, Ht1, Hg2, Hg1,
        app_assoc.
      repeat split; [apply counter_after_add|].
      destruct r.
      * destruct Hr as [Hlen2 Hb2].
        rewrite Hlen1, Hlen2, Hb1, Hb2. split; [lia|reflexivity].
      * destruct Hr as (Hlen2 & k & Hb2).
        rewrite Hlen1, Hb1, Hb2. split; [lia|]. now exists (S k).
    + erewrite bind_raise by exact E.
      destruct Hs as (t1 & Ht1 & _ & _ & Hg1 & Hlen1 & Hb1).
      exists t1. repeat split; try assumption.
      * cbn [List.length]. lia.
      * destruct Hb1 as [Hb1|Hb1]; rewrite Hb1;
          [now exists O | now exists 1%nat].
Qed.

End Steps.

(** ** Steps that return *)

Section StepsReturn.
Context {G : GraphProvider}.
Variable a : TrainArgs.
Local Abbreviation K := (Z.to_nat (training_loss_display_averaging a)).
Local Abbreviation tg := (train_generator a).

Lemma bind_assoc {A B C : Type} (c : M A) (f : A -> M B) (k : B -> M C) w :
  bind (bind c f) k w = bind c (fun x => bind (f x) k) w.
Proof. unfold bind. destruct (c w) as [[x|e] w1]; reflexivity. Qed.

Lemma extends_refl (w : World) : extends w w.
Proof. exists []. now rewrite app_nil_r. Qed.

Lemma extends_trans (w1 w2 w3 : World) :
  extends w1 w2 -> extends w2 w3 -> extends w1 w3.
Proof.
  intros [t1 H1] [t2 H2]. exists (t1 ++ t2). now rewrite H2, H1, app_assoc.
Qed.

(** A training step on a generator that yields [batch], once [self.g_step]
    is set (it is only read with [record_summaries]), returns: it has
    trained on [batch] with the learning rate [lr], and tracks and shows
    the mean of the deque the loss was appended to. *)
Lemma train_step_first lr h i (w : World) (batch : Batch) :
  generator_source tg (generator_position w tg) = Some batch ->
  (record_summaries a = true -> g_step w <> None) ->
  let c := snd (run_train_op (sess_weights w) batch lr (keep_prob a)) in
  exists lr' w' t,
    train_step a (lr, h) i w = (Ok (lr', deque_append K h c), w') /\
    trace w' = trace w ++ t /\
    step_losses t = [c] /\
    shown_losses t = [np_mean (deque_append K h c)] /\
    training_loss w' = Some (np_mean (deque_append K h c)) /\
    generator_position w' tg = S (generator_position w tg) /\
    g_step w' <> None.
Proof.
  intros Hb Hg c. subst c.
  unfold train_step. repeat autounfold with py.
  unfold bind, get, modify, ret, raise. cbn. rewrite Hb. cbn.
  destruct (record_summaries a); cbn;
    repeat (break_match; cbn);
    try (exfalso; exact (Hg eq_refl eq_refl));
    rewrite ?Nat.eqb_refl;
    do 3 eexists; (split; [reflexivity|]); cbn; rewrite <- !app_assoc;
    repeat split; rewrite ?Nat.eqb_refl; try reflexivity; discriminate.
Qed.


(** An epoch of at least one step, on a generator that yields [batch],
    trains on it first. *)
Lemma train_epoch_first lr epoch (w : World) (batch : Batch) :
  0 <= training_loss_display_averaging a ->
  0 < steps_per_epoch a ->
  generator_source tg (generator_position w tg) = Some batch ->
  (record_summaries a = true -> g_step w <> None) ->
  exists t rest,
    trace (snd (train_epoch a lr epoch w)) = trace w ++ t /\
    step_losses t =
      snd (run_train_op (sess_weights w) batch lr (keep_prob a)) :: rest.
Proof.
  intros HK Hsteps Hb Hg. unfold train_epoch.
  destruct (Z.ltb_spec (training_loss_display_averaging a) 0) as [?|_];
    [lia|].
  erewrite bind_ok by reflexivity.
  erewrite bind_ok by reflexivity.
  unfold range.
  destruct (Z.to_nat (steps_per_epoch a)) as [|n] eqn:En; [lia|].
  cbn [seq foldM].
  match goal with
  | |- context [bind (bind (train_step a ?b ?i) ?f) ?k ?w0] =>
      assert (Hrest : forall locals, preserves extends (bind (f locals) k))
        by (intros locals;
            pose proof extends_refl; pose proof extends_trans;
            pres ltac:(first [ exists []; rewrite app_nil_r; reflexivity
                             | eexists; reflexivity ]));
      destruct (@train_step_first lr [] i w0 batch Hb Hg)
        as (lr1 & w1 & t1 & E1 & Ht1 & Hl1 & _);
      rewrite (bind_assoc (train_step a b i) f k w0)
  end.
  erewrite bind_ok by exact E1. cbv beta.
  match goal with
  | |- context [snd (bind (foldM _ _ ?locals) _ w1)] =>
      destruct (Hrest locals w1) as [t2 Ht2]
  end.
  exists ([EvBar (BarEpoch epoch (epochs a))] ++ t1 ++ t2), (step_losses t2).
  rewrite Ht2, Ht1. cbn [trace set_trace].
  rewrite !step_losses_app, Hl1, <- !app_assoc. split; reflexivity.
Qed.

End StepsReturn.

(** ** The claims on the training loop *)

Section TrainingLoop.

Context {G : GraphProvider}.


(** C10, for a window of at least one loss: [train] creates the deque of
    losses anew in every epoch, so the window never spans an epoch
    boundary.  Whatever happened before the epoch (the world [w] and the
    learning rate are arbitrary), the smoothed losses shown in the epoch
    are the moving average of the step losses of this epoch alone; an
    epoch that returns has trained [steps_per_epoch] times; and when the
    epoch has a step and the generator a batch, the epoch trains on that
    batch first and the first loss shown is the loss of that step. *)
Theorem window_is_reset_each_epoch
        (a : TrainArgs) (lr : pyfloat) (epoch : Z) (w : World) :
  exists t,
    trace (snd (train_epoch a lr epoch w)) = trace w ++ t /\
    shown_losses t =
      moving_average (Z.to_nat (training_loss_display_averaging a))
                     (step_losses t) /\
    (forall lr' w',
        train_epoch a lr epoch w = (Ok lr', w') ->
        List.length (step_losses t) = Z.to_nat (steps_per_epoch a)) /\
    (forall batch : Batch,
        0 < training_loss_display_averaging a ->
        0 < steps_per_epoch a ->
        generator_source (train_generator a)
                         (generator_position w (train_generator a))
        = Some batch ->
        (record_summaries a = true -> g_step w <> None) ->
        exists rest s shown,
          step_losses t =
            snd (run_train_op (sess_weights w) batch lr (keep_prob a))
            :: rest /\
          shown_losses t = s :: shown /\
          float_same
            s (snd (run_train_op (sess_weights w) batch lr (keep_prob a)))).
Proof.
  pose proof (train_epoch_spec a lr epoch w) as H.
  pose proof (train_epoch_first a lr epoch w) as Hfirst.
  destruct (train_epoch a lr epoch w) as [r w'].
  destruct H as (t & Ht & Hsh & _ & _ & Hr).
  exists t. split; [exact Ht|]. split; [exact Hsh|]. split.
  - intros lr' w1 E. injection E as -> _. apply Hr.
  - intros batch HK Hsteps Hb Hg.
    destruct (Hfirst batch ltac:(lia) Hsteps Hb Hg) as (t' & rest & Ht' & Hc).
    cbn [snd] in Ht, Ht'. rewrite Ht in Ht'. apply app_inv_head in Ht'.
    subst t'. rewrite Hsh, Hc.
    unfold moving_average. cbn [List.length seq map firstn].
    exists rest. eexists. eexists. split; [reflexivity|].
    split; [reflexivity|].
    unfold lastn. cbn [List.length].
    replace (1 - Z.to_nat (training_loss_display_averaging a))%nat
      with O by lia.
    apply np_mean_single.
Qed.

(** What a call of [train] has run, whether it returns or raises: the
    steps of the epochs 1, 2, ... in order, [steps_per_epoch] in each
    epoch that was completed, and all of them when it returns; the step
    counter has advanced once per step. *)
Lemma train_counts (a : TrainArgs) (w : World) :
  exists t,
    trace (snd (train a w)) = trace w ++ t /\
    sess_global_step (snd (train a w)) =
      counter_after (List.length (step_losses t)) (sess_global_step w) /\
    match fst (train a w) with
    | Ok _ =>
        List.length (step_losses t) =
          (Z.to_nat (steps_per_epoch a) * Z.to_nat (epochs a))%nat /\
        epoch_bars t = range1 (epochs a)
    | Raise _ =>
        (List.length (step_losses t) <=
           Z.to_nat (steps_per_epoch a) * Z.to_nat (epochs a))%nat /\
        exists k, epoch_bars t = firstn k (range1 (epochs a))
    end.
Proof.
  set (P := fun rw : result unit * World =>
    exists t,
      trace (snd rw) = trace w ++ t /\
      sess_global_step (snd rw) =
        counter_after (List.length (step_losses t)) (sess_global_step w) /\
      match fst rw with
      | Ok _ =>
          List.length (step_losses t) =
            (Z.to_nat (steps_per_epoch a) * Z.to_nat (epochs a))%nat /\
          epoch_bars t = range1 (epochs a)
      | Raise _ =>
          (List.length (step_losses t) <=
             Z.to_nat (steps_per_epoch a) * Z.to_nat (epochs a))%nat /\
          exists k, epoch_bars t = firstn k (range1 (epochs a))
      end).
  change (P (train a w)).
  assert (Hq : forall e w1, no_training w w1 -> P (Raise e, w1)).
  { intros e w1 (Hg & _ & t & Ht & Hs & _ & Hb). exists t.
    cbn [fst snd]. rewrite Hs, Hb. cbn [List.length counter_after].
    repeat split; [exact Ht | exact Hg | lia | now exists O]. }
  unfold train.
  apply bind_cases; intros ? w1 E1;
    pose proof (gpu_check_no_training w) as P1; rewrite E1 in P1;
    cbn [snd] in P1; [|apply Hq; exact P1].
  apply bind_cases; intros ? w2 E2;
    pose proof (check_config_no_training a w1) as P2; rewrite E2 in P2;
    cbn [snd] in P2; [|apply Hq; eapply no_training_trans; eassumption].
  apply bind_cases; intros ? w3 E3; [|discriminate E3].
  apply bind_cases; intros w4' w4 E4; [|discriminate E4].
  apply bind_cases; intros ? w5 E5; [|discriminate E5].
  unfold modify in E3, E5. unfold get in E4.
  injection E3 as _ E3. injection E4 as E4' E4. injection E5 as _ E5.
  subst w4' w4.
  assert (P5 : no_training w w5).
  { eapply no_training_trans; [exact P1|].
    eapply no_training_trans; [exact P2|]. subst w5 w3. fin_trace. }
  apply bind_cases; intros ? w6 E6;
    pose proof (initialize_metrics_no_training (metrics a) w5) as P6;
    rewrite E6 in P6; cbn [snd] in P6;
    [|apply Hq; eapply no_training_trans; eassumption].
  apply bind_cases; intros ? w7 E7;
    pose proof (setup_writers_no_training a w6) as P7;
    rewrite E7 in P7; cbn [snd] in P7;
    [|apply Hq; eapply no_training_trans; [exact P5|];
      eapply no_training_trans; eassumption].
  assert (P57 : no_training w w7).
  { eapply no_training_trans; [exact P5|].
    eapply no_training_trans; eassumption. }
  destruct P57 as (Hg & _ & t0 & Ht0 & Hs0 & _ & Hb0).
  match goal with
  | |- context [bind (foldM _ ?l ?lr0) _ w7] =>
      pose proof (train_epochs_spec a l lr0 w7) as Hs
  end.
  assert (Hlen : List.length (range1 (epochs a)) = Z.to_nat (epochs a))
    by (unfold range1; now rewrite length_map, length_seq).
  apply bind_cases; intros ? w8 E8; rewrite E8 in Hs;
    destruct Hs as (t & Ht & Hgs & Hr); rewrite Hlen in Hr;
    exists (t0 ++ t); cbn [fst snd ret];
    rewrite step_losses_app, epoch_bars_app, Hs0, Hb0, Ht, Ht0, app_assoc,
      Hgs, Hg; cbn [app]; repeat split; apply Hr.
Qed.

End TrainingLoop.

Section Returns.

Context {G : GraphProvider}.

Variable a : TrainArgs.

Hypothesis H_dataset : eval_dataset a = "train".
Hypothesis H_metrics : metrics a = [].
Hypothesis H_monitor : monitor a = "loss".
Hypothesis H_summaries : record_summaries a = false.
Hypothesis H_save : save_during_training a = false.
Hypothesis H_eval_frequency : eval_frequency a <> 0.
Hypothesis H_window : 0 <= training_loss_display_averaging a.
Hypothesis H_steps : 0 < steps_per_epoch a.
Hypothesis H_generator :
  forall i, generator_source (train_generator a) i <> None.

Lemma train_step_keeps_names locals i :
  preserves (fun w w' => metric_names w' = metric_names w)
            (train_step a locals i).
Proof.
  assert (forall w : World, metric_names w = metric_names w) by reflexivity.
  assert (forall w1 w2 w3 : World,
             metric_names w2 = metric_names w1 ->
             metric_names w3 = metric_names w2 ->
             metric_names w3 = metric_names w1) by congruence.
  unfold train_step. pres ltac:(reflexivity).
Qed.

Lemma train_step_returns lr h i w :
  exists r w', train_step a (lr, h) i w = (Ok r, w').
Proof.
  unfold train_step. repeat autounfold with py.
  unfold bind, get, modify, ret, raise. rewrite H_summaries. cbn.
  destruct (generator_source (train_generator a)
              (generator_position w (train_generator a))) as [batch|] eqn:E.
  - repeat (break_match; cbn); eexists; eexists; reflexivity.
  - exfalso. exact (H_generator _ E).
Qed.

Lemma train_steps_return l :
  forall locals w,
    exists r w',
      foldM (train_step a) l locals w = (Ok r, w') /\
      metric_names w' = metric_names w.
Proof.
  induction l as [|i l IH]; intros [lr h] w; simpl.
  - now exists (lr, h), w.
  - destruct (train_step_returns lr h i w) as (r1 & w1 & E1).
    pose proof (train_step_keeps_names (lr, h) i w) as Hn.
    rewrite E1 in Hn. cbn [snd] in Hn.
    erewrite bind_ok by exact E1.
    destruct (IH r1 w1) as (r & w' & E & Hn').
    exists r, w'. split; [exact E | congruence].
Qed.

Lemma latest_some c shown before : exists x, latest (c :: shown) before = Some x.
Proof.
  unfold latest. simpl. generalize c. clear c.
  induction shown as [|s shown IH]; intros c; simpl; eauto.
Qed.

Lemma train_epoch_returns lr epoch w :
  metric_names w = [] ->
  exists lr' w',
    train_epoch a lr epoch w = (Ok lr', w') /\ metric_names w' = [].
Proof.
  intros Hn.
  unfold train_epoch.
  destruct (Z.ltb_spec (training_loss_display_averaging a) 0) as [?|_];
    [lia|].
  erewrite bind_ok by reflexivity.
  erewrite bind_ok by reflexivity.
  match goal with
  | |- context [bind (foldM ?f ?l ?b) _ ?w0] =>
      destruct (train_steps_return l b w0) as (locals & w1 & E & Hn1);
      pose proof (train_steps_spec a l lr [] w0) as Hs
  end.
  rewrite E in Hs. erewrite bind_ok by exact E.
  destruct locals as [lr1 h1].
  destruct Hs as (t & _ & Hsh & _ & Htl & _ & Hlen & _).
  assert (Hl : exists x, training_loss w1 = Some x).
  { rewrite Htl, Hsh. unfold range in Hlen. rewrite length_seq in Hlen.
    destruct (step_losses t) as [|c ls]; [simpl in Hlen; lia|].
    apply latest_some. }
  destruct Hl as [x Hl].
  assert (Hn2 : metric_names w1 = []) by (rewrite Hn1; exact Hn).
  clear Hn1. rename Hn2 into Hn1.
  rewrite H_metrics, H_save. repeat autounfold with py.
  unfold bind, get, modify, ret, raise. cbn. rewrite Hl.
  destruct (Z.eqb_spec (eval_frequency a) 0) as [?|_]; [contradiction|].
  destruct (float_lt x (best_training_loss w1));
    destruct (epoch mod eval_frequency a =? 0); cbn;
    rewrite ?Hn1; cbn;
    eexists; eexists; (split; [reflexivity | exact Hn1]).
Qed.

Lemma train_epochs_return l :
  forall lr w,
    metric_names w = [] ->
    exists lr' w', foldM (train_epoch a) l lr w = (Ok lr', w').
Proof.
  induction l as [|epoch l IH]; intros lr w Hn; simpl.
  - now exists lr, w.
  - destruct (train_epoch_returns lr epoch w Hn) as (lr1 & w1 & E & Hn1).
    erewrite bind_ok by exact E. apply IH. exact Hn1.
Qed.

Lemma train_returns w : exists w', train a w = (Ok tt, w').
Proof.
  unfold train, gpu_check, check_config, setup_writers, _initialize_metrics.
  rewrite H_dataset, H_metrics, H_monitor, H_summaries.
  unfold check_metrics, forM_, when, emit, bind, get, modify, ret, raise. cbn.
  destruct (gpu_device_name =? "")%string; cbn;
    match goal with
    | |- context [foldM ?f ?l ?b ?w0] =>
        destruct (train_epochs_return l b w0 eq_refl) as (lr' & w' & E)
    end;
    exists w'; rewrite E; reflexivity.
Qed.

End Returns.

Section Termination.

Context {G : GraphProvider}.

(** C8, for the calls that return and a 32-bit step counter: the loop of
    [train] has no exit but its end and an exception.  Whatever the call
    does, it has run the steps of the epochs 1, 2, ... in order, at most
    [steps_per_epoch * epochs] of them, and the step counter has advanced
    once per step; a call that returns has opened the progress bars of
    the epochs 1 .. [epochs] and has run exactly
    [steps_per_epoch * epochs] steps.  The counter is a 32-bit integer:
    each step adds 1 to it modulo [2^32], so that a call that returns
    leaves it at the initial value plus [steps_per_epoch * epochs] while
    this stays within 32 bits.  A call that only trains (no metrics,
    checkpoints or summaries, a generator that is not exhausted) does
    return. *)
Theorem train_runs_epochs_times_steps (a : TrainArgs) (w : World) :
  (exists t,
      trace (snd (train a w)) = trace w ++ t /\
      sess_global_step (snd (train a w)) =
        counter_after (List.length (step_losses t)) (sess_global_step w) /\
      (List.length (step_losses t) <=
         Z.to_nat (steps_per_epoch a) * Z.to_nat (epochs a))%nat /\
      (exists k, epoch_bars t = firstn k (range1 (epochs a))) /\
      (forall w',
          train a w = (Ok tt, w') ->
          List.length (step_losses t) =
            (Z.to_nat (steps_per_epoch a) * Z.to_nat (epochs a))%nat /\
          epoch_bars t = range1 (epochs a))) /\
  (forall w',
      train a w = (Ok tt, w') ->
      0 <= epochs a ->
      0 <= steps_per_epoch a ->
      int32 (sess_global_step w) ->
      sess_global_step w + steps_per_epoch a * epochs a <= 2147483647 ->
      sess_global_step w' =
        sess_global_step w + steps_per_epoch a * epochs a) /\
  (forall locals step w0 locals' w1,
      train_step a locals step w0 = (Ok locals', w1) ->
      sess_global_step w1 = wrap32 (sess_global_step w0 + 1)) /\
  (plain_training a -> exists w', train a w = (Ok tt, w')).
Proof.
  split; [|split; [|split]].
  - destruct (train_counts a w) as (t & Ht & Hg & Hr).
    exists t. split; [exact Ht|]. split; [exact Hg|].
    destruct (train a w) as [[[]|e] w1]; cbn [fst] in Hr.
    + destruct Hr as [Hl Hb]. rewrite Hl, Hb.
      split; [lia|]. split.
      * exists (List.length (range1 (epochs a))). symmetry. apply firstn_all.
      * auto.
    + destruct Hr as [Hl Hb]. split; [exact Hl|]. split; [exact Hb|].
      intros w' E. discriminate E.
  - intros w' E He Hs Hi Hmax.
    destruct (train_counts a w) as (t & _ & Hg & Hr).
    rewrite E in Hg, Hr. cbn [fst snd] in Hg, Hr. destruct Hr as [Hl _].
    rewrite Hg, Hl. rewrite counter_after_small; [lia | exact Hi | lia].
  - intros [lr h] step w0 [lr' h'] w1 H.
    pose proof (train_step_spec a lr h step w0) as Hspec.
    rewrite H in Hspec.
    destruct Hspec as (c & t & _ & _ & _ & _ & _ & _ & Hg & _). exact Hg.
  - intros (H1 & H2 & H3 & H4 & H5 & H6 & H7 & H8 & H9).
    now apply train_returns.
Qed.

End Termination.

(** ** The evaluation runner *)

Section Evaluation.

Context {G : GraphProvider}.

Lemma skipn_nth_error {A : Type} (l : list A) :
  forall s x, nth_error l s = Some x -> skipn s l = x :: skipn (S s) l.
Proof.
  induction l as [|y l IH]; intros [|s] x H; try discriminate.
  - now inversion H.
  - simpl in H. apply IH in H. exact H.
Qed.

(** The loop that builds the line of results printed by [_evaluate]. *)
Lemma results_loop (names : list string) (values : list pyfloat) w :
  List.length names = List.length values ->
  forall k s acc,
    (s + k = List.length names)%nat ->
    foldM (fun acc i =>
             metric_name <- py_getitem names i ;;
             v <- py_getitem values i ;;
             ret (acc ++ [(metric_name, v)]))
          (seq s k) acc w =
    (Ok (acc ++ combine (skipn s names) (skipn s values)), w).
Proof.
  intros Hlen. induction k as [|k IH]; intros s acc Hs; simpl.
  - rewrite !skipn_all2 by lia. simpl. now rewrite app_nil_r.
  - destruct (nth_error names s) as [n|] eqn:En.
    2:{ apply nth_error_None in En. lia. }
    destruct (nth_error values s) as [v|] eqn:Ev.
    2:{ apply nth_error_None in Ev. lia. }
    unfold py_getitem at 1 2. rewrite En, Ev.
    unfold bind at 1 2 3. unfold ret at 1 2 3.
    rewrite IH by lia.
    rewrite (skipn_nth_error _ _ En), (skipn_nth_error _ _ Ev). simpl.
    now rewrite <- app_assoc.
Qed.

Lemma accumulate_batch_spec (g step : nat) (w : World) (batch : Batch) :
  generator_source g (generator_position w g) = Some batch ->
  exists w1,
    accumulate_batch g step w = (Ok tt, w1) /\
    trace w1 =
      trace w ++ [EvNext g (generator_position w g);
                  EvUpdate (metric_update_ops w)] /\
    generator_position w1 g = S (generator_position w g) /\
    sess_metric_vars w1 =
      run_update_ops (metric_update_ops w) (sess_weights w) batch
                     (sess_metric_vars w) /\
    metric_update_ops w1 = metric_update_ops w /\
    sess_weights w1 = sess_weights w /\
    metric_names w1 = metric_names w /\
    metric_value_tensors w1 = metric_value_tensors w.
Proof.
  intros E. unfold accumulate_batch, next, emit, bind, get, modify, ret.
  rewrite E. eexists. split; [reflexivity|]. cbn.
  rewrite Nat.eqb_refl, <- app_assoc. repeat split.
Qed.

(** The accumulation loop of [_evaluate]. *)
Lemma accumulation_loop (g : nat) (l : list nat) :
  forall w,
    (forall i, (i < List.length l)%nat ->
               generator_source g (generator_position w g + i) <> None) ->
    exists w',
      forM_ l (accumulate_batch g) w = (Ok tt, w') /\
      trace w' =
        trace w ++ accumulation g (generator_position w g)
                                (metric_update_ops w) (List.length l) /\
      generator_position w' g =
        (generator_position w g + List.length l)%nat /\
      sess_metric_vars w' =
        accumulated (metric_update_ops w) (sess_weights w) g
                    (generator_position w g) (List.length l)
                    (sess_metric_vars w) /\
      metric_update_ops w' = metric_update_ops w /\
      sess_weights w' = sess_weights w /\
      metric_names w' = metric_names w /\
      metric_value_tensors w' = metric_value_tensors w.
Proof.
  unfold forM_.
  induction l as [|step l IH]; intros w Hsrc.
  - exists w. simpl. rewrite app_nil_r, Nat.add_0_r. repeat split.
  - destruct (generator_source g (generator_position w g)) as [batch|] eqn:E.
    2:{ exfalso. apply (Hsrc O); [simpl; lia|]. now rewrite Nat.add_0_r. }
    destruct (@accumulate_batch_spec g step w batch E)
      as (w1 & E1 & Ht1 & Hp1 & Hv1 & Ho1 & Hw1 & Hn1 & Hten1).
    simpl foldM. erewrite bind_ok by exact E1.
    destruct (IH w1) as (w' & Hr & Ht & Hp & Hv & Ho & Hw & Hn & Hten).
    + intros i Hi. rewrite Hp1.
      replace (S (generator_position w g) + i)%nat
        with (generator_position w g + S i)%nat by lia.
      apply Hsrc. simpl. lia.
    + exists w'. cbn [List.length accumulation accumulated]. rewrite E.
      rewrite Hr, Ht, Hp, Hv, Ho, Hw, Hn, Hten, Ht1, Hp1, Hv1, Ho1, Hw1,
        <- !app_assoc.
      repeat split; auto; try lia.
Qed.

End Evaluation.

Section EvaluationRunner.

Context {G : GraphProvider}.

(** C9: [_evaluate] first resets the metric accumulator, then pulls
    exactly [num_batches] batches from the data source, one per iteration
    and in order, runs the update ops on each of them, and reads the
    metric values only after the last one; it leaves the training state
    (global step counter, smoothed and best training loss, weights,
    variables-updated flag) as it was.  The learning rate is a local
    variable of [train], out of the reach of [_evaluate].  The frame holds
    for every call; the trace is given for a data source that yields
    [num_batches] more batches and for metric lists of equal length, as
    [_initialize_metrics] leaves them. *)
Theorem evaluate_runs_num_batches
        (data_generator : nat) (metrics : list string) (num_batches : Z)
        (description : string) (w : World) :
  same_training_state
    w (snd (_evaluate data_generator metrics num_batches description w)) /\
  ((forall i, (i < Z.to_nat num_batches)%nat ->
              generator_source
                data_generator
                (generator_position w data_generator + i) <> None) ->
   List.length (metric_names w) = List.length (metric_value_tensors w) ->
   exists w',
     _evaluate data_generator metrics num_batches description w
       = (Ok tt, w') /\
     trace w' =
       trace w
       ++ [EvReset; EvBar (BarText description)]
       ++ accumulation data_generator (generator_position w data_generator)
                       (metric_update_ops w) (Z.to_nat num_batches)
       ++ [EvRead (metric_value_tensors w);
           EvPrintEval (combine (metric_names w) (metric_values w'))] /\
     generator_position w' data_generator =
       (generator_position w data_generator + Z.to_nat num_batches)%nat /\
     sess_metric_vars w' =
       accumulated (metric_update_ops w) (sess_weights w) data_generator
                   (generator_position w data_generator)
                   (Z.to_nat num_batches) metric_vars_initial /\
     metric_values w' =
       map (run_value_tensor (sess_metric_vars w')) (metric_value_tensors w)).
Proof.
  split; [apply evaluate_same_training_state|].
  intros Hsrc Hlen. unfold _evaluate.
  erewrite bind_ok by reflexivity.
  erewrite bind_ok by reflexivity.
  erewrite bind_ok by reflexivity.
  match goal with
  | |- context [bind (forM_ ?l _) _ ?w0] =>
      destruct (@accumulation_loop _ data_generator l w0)
        as (w1 & E1 & Ht1 & Hp1 & Hv1 & Ho1 & Hw1 & Hn1 & Hten1)
  end.
  { unfold range. rewrite length_seq. exact Hsrc. }
  erewrite bind_ok by exact E1.
  unfold range in *. rewrite length_seq in *. cbn in Ht1, Hp1, Hv1, Ho1, Hw1, Hn1, Hten1.
  erewrite bind_ok by reflexivity.
  erewrite bind_ok by reflexivity.
  erewrite bind_ok by reflexivity.
  erewrite bind_ok by reflexivity.
  cbn [metric_names metric_values set_trace set_metric_values].
  erewrite bind_ok.
  2:{ apply results_loop with (s := O) (acc := []).
      - rewrite length_map. congruence.
      - reflexivity. }
  eexists. split; [reflexivity|]. cbn.
  rewrite Ht1, Hp1, Hv1, Hn1, Hten1, <- !app_assoc. repeat split.
Qed.

End EvaluationRunner.

(** ** Configuration errors *)

Section Configuration.

Context {G : GraphProvider}.

Lemma check_metrics_spec (metrics : list string) (w : World) :
  check_metrics metrics w =
  (if forallb (fun m => mem m ["loss"; "mean_iou"; "accuracy"]) metrics
   then Ok tt else Raise ValueError, w).
Proof.
  unfold check_metrics, forM_.
  induction metrics as [|m metrics IH]; cbn [foldM forallb].
  - reflexivity.
  - destruct (mem m ["loss"; "mean_iou"; "accuracy"]); cbn [negb andb].
    + erewrite bind_ok by reflexivity. exact IH.
    + reflexivity.
Qed.

Lemma unknown_metric_forallb (metrics : list string) :
  unknown_metric metrics ->
  forallb (fun m => mem m ["loss"; "mean_iou"; "accuracy"]) metrics = false.
Proof.
  intros (m & Hin & Hm).
  destruct (forallb _ metrics) eqn:E; [|reflexivity].
  rewrite forallb_forall in E. specialize (E m Hin). congruence.
Qed.

Lemma check_config_raises (a : TrainArgs) (w : World) :
  config_error a -> check_config a w = (Raise ValueError, w).
Proof.
  intros Herr. unfold check_config.
  destruct (mem (eval_dataset a) ["train"; "val"]) eqn:E1; simpl negb;
    [|reflexivity].
  erewrite bind_ok by reflexivity.
  destruct ((eval_dataset a =? "val")%string
            && (is_none (val_generator a) || is_none (val_steps a))) eqn:E2;
    [reflexivity|].
  erewrite bind_ok by reflexivity.
  unfold bind at 1. rewrite check_metrics_spec.
  destruct (forallb _ (metrics a)) eqn:E3; [|reflexivity].
  destruct (negb (mem (monitor a) (metrics a))
            && negb (monitor a =? "loss")%string) eqn:E4; [reflexivity|].
  exfalso.
  destruct Herr as [H|[H|[[Hv Hn]|[Hm Hl]]]].
  - apply unknown_metric_forallb in H. congruence.
  - congruence.
  - rewrite Hv in E2. simpl in E2.
    destruct Hn as [Hn|Hn]; rewrite Hn in E2; simpl in E2;
      try discriminate.
    now rewrite orb_true_r in E2.
  - rewrite Hm in E4. simpl in E4.
    apply negb_false_iff, String.eqb_eq in E4. contradiction.
Qed.

(** C5: each configuration error of [train] -- an unknown metric name, an
    [eval_dataset] other than 'train' and 'val', 'val' without a
    validation generator or without [val_steps], a [monitor] that is
    neither 'loss' nor in [metrics] -- raises [ValueError] right after
    the GPU check: no batch has been pulled, no training step has run, the
    session and the disk are untouched.  [evaluate] raises [ValueError]
    for an unknown metric name and leaves the world as it was. *)
Theorem configuration_errors_raise_first
        (a : TrainArgs) (data_generator : nat) (num_batches : Z)
        (metrics : list string) (w : World) :
  (config_error a ->
   fst (train a w) = Raise ValueError /\
   nothing_run w (snd (train a w))) /\
  (unknown_metric metrics ->
   evaluate data_generator num_batches metrics w = (Raise ValueError, w)).
Proof.
  split.
  - intros Herr. unfold train.
    assert (Hgpu : exists w1, gpu_check w = (Ok tt, w1) /\ nothing_run w w1).
    { unfold gpu_check, emit, modify.
      destruct (gpu_device_name =? "")%string; eexists;
        (split; [reflexivity|]); repeat (split; [reflexivity|]);
        eexists; (split; [reflexivity|]); split; reflexivity. }
    destruct Hgpu as (w1 & E1 & Hn).
    erewrite bind_ok by exact E1.
    erewrite bind_raise by (apply check_config_raises; exact Herr).
    split; [reflexivity | exact Hn].
  - intros Hunk. unfold evaluate.
    erewrite bind_raise; [reflexivity|].
    rewrite check_metrics_spec, unknown_metric_forallb by exact Hunk.
    reflexivity.
Qed.

End Configuration.

(** ** Saving *)

Section Saving.

Context {G : GraphProvider}.

Lemma name_loop_keeps_world (names : list string) (values : list pyfloat)
      (l : list nat) :
  forall acc,
    preserves eq
      (foldM (fun model_name i =>
                metric_name <- py_getitem names i ;;
                v <- py_getitem values i ;;
                ret (model_name ++ [NMetric metric_name v])) l acc).
Proof.
  assert (forall w : World, w = w) by reflexivity.
  assert (forall w1 w2 w3 : World, w1 = w2 -> w2 = w3 -> w1 = w3)
    by congruence.
  intros acc. pres ltac:(reflexivity).
Qed.

(** C7: [save] on a model whose variables were not updated since the last
    save prints the message and returns: nothing is persisted, nothing is
    raised, the world only gains the printed line.  A training step sets
    the flag; a [save] that goes through persists one model, holding the
    current weights, and clears the flag. *)
Theorem save_without_update_is_a_no_op
        (model_save_dir : option string) (tags : list string)
        (name : option string) (b1 b2 b3 : bool) (a : TrainArgs)
        (w : World) :
  (variables_updated w = false ->
   save model_save_dir tags name b1 b2 b3 w =
     (Ok tt, set_trace (trace w ++ [EvPrint nothing_to_save]) w)) /\
  (forall locals step locals' w',
      train_step a locals step w = (Ok locals', w') ->
      variables_updated w' = true) /\
  (forall w',
      variables_updated w = true ->
      save model_save_dir tags name b1 b2 b3 w = (Ok tt, w') ->
      variables_updated w' = false /\
      exists m,
        saved_models w' = saved_models w ++ [m] /\
        sm_weights m = sess_weights w).
Proof.
  split; [|split].
  - intros Hv. unfold save. unfold bind at 1, get. rewrite Hv. reflexivity.
  - intros [lr h] step [lr' h'] w' H.
    pose proof (train_step_spec a lr h step w) as Hs. rewrite H in Hs.
    destruct Hs as (c & t & _ & _ & _ & _ & _ & _ & _ & Hv). exact Hv.
  - intros w' Hv H. unfold save in H. unfold bind at 1, get in H.
    rewrite Hv in H. simpl negb in H. cbv iota in H.
    apply bind_ok_inv in H. destruct H as (mn1 & w1 & H1 & H).
    apply bind_ok_inv in H. destruct H as (mn2 & w2 & H2 & H).
    apply bind_ok_inv in H. destruct H as (dir & w3 & H3 & H).
    assert (E1 : w1 = w).
    { destruct b2; [destruct (training_loss w)|]; inversion H1; reflexivity. }
    assert (E2 : w2 = w1).
    { destruct b3.
      - match type of H2 with
        | foldM ?f ?l ?acc w1 = _ =>
            pose proof (@name_loop_keeps_world (metric_names w)
                          (metric_values w) l acc w1) as P
        end.
        rewrite H2 in P. symmetry. exact P.
      - inversion H2. reflexivity. }
    assert (E3 : w3 = w2).
    { destruct model_save_dir; inversion H3; reflexivity. }
    subst w3 w2 w1.
    match type of H with
    | (if ?b then _ else _) _ = _ => destruct b; [discriminate H|]
    end.
    unfold emit, bind, modify in H. inversion H; subst w'; clear H.
    cbn. split; [reflexivity|]. eexists. split; reflexivity.
Qed.

End Saving.

(** ** The tracked metrics *)

Section Metrics.

Context {G : GraphProvider}.

Lemma initialize_metrics_spec (ms : list string) (w : World) :
  fst (_initialize_metrics ms w) = Ok tt /\
  tracks ms (snd (_initialize_metrics ms w)) /\
  best_metric_values (snd (_initialize_metrics ms w)) =
    map (fun x => snd (fst x)) (tracked ms) /\
  metric_values (snd (_initialize_metrics ms w)) = metric_values w /\
  sess_metric_vars (snd (_initialize_metrics ms w)) = sess_metric_vars w.
Proof.
  unfold _initialize_metrics, tracks, tracked, track, when.
  destruct (mem "loss" ms), (mem "mean_iou" ms), (mem "accuracy" ms);
    repeat split.
Qed.

End Metrics.

(** ** The checkpoint policy *)

Section CheckpointPolicy.

Context {G : GraphProvider}.



(** With [save_best_only], monitoring 'accuracy' never decides a save: the
    comparison of the accuracy with its best value is guarded by the name
    'accuracry'. *)
Lemma monitor_accuracy_never_saves (a : TrainArgs) (w : World) :
  save_best_only a = true ->
  monitor a = "accuracy" ->
  fst (decide_save a w) = Ok false \/
  fst (decide_save a w) = Raise ValueError.
Proof.
  intros Hb Hm.
  unfold decide_save, lt_opt, py_index, py_getitem, emit, bind, get,
    modify, ret, raise.
  rewrite Hb, Hm. cbn.
  destruct (index_of "accuracy" (metric_names w)); cbn; auto.
Qed.

(** The best value of a tracked 'accuracy' is never updated. *)
Lemma best_accuracy_never_updated (i : nat) (w : World) :
  nth_error (metric_names w) i = Some "accuracy" ->
  update_best_metric i w = (Ok tt, w).
Proof.
  intros Hn. unfold update_best_metric, py_getitem, bind, get, ret.
  rewrite Hn. reflexivity.
Qed.

End CheckpointPolicy.

(** ** The claims on concrete runs *)

(** C1 (the code departs from the claim): a call of [train] that tracks
    and monitors 'accuracy', evaluates and decides on a checkpoint after
    its only epoch.  The accuracy read is 0.85, strictly above its best
    value 0, and no model is saved; the same call on 'mean_iou' saves
    one. *)
Theorem improved_accuracy_is_not_saved :
  @train Toy.graph (Toy.args 0 1 1 ["accuracy"] "accuracy" 1 1 true true)
         Toy.fresh
  = (Ok tt,
     snd (@train Toy.graph
            (Toy.args 0 1 1 ["accuracy"] "accuracy" 1 1 true true)
            Toy.fresh)) /\
  metric_values
    (snd (@train Toy.graph
            (Toy.args 0 1 1 ["accuracy"] "accuracy" 1 1 true true)
            Toy.fresh)) = [Fin (85 # 100)] /\
  float_gt (Fin (85 # 100)) (Fin 0) = true /\
  saved_models
    (snd (@train Toy.graph
            (Toy.args 0 1 1 ["accuracy"] "accuracy" 1 1 true true)
            Toy.fresh)) = [] /\
  List.length
    (saved_models
       (snd (@train Toy.graph
               (Toy.args 0 1 1 ["mean_iou"] "mean_iou" 1 1 true true)
               Toy.fresh))) = 1%nat.
Proof. vm_compute. repeat split. Qed.

(** C4 (the code departs from the claim): a call of [train] that tracks
    'accuracy' and evaluates after its only epoch.  The accuracy read is
    0.85, strictly above the best value 0, and the best value is still 0
    when [train] returns; the bests of 'loss' and 'mean_iou' are
    updated. *)
Theorem best_accuracy_is_not_updated :
  fst (@train Toy.graph
         (Toy.args 0 1 1 ["accuracy"] "loss" 1 1 false true) Toy.fresh)
  = Ok tt /\
  metric_values
    (snd (@train Toy.graph
            (Toy.args 0 1 1 ["accuracy"] "loss" 1 1 false true) Toy.fresh))
  = [Fin (85 # 100)] /\
  best_metric_values
    (snd (@train Toy.graph
            (Toy.args 0 1 1 ["accuracy"] "loss" 1 1 false true) Toy.fresh))
  = [Fin 0] /\
  float_gt (Fin (85 # 100)) (Fin 0) = true /\
  best_metric_values
    (snd (@train Toy.graph
            (Toy.args 0 1 1 ["loss"; "mean_iou"] "loss" 1 1 false true)
            Toy.fresh))
  = [Fin (6 # 10); Fin (9 # 10)].
Proof. vm_compute. repeat split. Qed.


(** C3 (the code departs from the claim): the metric value 0.9 left by
    a call of [evaluate] on 'mean_iou' is still the current value after
    [_initialize_metrics] has re-initialized the metrics for 'accuracy',
    and a following call of [train] that tracks 'accuracy', and saves
    before it has evaluated, writes it in the name of the saved model as
    the accuracy. *)
Theorem metric_values_survive_initialization :
  metric_values Toy.evaluated = [Fin (9 # 10)] /\
  metric_values
    (snd (@_initialize_metrics Toy.graph ["accuracy"] Toy.evaluated))
  = [Fin (9 # 10)] /\
  map sm_name
      (saved_models
         (snd (@train Toy.graph
                 (Toy.args 0 1 1 ["accuracy"] "loss" 5 1 true false)
                 Toy.evaluated)))
  = [[NPrefix; NGlobalStep (Some 1); NTrainLoss (Fin 2); NEvalOn false;
      NMetric "accuracy" (Fin (9 # 10))]].
Proof. vm_compute. repeat split. Qed.

(** C8, as stated, fails: one training step from a step counter that
    stands at [2^31 - 1] leaves it at [-2^31], not at the initial value
    plus [steps_per_epoch * epochs]; and a call for two epochs of two
    steps on a generator that yields two batches leaves the loop in its
    second epoch, by [StopIteration], after two steps. *)
Lemma counter_wraps_and_loop_exits_early :
  fst (@train Toy.graph (Toy.args 0 1 1 [] "loss" 5 5 false true)
         (@FCN8s_init Toy.graph 0 2147483647))
  = Ok tt /\
  sess_global_step
    (snd (@train Toy.graph (Toy.args 0 1 1 [] "loss" 5 5 false true)
            (@FCN8s_init Toy.graph 0 2147483647)))
  = -2147483648 /\
  sess_global_step (@FCN8s_init Toy.graph 0 2147483647)
  + steps_per_epoch (Toy.args 0 1 1 [] "loss" 5 5 false true)
    * epochs (Toy.args 0 1 1 [] "loss" 5 5 false true)
  = 2147483648 /\
  fst (@train Toy.graph (Toy.args 1 2 2 [] "loss" 5 5 false true) Toy.fresh)
  = Raise StopIteration /\
  epoch_bars
    (trace (snd (@train Toy.graph (Toy.args 1 2 2 [] "loss" 5 5 false true)
                   Toy.fresh)))
  = [1; 2] /\
  List.length
    (step_losses
       (trace (snd (@train Toy.graph
                      (Toy.args 1 2 2 [] "loss" 5 5 false true)
                      Toy.fresh))))
  = 2%nat.
Proof. vm_compute. repeat split. Qed.

(** C10, as stated, fails: with [training_loss_display_averaging=0] the
    deque stays empty, and the smoothed training loss after the first
    step of the epoch is [NaN], not the loss 1 of that step. *)
Lemma empty_window_shows_nan :
  fst (@train Toy.graph
         (Toy.averaging 0 (Toy.args 0 1 2 [] "loss" 5 5 false true))
         Toy.fresh)
  = Ok tt /\
  step_losses
    (trace (snd (@train Toy.graph
                   (Toy.averaging 0 (Toy.args 0 1 2 [] "loss" 5 5 false true))
                   Toy.fresh)))
  = [Fin 1; Fin 2] /\
  shown_losses
    (trace (snd (@train Toy.graph
                   (Toy.averaging 0 (Toy.args 0 1 2 [] "loss" 5 5 false true))
                   Toy.fresh)))
  = [NaN; NaN].
Proof. vm_compute. repeat split. Qed.

(** ** The theorems at work on the concrete graph *)



Lemma window_is_reset_each_epoch_witness :
  exists t rest s shown,
    trace (snd (@train_epoch Toy.graph
                  (Toy.args 0 2 2 [] "loss" 5 5 false true)
                  (Toy.schedule 2) 2
                  (snd (@train Toy.graph
                          (Toy.args 0 1 2 [] "loss" 5 5 false true)
                          Toy.fresh))))
    = trace (snd (@train Toy.graph
                    (Toy.args 0 1 2 [] "loss" 5 5 false true) Toy.fresh))
      ++ t /\
    step_losses t = Fin 3 :: rest /\
    shown_losses t = s :: shown /\
    float_same s (Fin 3).
Proof.
  destruct (@window_is_reset_each_epoch Toy.graph
              (Toy.args 0 2 2 [] "loss" 5 5 false true) (Toy.schedule 2) 2
              (snd (@train Toy.graph
                      (Toy.args 0 1 2 [] "loss" 5 5 false true)
                      Toy.fresh))) as (t & Ht & _ & _ & Hfirst).
  assert (HK : 0 < 3) by reflexivity.
  assert (Hs : 0 < 2) by reflexivity.
  assert (Hb : @generator_source Toy.graph 0
                 (generator_position
                    (snd (@train Toy.graph
                            (Toy.args 0 1 2 [] "loss" 5 5 false true)
                            Toy.fresh)) 0)
               = Some (Fin 3)) by (vm_compute; reflexivity).
  destruct (Hfirst (Fin 3) HK Hs Hb ltac:(discriminate))
    as (rest & s & shown & Hl & Hsh & Hsame).
  exists t, rest, s, shown. auto.
Defined.

Lemma train_runs_epochs_times_steps_witness :
  @plain_training Toy.graph (Toy.args 0 2 3 [] "loss" 5 5 false true) /\
  exists w',
    @train Toy.graph (Toy.args 0 2 3 [] "loss" 5 5 false true) Toy.fresh
    = (Ok tt, w') /\
    sess_global_step w' = 0 + 3 * 2 /\
    exists t,
      trace w' = trace Toy.fresh ++ t /\
      List.length (step_losses t) = 6%nat /\
      epoch_bars t = [1; 2].
Proof.
  assert (Hp : @plain_training Toy.graph
                 (Toy.args 0 2 3 [] "loss" 5 5 false true)).
  { repeat split; try discriminate. }
  destruct (@train_runs_epochs_times_steps Toy.graph
              (Toy.args 0 2 3 [] "loss" 5 5 false true) Toy.fresh)
    as ((t & Ht & _ & _ & _ & Hok) & Hz & _ & Hr).
  split; [exact Hp|].
  destruct (Hr Hp) as (w' & E). exists w'. split; [exact E|].
  split.
  - apply (Hz w' E); [discriminate | discriminate | | discriminate].
    split; discriminate.
  - rewrite E in Ht. destruct (Hok w' E) as [Hl Hb].
    exists t. split; [exact Ht|]. split; [exact Hl | exact Hb].
Defined.

Lemma configuration_errors_raise_first_witness :
  config_error (Toy.args 0 1 1 ["foo"] "loss" 5 5 false true) /\
  unknown_metric ["foo"] /\
  fst (@train Toy.graph (Toy.args 0 1 1 ["foo"] "loss" 5 5 false true)
         Toy.fresh) = Raise ValueError /\
  nothing_run Toy.fresh
    (snd (@train Toy.graph (Toy.args 0 1 1 ["foo"] "loss" 5 5 false true)
            Toy.fresh)) /\
  @evaluate Toy.graph 0 1 ["foo"] Toy.fresh = (Raise ValueError, Toy.fresh).
Proof.
  assert (Hu : unknown_metric ["foo"]).
  { exists "foo". split; [left; reflexivity | reflexivity]. }
  assert (Hc : config_error (Toy.args 0 1 1 ["foo"] "loss" 5 5 false true)).
  { left. exact Hu. }
  destruct (@configuration_errors_raise_first Toy.graph
              (Toy.args 0 1 1 ["foo"] "loss" 5 5 false true)
              0%nat 1 ["foo"] Toy.fresh) as (Ht & He).
  destruct (Ht Hc) as (Hr & Hn).
  split; [exact Hc|]. split; [exact Hu|]. split; [exact Hr|].
  split; [exact Hn | exact (He Hu)].
Defined.

Lemma save_without_update_is_a_no_op_witness :
  (variables_updated Toy.fresh = false /\
   @save Toy.graph (Some "models") ["default"] None true true true Toy.fresh
   = (Ok tt, set_trace (trace Toy.fresh ++ [EvPrint nothing_to_save])
                       Toy.fresh)) /\
  variables_updated
    (snd (@train_step Toy.graph (Toy.args 0 1 1 [] "loss" 5 5 false true)
            (Toy.schedule 0, []) O Toy.fresh)) = true /\
  variables_updated
    (snd (@save Toy.graph (Some "models") ["default"] None true true true
            (snd (@train_step Toy.graph
                    (Toy.args 0 1 1 [] "loss" 5 5 false true)
                    (Toy.schedule 0, []) O Toy.fresh)))) = false.
Proof.
  destruct (@save_without_update_is_a_no_op Toy.graph
              (Some "models") ["default"] None true true true
              (Toy.args 0 1 1 [] "loss" 5 5 false true) Toy.fresh)
    as (Hno & Hstep & _).
  destruct (@save_without_update_is_a_no_op Toy.graph
              (Some "models") ["default"] None true true true
              (Toy.args 0 1 1 [] "loss" 5 5 false true)
              (snd (@train_step Toy.graph
                      (Toy.args 0 1 1 [] "loss" 5 5 false true)
                      (Toy.schedule 0, []) O Toy.fresh)))
    as (_ & _ & Hsave).
  assert (E1 : @train_step Toy.graph
                 (Toy.args 0 1 1 [] "loss" 5 5 false true)
                 (Toy.schedule 0, []) O Toy.fresh
               = (Ok (Toy.schedule 1, [Fin 1]),
                  snd (@train_step Toy.graph
                         (Toy.args 0 1 1 [] "loss" 5 5 false true)
                         (Toy.schedule 0, []) O Toy.fresh)))
    by (vm_compute; reflexivity).
  assert (E2 : @save Toy.graph (Some "models") ["default"] None
                 true true true
                 (snd (@train_step Toy.graph
                         (Toy.args 0 1 1 [] "loss" 5 5 false true)
                         (Toy.schedule 0, []) O Toy.fresh))
               = (Ok tt,
                  snd (@save Toy.graph (Some "models") ["default"] None
                         true true true
                         (snd (@train_step Toy.graph
                                 (Toy.args 0 1 1 [] "loss" 5 5 false true)
                                 (Toy.schedule 0, []) O Toy.fresh)))))
    by (vm_compute; reflexivity).
  split; [split; [reflexivity | exact (Hno eq_refl)]|]. split.
  - exact (Hstep _ O _ _ E1).
  - exact (proj1 (Hsave _ (Hstep _ O _ _ E1) E2)).
Defined.

Lemma evaluate_runs_num_batches_witness :
  exists w',
    @_evaluate Toy.graph 1 ["loss"; "accuracy"] 2 "Running evaluation"
      (snd (@_initialize_metrics Toy.graph ["loss"; "accuracy"] Toy.fresh))
    = (Ok tt, w') /\
    generator_position w' 1%nat = 2%nat /\
    metric_values w' = [Fin (6 # 10); Fin (85 # 100)].
Proof.
  destruct (@evaluate_runs_num_batches Toy.graph 1%nat ["loss"; "accuracy"]
              2 "Running evaluation"
              (snd (@_initialize_metrics Toy.graph ["loss"; "accuracy"]
                      Toy.fresh))) as (_ & H).
  destruct H as (w' & E & _ & Hp & Hv & Hm).
  - intros [|[|i]] Hi; simpl; try discriminate.
    exfalso. apply (Nat.lt_irrefl 2).
    apply Nat.le_lt_trans with (2 := Hi).
    apply le_n_S, le_n_S, Nat.le_0_l.
  - reflexivity.
  - exists w'. split; [exact E|]. split; [exact Hp|].
    rewrite Hm. reflexivity.
Defined.

(** * Further properties of the code *)

(** ** Saving twice, and saving before the first evaluation *)

Section SavingMore.

Context {G : GraphProvider}.

Lemma save_clears_flag dir tags name b1 b2 b3 (w w' : World) :
  save dir tags name b1 b2 b3 w = (Ok tt, w') ->
  variables_updated w' = false.
Proof.
  unfold save. unfold bind at 1, get.
  destruct (variables_updated w) eqn:Hv; simpl negb; cbv iota.
  - intros H.
    apply bind_ok_inv in H. destruct H as (mn1 & w1 & _ & H).
    apply bind_ok_inv in H. destruct H as (mn2 & w2 & _ & H).
    apply bind_ok_inv in H. destruct H as (d & w3 & _ & H).
    match type of H with
    | (if ?b then _ else _) _ = _ => destruct b; [discriminate H|]
    end.
    unfold emit, bind, modify in H. inversion H. reflexivity.
  - unfold emit, modify. intros H. inversion H. exact Hv.
Qed.

(** X1: two calls of [save] in a row persist at most one model: whenever a
    call of [save] returns, a second call, with any arguments, only
    prints that there is nothing to save. *)
Theorem second_save_is_a_no_op
        dir tags name b1 b2 b3 dir' tags' name' b1' b2' b3' (w w1 : World) :
  save dir tags name b1 b2 b3 w = (Ok tt, w1) ->
  save dir' tags' name' b1' b2' b3' w1 =
    (Ok tt, set_trace (trace w1 ++ [EvPrint nothing_to_save]) w1).
Proof.
  intros H. apply save_clears_flag in H.
  unfold save. unfold bind at 1, get. rewrite H. reflexivity.
Qed.

Lemma name_loop_index_error (names : list string) (values : list pyfloat)
      (w : World) :
  forall k s acc,
    (s <= List.length values)%nat ->
    (List.length values < s + k)%nat ->
    (s + k <= List.length names)%nat ->
    foldM (fun model_name i =>
             metric_name <- py_getitem names i ;;
             v <- py_getitem values i ;;
             ret (model_name ++ [NMetric metric_name v]))
          (seq s k) acc w = (Raise IndexError, w).
Proof.
  induction k as [|k IH]; intros s acc H1 H2 H3; [lia|].
  simpl foldM.
  destruct (nth_error names s) as [n|] eqn:En.
  2:{ apply nth_error_None in En. lia. }
  unfold py_getitem at 1 2. rewrite En.
  destruct (nth_error values s) as [v|] eqn:Ev.
  - assert (s < List.length values)%nat
      by (apply nth_error_Some; congruence).
    unfold bind at 1 2 3, ret at 1 2. apply IH; lia.
  - reflexivity.
Qed.

(** X2: [save] with [include_metrics] on a model that tracks more metrics
    than it has evaluated values for (metrics were initialized and no
    evaluation has run yet) raises [IndexError] while it composes the
    name: no model is persisted and the flag is left set. *)
Theorem save_before_evaluation_raises
        dir tags name b1 b2 (w : World) :
  variables_updated w = true ->
  (b2 = true -> training_loss w <> None) ->
  (List.length (metric_values w) < List.length (metric_names w))%nat ->
  save dir tags name b1 b2 true w = (Raise IndexError, w).
Proof.
  intros Hv Hl Hlen. unfold save. unfold bind at 1, get.
  rewrite Hv. change (negb true) with false. cbv iota zeta.
  destruct b2;
    [destruct (training_loss w) as [l|] eqn:El;
       [|exfalso; now apply Hl]|];
    (erewrite bind_ok by reflexivity;
     erewrite bind_raise; [reflexivity|];
     apply name_loop_index_error; lia).
Qed.

End SavingMore.

(** ** The fallback of the checkpoint decision *)

Section DecisionMore.

Context {G : GraphProvider}.

Lemma mem_false_index_of (x : string) (l : list string) :
  mem x l = false -> index_of x l = None.
Proof.
  induction l as [|y l IH]; simpl; intros H.
  - reflexivity.
  - apply orb_false_iff in H. destruct H as [H1 H2].
    rewrite String.eqb_sym, H1. unfold mem in IH. now rewrite IH.
Qed.

(** X3: with [save_best_only] and [monitor == 'loss'], when 'loss' is not
    tracked and the smoothed training loss is not strictly below the best
    training loss, the checkpoint decision does not answer "skip": it
    falls through to [self.metric_names.index('loss')] and raises
    [ValueError], before anything is printed or saved. *)
Theorem decision_without_improvement_raises
        (a : TrainArgs) (w : World) (l : pyfloat) :
  save_best_only a = true ->
  monitor a = "loss" ->
  mem "loss" (metric_names w) = false ->
  training_loss w = Some l ->
  float_lt l (best_training_loss w) = false ->
  decide_save a w = (Raise ValueError, w).
Proof.
  intros Hb Hm Hn Hl Hlt.
  unfold decide_save, lt_opt, py_index, bind, get, ret, raise.
  rewrite Hb, Hm, Hn, Hl, Hlt, (mem_false_index_of _ _ Hn). reflexivity.
Qed.

End DecisionMore.

(** ** The lists of tracked metrics *)

Section MetricsMore.

Context {G : GraphProvider}.

Lemma mem_valid_cases (x : string) :
  mem x ["loss"; "mean_iou"; "accuracy"] = true ->
  x = "loss" \/ x = "mean_iou" \/ x = "accuracy".
Proof.
  unfold mem. simpl. intros H.
  apply orb_true_iff in H. destruct H as [H|H];
    [left; now apply String.eqb_eq|].
  apply orb_true_iff in H. destruct H as [H|H];
    [right; left; now apply String.eqb_eq|].
  apply orb_true_iff in H. destruct H as [H|H];
    [right; right; now apply String.eqb_eq | discriminate].
Qed.

(** X4: whatever [metrics] holds and whatever was tracked before,
    [_initialize_metrics] leaves four lists of one length, without a
    repeated name, that track exactly the requested names among 'loss',
    'mean_iou' and 'accuracy' (other names are ignored), with the value
    tensors in the order of the update ops; the result depends on
    [metrics] as a set only, not on its order or repetitions. *)
Theorem initialized_metric_lists_are_consistent
        (metrics : list string) (w : World) :
  NoDup (metric_names (snd (_initialize_metrics metrics w))) /\
  List.length (best_metric_values (snd (_initialize_metrics metrics w))) =
    List.length (metric_names (snd (_initialize_metrics metrics w))) /\
  List.length (metric_update_ops (snd (_initialize_metrics metrics w))) =
    List.length (metric_names (snd (_initialize_metrics metrics w))) /\
  metric_value_tensors (snd (_initialize_metrics metrics w)) =
    metric_update_ops (snd (_initialize_metrics metrics w)) /\
  (forall x,
      In x (metric_names (snd (_initialize_metrics metrics w))) <->
      mem x metrics = true /\
      mem x ["loss"; "mean_iou"; "accuracy"] = true) /\
  (forall metrics' w',
      (forall x, mem x metrics' = mem x metrics) ->
      metric_names (snd (_initialize_metrics metrics' w')) =
        metric_names (snd (_initialize_metrics metrics w)) /\
      best_metric_values (snd (_initialize_metrics metrics' w')) =
        best_metric_values (snd (_initialize_metrics metrics w))).
Proof.
  destruct (initialize_metrics_spec metrics w)
    as (_ & (Hn & Ho & Ht) & Hb & _).
  rewrite Hn, Ho, Ht, Hb, !length_map.
  repeat split.
  - unfold tracked.
    destruct (mem "loss" metrics), (mem "mean_iou" metrics),
      (mem "accuracy" metrics); simpl;
      repeat constructor; simpl; intuition discriminate.
  - unfold tracked in H.
    destruct (mem "loss" metrics) eqn:E1, (mem "mean_iou" metrics) eqn:E2,
      (mem "accuracy" metrics) eqn:E3; simpl in H;
      intuition (subst; assumption).
  - unfold tracked in H.
    destruct (mem "loss" metrics) eqn:E1, (mem "mean_iou" metrics) eqn:E2,
      (mem "accuracy" metrics) eqn:E3; simpl in H;
      intuition (subst; reflexivity).
  - intros [Hm Hv]. apply mem_valid_cases in Hv. unfold tracked.
    destruct Hv as [->|[->| ->]]; rewrite Hm;
      destruct (mem "loss" metrics), (mem "mean_iou" metrics),
        (mem "accuracy" metrics); simpl; auto; discriminate.
  - destruct (initialize_metrics_spec metrics' w') as (_ & (Hn' & _) & _).
    rewrite Hn'. unfold tracked. now rewrite !H.
  - destruct (initialize_metrics_spec metrics' w') as (_ & _ & Hb' & _).
    rewrite Hb'. unfold tracked. now rewrite !H.
Qed.

End MetricsMore.

(** ** Evaluation on a data source that runs out *)

Section EvaluationMore.

Context {G : GraphProvider}.

Lemma accumulate_batch_keeps_values g step :
  preserves (fun w w' => metric_values w' = metric_values w)
            (accumulate_batch g step).
Proof.
  assert (forall w : World, metric_values w = metric_values w)
    by reflexivity.
  assert (forall w1 w2 w3 : World,
             metric_values w2 = metric_values w1 ->
             metric_values w3 = metric_values w2 ->
             metric_values w3 = metric_values w1) by congruence.
  pres ltac:(reflexivity).
Qed.

Lemma accumulate_batch_exhausted (g step : nat) (w : World) :
  generator_source g (generator_position w g) = None ->
  accumulate_batch g step w = (Raise StopIteration, w).
Proof.
  intros E. unfold accumulate_batch, next, bind, get, raise.
  now rewrite E.
Qed.

(** The accumulation loop on a generator that has [k] batches left, for
    more than [k] iterations. *)
Lemma accumulation_loop_exhausted (g : nat) (l : list nat) :
  forall (k : nat) (w : World),
    (k < List.length l)%nat ->
    (forall i, (i < k)%nat ->
               generator_source g (generator_position w g + i) <> None) ->
    generator_source g (generator_position w g + k) = None ->
    exists w',
      forM_ l (accumulate_batch g) w = (Raise StopIteration, w') /\
      trace w' =
        trace w ++ accumulation g (generator_position w g)
                                (metric_update_ops w) k /\
      generator_position w' g = (generator_position w g + k)%nat /\
      sess_metric_vars w' =
        accumulated (metric_update_ops w) (sess_weights w) g
                    (generator_position w g) k (sess_metric_vars w) /\
      metric_values w' = metric_values w.
Proof.
  unfold forM_.
  induction l as [|step l IH]; intros k w Hk Hsrc Hend;
    [simpl in Hk; lia|].
  destruct k as [|k].
  - rewrite Nat.add_0_r in Hend. exists w. simpl foldM.
    erewrite bind_raise by (apply accumulate_batch_exhausted; exact Hend).
    cbn [accumulation accumulated]. rewrite app_nil_r, Nat.add_0_r.
    repeat split.
  - destruct (generator_source g (generator_position w g))
      as [batch|] eqn:E.
    2:{ exfalso. apply (Hsrc O); [lia|]. now rewrite Nat.add_0_r. }
    destruct (@accumulate_batch_spec _ g step w batch E)
      as (w1 & E1 & Ht1 & Hp1 & Hv1 & Ho1 & Hw1 & Hn1 & Hten1).
    pose proof (@accumulate_batch_keeps_values g step w) as Hm1.
    rewrite E1 in Hm1. cbn [snd] in Hm1.
    simpl foldM. erewrite bind_ok by exact E1.
    destruct (IH k w1) as (w' & Hr & Ht & Hp & Hv & Hm).
    + simpl in Hk. lia.
    + intros i Hi. rewrite Hp1.
      replace (S (generator_position w g) + i)%nat
        with (generator_position w g + S i)%nat by lia.
      apply Hsrc. lia.
    + rewrite Hp1.
      replace (S (generator_position w g) + k)%nat
        with (generator_position w g + S k)%nat by lia.
      exact Hend.
    + exists w'. cbn [accumulation accumulated]. rewrite E.
      rewrite Hr, Ht, Hp, Hv, Hm, Ht1, Hp1, Hv1, Ho1, Hw1, Hm1,
        <- !app_assoc.
      repeat split; auto; try lia.
Qed.

(** X5: when the data source yields only [k] more batches and
    [num_batches] is larger, [_evaluate] raises [StopIteration] after it
    has reset the accumulator and folded in these [k] batches: the
    metric values of the previous evaluation are left in place (they are
    not the values of this run), the source is left exhausted, and the
    training state is unchanged. *)
Theorem evaluation_on_exhausted_source
        (data_generator : nat) (metrics : list string) (num_batches : Z)
        (description : string) (k : nat) (w : World) :
  (k < Z.to_nat num_batches)%nat ->
  (forall i, (i < k)%nat ->
             generator_source
               data_generator
               (generator_position w data_generator + i) <> None) ->
  generator_source data_generator
                   (generator_position w data_generator + k) = None ->
  exists w',
    _evaluate data_generator metrics num_batches description w
      = (Raise StopIteration, w') /\
    trace w' =
      trace w
      ++ [EvReset; EvBar (BarText description)]
      ++ accumulation data_generator (generator_position w data_generator)
                      (metric_update_ops w) k /\
    generator_position w' data_generator =
      (generator_position w data_generator + k)%nat /\
    sess_metric_vars w' =
      accumulated (metric_update_ops w) (sess_weights w) data_generator
                  (generator_position w data_generator) k
                  metric_vars_initial /\
    metric_values w' = metric_values w /\
    same_training_state w w'.
Proof.
  intros Hk Hsrc Hend.
  pose proof (@evaluate_same_training_state _ data_generator metrics
                num_batches description w) as Hframe.
  unfold _evaluate in *.
  erewrite bind_ok in * by reflexivity.
  erewrite bind_ok in * by reflexivity.
  erewrite bind_ok in * by reflexivity.
  match goal with
  | |- context [bind (forM_ ?l _) _ ?w0] =>
      destruct (@accumulation_loop_exhausted data_generator l k w0)
        as (w' & E & Ht & Hp & Hv & Hm)
  end.
  { unfold range. rewrite length_seq. exact Hk. }
  { exact Hsrc. }
  { exact Hend. }
  erewrite bind_raise in * by exact E.
  exists w'. cbn in Ht, Hp, Hv, Hm. cbn [snd] in Hframe.
  rewrite Ht, Hp, Hv, Hm, <- !app_assoc. repeat split; apply Hframe.
Qed.

End EvaluationMore.

(** ** The learning rates and the summaries of the training steps *)

Section Rates.

Context {G : GraphProvider}.

Lemma train_runs_app t1 t2 :
  train_runs (t1 ++ t2) = train_runs t1 ++ train_runs t2.
Proof. apply flat_map_app. Qed.

Lemma steps_state_add (n m : nat) :
  forall g c,
    steps_state (n + m) g c =
    steps_state m (fst (steps_state n g c)) (snd (steps_state n g c)).
Proof.
  induction n as [|n IH]; intros g c; [reflexivity|].
  cbn [Nat.add steps_state]. apply IH.
Qed.

Lemma fetched_steps_add (n m : nat) :
  forall g c,
    fetched_steps g c (n + m) =
    fetched_steps g c n
    ++ fetched_steps (fst (steps_state n g c)) (snd (steps_state n g c)) m.
Proof.
  induction n as [|n IH]; intros g c; [reflexivity|].
  cbn [Nat.add fetched_steps steps_state app]. now rewrite IH.
Qed.

(** On a graph that fetches the advanced step, and while the counter
    stays within 32 bits, [self.g_step] is the step counter. *)
Lemma fetched_steps_advanced (n : nat) :
  (forall c, fetches_advanced_step c = true) ->
  forall c,
    int32 c -> c + Z.of_nat n <= 2147483647 ->
    fetched_steps c c n = map (fun i => c + Z.of_nat i) (seq 0 n).
Proof.
  intros Hf. induction n as [|n IH]; intros c Hc Hn; [reflexivity|].
  cbn [fetched_steps seq map]. rewrite Z.add_0_r. f_equal.
  unfold fetched. rewrite Hf.
  assert (Hw : wrap32 (c + 1) = c + 1)
    by (apply wrap32_small; unfold int32 in *; lia).
  rewrite Hw, IH by (unfold int32 in *; lia).
  rewrite <- seq_shift, map_map. apply map_ext. intros i. lia.
Qed.

Lemma no_step_refl w : no_step w w.
Proof.
  repeat split. exists []. rewrite app_nil_r. repeat split.
Qed.

Lemma no_step_trans w1 w2 w3 : no_step w1 w2 -> no_step w2 w3 -> no_step w1 w3.
Proof.
  intros (Hg1 & Hs1 & t1 & Ht1 & Hr1) (Hg2 & Hs2 & t2 & Ht2 & Hr2).
  split; [congruence|]. split; [congruence|].
  exists (t1 ++ t2). rewrite Ht2, Ht1, app_assoc, train_runs_app, Hr1, Hr2.
  repeat split.
Qed.

Lemma no_step_runs (a : TrainArgs) w w' :
  no_step w w' -> runs_as_expected a w w'.
Proof.
  intros (Hg & Hs & t & Ht & Hr) g Eg. exists t. rewrite Hr. cbn.
  repeat split; [exact Ht | congruence | exact Hg].
Qed.

Lemma runs_as_expected_trans (a : TrainArgs) w1 w2 w3 :
  runs_as_expected a w1 w2 -> runs_as_expected a w2 w3 ->
  runs_as_expected a w1 w3.
Proof.
  intros H1 H2 g Eg.
  destruct (H1 g Eg) as (t1 & Ht1 & Hr1 & Hg1 & Hc1).
  destruct (H2 _ Hg1) as (t2 & Ht2 & Hr2 & Hg2 & Hc2).
  exists (t1 ++ t2).
  rewrite Ht2, Ht1, app_assoc, train_runs_app, length_app,
    fetched_steps_add, steps_state_add, map_app, <- Hr1, <- Hc1, <- Hr2.
  repeat split; assumption.
Qed.

Lemma train_step_runs (a : TrainArgs) lr h i (w : World) g :
  g_step w = Some g ->
  lr = learning_rate_schedule a g ->
  match train_step a (lr, h) i w with
  | (Ok (lr', _), w') =>
      runs_as_expected a w w' /\
      exists g', g_step w' = Some g' /\ lr' = learning_rate_schedule a g'
  | (Raise _, w') => no_step w w'
  end.
Proof.
  intros Hg Hlr. subst lr.
  unfold train_step, runs_as_expected, expected_run, summary_due, fetched.
  repeat autounfold with py.
  unfold bind, get, modify, ret, raise. cbn. rewrite ?Hg.
  repeat (break_match; cbn; rewrite ?Hg); try fin_trace;
    (split;
     [ intros g0 Eg0; injection Eg0 as <-;
       eexists; rewrite <- !app_assoc; (split; [reflexivity|]);
       cbn; unfold fetched, expected_run, summary_due;
       repeat match goal with
              | H : ?x = _ |- context [?x] => rewrite H
              end;
       cbn; repeat split; reflexivity
     | eexists; split; reflexivity ]).
Qed.

Lemma train_steps_runs (a : TrainArgs) (l : list nat) :
  forall lr h (w : World) g,
    g_step w = Some g ->
    lr = learning_rate_schedule a g ->
    match foldM (train_step a) l (lr, h) w with
    | (r, w') =>
        runs_as_expected a w w' /\
        match r with
        | Ok (lr', _) =>
            exists g', g_step w' = Some g' /\
                       lr' = learning_rate_schedule a g'
        | Raise _ => True
        end
    end.
Proof.
  induction l as [|i l IH]; intros lr h w g Hg Hlr.
  - simpl. split; [apply no_step_runs, no_step_refl | eauto].
  - simpl. pose proof (train_step_runs a h i w Hg Hlr) as Hs.
    destruct (train_step a (lr, h) i w) as [[[lr1 h1]|e] w1] eqn:E.
    + erewrite bind_ok by exact E.
      destruct Hs as (Hr1 & g1 & Hg1 & Hlr1).
      specialize (IH lr1 h1 w1 g1 Hg1 Hlr1).
      destruct (foldM (train_step a) l (lr1, h1) w1) as [r w'].
      destruct IH as (Hruns & Hr).
      split; [|exact Hr].
      eapply runs_as_expected_trans; eassumption.
    + erewrite bind_raise by exact E.
      split; [apply no_step_runs; exact Hs | exact I].
Qed.

Lemma train_epoch_runs (a : TrainArgs) lr epoch (w : World) g :
  g_step w = Some g ->
  lr = learning_rate_schedule a g ->
  match train_epoch a lr epoch w with
  | (r, w') =>
      runs_as_expected a w w' /\
      match r with
      | Ok lr' =>
          exists g', g_step w' = Some g' /\
                     lr' = learning_rate_schedule a g'
      | Raise _ => True
      end
  end.
Proof.
  intros Hg Hlr. unfold train_epoch.
  match goal with
  | |- context [bind (foldM _ _ _) ?k] =>
      assert (Hk : forall locals, preserves no_step (k locals))
        by (intros locals; cbv beta;
            pose proof no_step_refl; pose proof no_step_trans;
            pres fin_trace)
  end.
  destruct (training_loss_display_averaging a <? 0).
  - erewrite bind_raise by reflexivity.
    split; [apply no_step_runs, no_step_refl | auto].
  - erewrite bind_ok by reflexivity.
    erewrite bind_ok by reflexivity.
    match goal with
    | |- context [bind (foldM ?f ?l ?b) _ ?w0] =>
        assert (H0 : no_step w w0) by fin_trace;
        pose proof (train_steps_runs a l [] w0 (g := g) Hg Hlr) as Hs;
        destruct (foldM f l b w0) as [[[lr1 h1]|e] w1] eqn:E
    end.
    + erewrite bind_ok by exact E.
      cbv iota beta in Hs. destruct Hs as (Hruns & g1 & Hg1 & Hlr1).
      pose proof (Hk (lr1, h1)) as Hq. unfold preserves in Hq.
      specialize (Hq w1). cbn [fst] in Hq |- *.
      match type of Hq with
      | no_step _ (snd ?x) => destruct x as [r w'] eqn:Ex
      end.
      cbn [snd] in Hq.
      assert (Hall : runs_as_expected a w w').
      { eapply runs_as_expected_trans; [apply no_step_runs; exact H0|].
        eapply runs_as_expected_trans; [exact Hruns|].
        apply no_step_runs; exact Hq. }
      destruct Hq as (Hq1 & Hq2 & _).
      split; [exact Hall|].
      destruct r as [lr'|]; [|exact I].
      exists g1. split; [congruence|].
      apply bind_ok_inv in Ex. destruct Ex as (? & ? & _ & Ex).
      apply bind_ok_inv in Ex. destruct Ex as (? & ? & _ & Ex).
      apply bind_ok_inv in Ex. destruct Ex as (? & ? & _ & Ex).
      apply bind_ok_inv in Ex. destruct Ex as (? & ? & _ & Ex).
      apply bind_ok_inv in Ex. destruct Ex as (? & ? & _ & Ex).
      injection Ex as Hlr' Hw'. rewrite <- Hlr'. exact Hlr1.
    + erewrite bind_raise by exact E.
      destruct Hs as (Hruns & _).
      split; [|auto].
      eapply runs_as_expected_trans; [apply no_step_runs; exact H0|].
      exact Hruns.
Qed.

Lemma train_epochs_runs (a : TrainArgs) (l : list Z) :
  forall lr (w : World) g,
    g_step w = Some g ->
    lr = learning_rate_schedule a g ->
    runs_as_expected a w (snd (foldM (train_epoch a) l lr w)).
Proof.
  induction l as [|epoch l IH]; intros lr w g Hg Hlr.
  - simpl. apply no_step_runs, no_step_refl.
  - simpl. pose proof (train_epoch_runs a epoch w Hg Hlr) as Hs.
    destruct (train_epoch a lr epoch w) as [[lr1|e] w1] eqn:E.
    + erewrite bind_ok by exact E.
      destruct Hs as (Hruns & g1 & Hg1 & Hlr1).
      eapply runs_as_expected_trans; [exact Hruns|].
      eapply IH; eassumption.
    + erewrite bind_raise by exact E. apply Hs.
Qed.

Lemma prelude_no_step (a : TrainArgs) :
  preserves no_step gpu_check /\
  preserves no_step (check_config a) /\
  preserves no_step (_initialize_metrics (metrics a)) /\
  preserves no_step (setup_writers a).
Proof.
  pose proof no_step_refl. pose proof no_step_trans.
  split; [|split; [|split]]; pres fin_trace.
Qed.

(** The training steps of a call of [train] are fed as expected from the
    step counter of the call. *)
Lemma train_runs_spec (a : TrainArgs) (w : World) :
  exists t,
    trace (snd (train a w)) = trace w ++ t /\
    train_runs t =
      map (expected_run a)
          (fetched_steps (sess_global_step w) (sess_global_step w)
                         (List.length (train_runs t))).
Proof.
  destruct (prelude_no_step a) as (Pgpu & Pcfg & Pinit & Pset).
  set (P := fun rw : result unit * World =>
    exists t,
      trace (snd rw) = trace w ++ t /\
      train_runs t =
        map (expected_run a)
            (fetched_steps (sess_global_step w) (sess_global_step w)
                           (List.length (train_runs t)))).
  change (P (train a w)).
  assert (Hq : forall e w1, no_step w w1 -> P (Raise e, w1)).
  { intros e w1 (_ & _ & t & Ht & Hr). exists t. rewrite Hr.
    split; [exact Ht | reflexivity]. }
  unfold train.
  apply bind_cases; intros ? w1 E1;
    pose proof (Pgpu w) as P1; rewrite E1 in P1; cbn [snd] in P1;
    [|apply Hq; exact P1].
  apply bind_cases; intros ? w2 E2;
    pose proof (Pcfg w1) as P2; rewrite E2 in P2; cbn [snd] in P2;
    [|apply Hq; eapply no_step_trans; eassumption].
  apply bind_cases; intros ? w3 E3; [|discriminate E3].
  apply bind_cases; intros w4' w4 E4; [|discriminate E4].
  apply bind_cases; intros ? w5 E5; [|discriminate E5].
  unfold modify in E3, E5. unfold get in E4.
  injection E3 as _ E3. injection E4 as E4' E4. injection E5 as _ E5.
  subst w4' w4.
  assert (P3 : no_step w w3).
  { eapply no_step_trans; [exact P1|].
    eapply no_step_trans; [exact P2|]. subst w3. fin_trace. }
  destruct P3 as (G3 & _ & t0 & Ht0 & Hr0).
  assert (H5 : g_step w5 = Some (sess_global_step w))
    by (subst w5; cbn; now rewrite G3).
  assert (G5 : sess_global_step w5 = sess_global_step w)
    by (subst w5; exact G3).
  assert (T5 : trace w5 = trace w ++ t0) by (subst w5; exact Ht0).
  assert (Hfrom : forall rw,
             runs_as_expected a w5 (snd rw) -> P rw).
  { intros rw Hrw. destruct (Hrw _ H5) as (t & Ht & Hr & _).
    exists (t0 ++ t).
    rewrite Ht, T5, app_assoc, train_runs_app, Hr0. cbn [app].
    rewrite G5 in Hr. split; [reflexivity | exact Hr]. }
  apply bind_cases; intros ? w6 E6;
    pose proof (Pinit w5) as P6; rewrite E6 in P6; cbn [snd] in P6;
    [|apply Hfrom; apply no_step_runs; exact P6].
  apply bind_cases; intros ? w7 E7;
    pose proof (Pset w6) as P7; rewrite E7 in P7; cbn [snd] in P7;
    [|apply Hfrom; apply no_step_runs; eapply no_step_trans; eassumption].
  assert (P57 : no_step w5 w7) by (eapply no_step_trans; eassumption).
  assert (Hloop : forall lr0,
             lr0 = learning_rate_schedule a (sess_global_step w) ->
             runs_as_expected a w5
               (snd (foldM (train_epoch a) (range1 (epochs a)) lr0 w7))).
  { intros lr0 Hlr0.
    eapply runs_as_expected_trans; [apply no_step_runs; exact P57|].
    destruct P57 as (_ & H7 & _).
    eapply train_epochs_runs; [rewrite H7; exact H5 | exact Hlr0]. }
  assert (G3' : sess_global_step w3 = sess_global_step w)
    by (rewrite <- G3; reflexivity).
  apply bind_cases; intros ? w8 E8;
    specialize (Hloop _ (f_equal (learning_rate_schedule a) G3'));
    rewrite E8 in Hloop; apply Hfrom; exact Hloop.
Qed.

(** X6: the learning rate fed to each training step of [train] is the
    value of the schedule at [self.g_step]: for the first step of a call
    the step counter of the call, and for each later one the counter that
    [sess.run] fetched with the step before, across epochs and
    evaluations.  On a graph that fetches the counter after it was
    advanced, and while the counter stays within 32 bits, these are the
    successive values of the counter.  This holds for the steps run by
    any call, whether it returns or raises. *)
Theorem learning_rates_follow_the_schedule (a : TrainArgs) (w : World) :
  exists t,
    trace (snd (train a w)) = trace w ++ t /\
    map fst (train_runs t) =
      map (learning_rate_schedule a)
          (fetched_steps (sess_global_step w) (sess_global_step w)
                         (List.length (train_runs t))) /\
    ((forall c, fetches_advanced_step c = true) ->
     int32 (sess_global_step w) ->
     sess_global_step w + Z.of_nat (List.length (train_runs t))
       <= 2147483647 ->
     map fst (train_runs t) =
       map (fun i => learning_rate_schedule
                       a (sess_global_step w + Z.of_nat i))
           (seq 0 (List.length (train_runs t)))).
Proof.
  destruct (train_runs_spec a w) as (t & Ht & Hr).
  assert (H1 : map fst (train_runs t) =
               map (learning_rate_schedule a)
                   (fetched_steps (sess_global_step w) (sess_global_step w)
                                  (List.length (train_runs t)))).
  { rewrite Hr at 1. rewrite map_map. reflexivity. }
  exists t. split; [exact Ht|]. split; [exact H1|].
  intros Hf Hi Hmax. rewrite H1.
  rewrite fetched_steps_advanced by assumption.
  now rewrite map_map.
Qed.


End Rates.

(** ** The best training loss *)

Create HintDb py_outer discriminated.
#[local] Hint Unfold train train_epoch decide_save lt_opt train_step
  setup_writers check_config gpu_check evaluate _evaluate accumulate_batch
  save check_metrics _initialize_metrics track sess_run_train the_g_step
  py_getitem py_index py_mod np_mod forM_ when emit : py_outer.

Section BestLoss.

Context {G : GraphProvider}.

Lemma Qlt_bool_iff (x y : Q) : Qlt_bool x y = true <-> (x < y)%Q.
Proof. unfold Qlt_bool, Qlt. apply Z.ltb_lt. Qed.

Lemma float_lt_trans (x y z : pyfloat) :
  float_lt x y = true -> float_lt y z = true -> float_lt x z = true.
Proof.
  destruct x as [x|], y as [y|], z as [z|]; simpl; try discriminate.
  rewrite !Qlt_bool_iff. apply Qlt_trans.
Qed.

Lemma float_lt_irrefl (x : pyfloat) : float_lt x x = false.
Proof.
  destruct x as [x|]; simpl; [|reflexivity].
  destruct (Qlt_bool x x) eqn:E; [|reflexivity].
  apply Qlt_bool_iff in E. exfalso. exact (Qlt_irrefl x E).
Qed.

Lemma not_worse_refl w : not_worse w w.
Proof. left. reflexivity. Qed.

Lemma not_worse_trans w1 w2 w3 :
  not_worse w1 w2 -> not_worse w2 w3 -> not_worse w1 w3.
Proof.
  unfold not_worse. intros [H1|H1] [H2|H2].
  - left. congruence.
  - right. now rewrite <- H1.
  - right. now rewrite H2.
  - right. eapply float_lt_trans; eassumption.
Qed.

Lemma same_losses_refl w : same_losses w w.
Proof. split; reflexivity. Qed.

Lemma same_losses_trans w1 w2 w3 :
  same_losses w1 w2 -> same_losses w2 w3 -> same_losses w1 w3.
Proof. unfold same_losses. intuition congruence. Qed.

(** The block that updates the best values, on the two training
    losses. *)
Lemma update_best_spec (a : TrainArgs) (epoch : Z) (w : World) :
  match update_best a epoch w with
  | (r, w') =>
      not_worse w w' /\
      training_loss w' = training_loss w /\
      match r with
      | Ok _ =>
          exists l,
            training_loss w' = Some l /\
            float_lt l (best_training_loss w') = false
      | Raise _ => True
      end
  end.
Proof.
  unfold update_best.
  match goal with
  | |- context [bind (py_mod ?e ?f) ?k] =>
      assert (Hk : preserves same_losses (bind (py_mod e f) k))
        by (pose proof same_losses_refl; pose proof same_losses_trans;
            pres ltac:(split; reflexivity))
  end.
  erewrite bind_ok by reflexivity.
  destruct (training_loss w) as [l|] eqn:El.
  2:{ erewrite bind_raise by reflexivity.
      repeat split; [left; reflexivity | exact El]. }
  erewrite bind_ok by reflexivity.
  destruct (float_lt l (best_training_loss w)) eqn:Elt.
  - erewrite bind_ok by reflexivity.
    match goal with
    | |- context [bind (py_mod ?e ?f) ?k ?w1] =>
        pose proof (Hk w1) as Hq;
        destruct (bind (py_mod e f) k w1) as [r w'] eqn:E
    end.
    destruct Hq as [Hb Hl]. cbn [snd] in *. cbn in Hb, Hl.
    split; [right; rewrite Hb; exact Elt|].
    split; [congruence|].
    destruct r; [|exact I].
    exists l. rewrite Hl, Hb. split; [exact El|].
    apply float_lt_irrefl.
  - erewrite bind_ok by reflexivity.
    match goal with
    | |- context [bind (py_mod ?e ?f) ?k ?w1] =>
        pose proof (Hk w1) as Hq;
        destruct (bind (py_mod e f) k w1) as [r w'] eqn:E
    end.
    destruct Hq as [Hb Hl]. cbn [snd] in *.
    split; [left; exact Hb|].
    split; [congruence|].
    destruct r; [|exact I].
    exists l. rewrite Hl, Hb. split; [exact El | exact Elt].
Qed.

Lemma update_best_not_worse (a : TrainArgs) (epoch : Z) :
  preserves not_worse (update_best a epoch).
Proof.
  intros w. pose proof (update_best_spec a epoch w) as H.
  destruct (update_best a epoch w) as [r w']. apply H.
Qed.

Lemma train_not_worse (a : TrainArgs) : preserves not_worse (train a).
Proof.
  pose proof not_worse_refl. pose proof not_worse_trans.
  repeat (progress (autounfold with py_outer; try unfold next)).
  repeat first [ apply update_best_not_worse
               | pres_step ltac:(left; reflexivity) ].
Qed.

Lemma foldM_last_ok {A B : Type} (f : B -> A -> M B) (P : World -> Prop) :
  (forall b x w b' w', f b x w = (Ok b', w') -> P w') ->
  forall l b w b' w',
    l <> [] -> foldM f l b w = (Ok b', w') -> P w'.
Proof.
  intros Hf. induction l as [|x l IH]; intros b w b' w' Hl H;
    [congruence|].
  simpl in H. apply bind_ok_inv in H. destruct H as (b1 & w1 & H1 & H).
  destruct l as [|y l].
  - simpl in H. injection H as _ <-. eapply Hf; eassumption.
  - eapply IH; [discriminate | exact H].
Qed.

Lemma train_epoch_best (a : TrainArgs) lr epoch (w : World) lr' w' :
  train_epoch a lr epoch w = (Ok lr', w') ->
  exists l,
    training_loss w' = Some l /\
    float_lt l (best_training_loss w') = false.
Proof.
  unfold train_epoch. intros H.
  apply bind_ok_inv in H. destruct H as (? & ? & _ & H).
  apply bind_ok_inv in H. destruct H as (? & ? & _ & H).
  apply bind_ok_inv in H. destruct H as (? & ? & _ & H).
  apply bind_ok_inv in H. destruct H as (? & ? & _ & H).
  apply bind_ok_inv in H. destruct H as (? & ? & _ & H).
  apply bind_ok_inv in H. destruct H as (? & ? & _ & H).
  apply bind_ok_inv in H. destruct H as (? & wl & _ & H).
  apply bind_ok_inv in H. destruct H as (u & w1 & Hu & H).
  injection H as _ <-.
  pose proof (update_best_spec a epoch wl) as Hs. rewrite Hu in Hs.
  apply Hs.
Qed.

(** X8: [train] never makes the best training loss worse: after a call,
    returned or raised, it is the one from before the call (it is not
    reset between calls) or strictly below it; and when a call of at
    least one epoch returns, the smoothed training loss it leaves is not
    below the best training loss. *)
Theorem best_training_loss_only_improves (a : TrainArgs) (w : World) :
  not_worse w (snd (train a w)) /\
  (0 < epochs a ->
   forall w',
     train a w = (Ok tt, w') ->
     exists l,
       training_loss w' = Some l /\
       float_lt l (best_training_loss w') = false).
Proof.
  split; [apply train_not_worse|].
  intros He w' H. unfold train in H.
  apply bind_ok_inv in H. destruct H as (? & ? & _ & H).
  apply bind_ok_inv in H. destruct H as (? & ? & _ & H).
  apply bind_ok_inv in H. destruct H as (? & ? & _ & H).
  apply bind_ok_inv in H. destruct H as (? & ? & _ & H).
  apply bind_ok_inv in H. destruct H as (? & ? & _ & H).
  apply bind_ok_inv in H. destruct H as (? & ? & _ & H).
  apply bind_ok_inv in H. destruct H as (? & ? & _ & H).
  apply bind_ok_inv in H. destruct H as (lr' & w8 & H8 & H).
  injection H as <-.
  revert H8.
  apply (@foldM_last_ok _ _ (train_epoch a)
           (fun w' => exists l,
                training_loss w' = Some l /\
                float_lt l (best_training_loss w') = false)).
  - intros. eapply train_epoch_best; eassumption.
  - unfold range1. destruct (Z.to_nat (epochs a)) eqn:E; [lia|].
    simpl. discriminate.
Qed.

End BestLoss.

(** ** The batches consumed by the evaluation on the training data *)

Section Consumption.

Context {G : GraphProvider}.

Lemma same_positions_refl w : same_positions w w.
Proof. reflexivity. Qed.

Lemma same_positions_trans w1 w2 w3 :
  same_positions w1 w2 -> same_positions w2 w3 -> same_positions w1 w3.
Proof. unfold same_positions. congruence. Qed.

Ltac pres_positions :=
  pose proof same_positions_refl; pose proof same_positions_trans;
  repeat (progress (autounfold with py_outer;
                    try unfold update_best, update_best_metric));
  repeat pres_step ltac:(reflexivity).

Lemma train_step_position (a : TrainArgs) locals i (w : World) locals' w' :
  train_step a locals i w = (Ok locals', w') ->
  generator_position w' (train_generator a) =
    S (generator_position w (train_generator a)).
Proof.
  destruct locals as [lr h]. unfold train_step.
  repeat autounfold with py. unfold bind, get, modify, ret, raise. cbn.
  repeat (break_match; cbn); intros H; try discriminate;
    injection H as _ <-; cbn; now rewrite Nat.eqb_refl.
Qed.

Lemma train_steps_position (a : TrainArgs) (l : list nat) :
  forall locals (w : World) locals' w',
    foldM (train_step a) l locals w = (Ok locals', w') ->
    generator_position w' (train_generator a) =
      (generator_position w (train_generator a) + List.length l)%nat.
Proof.
  induction l as [|i l IH]; intros locals w locals' w' H; simpl in H.
  - injection H as _ <-. simpl. lia.
  - apply bind_ok_inv in H. destruct H as (locals1 & w1 & H1 & H).
    apply train_step_position in H1. apply IH in H.
    rewrite H, H1. simpl. lia.
Qed.

Lemma accumulate_batch_position (g step : nat) (w : World) u w' :
  accumulate_batch g step w = (Ok u, w') ->
  generator_position w' g = S (generator_position w g).
Proof.
  unfold accumulate_batch, next, emit, bind, get, modify, ret, raise.
  destruct (generator_source g (generator_position w g)); intros H;
    [|discriminate].
  injection H as _ <-. cbn. now rewrite Nat.eqb_refl.
Qed.

Lemma accumulation_position (g : nat) (l : list nat) :
  forall (w : World) u w',
    forM_ l (accumulate_batch g) w = (Ok u, w') ->
    generator_position w' g = (generator_position w g + List.length l)%nat.
Proof.
  unfold forM_.
  induction l as [|i l IH]; intros w u w' H; simpl in H.
  - injection H as _ <-. simpl. lia.
  - apply bind_ok_inv in H. destruct H as ([] & w1 & H1 & H).
    apply accumulate_batch_position in H1. apply IH in H.
    rewrite H, H1. simpl. lia.
Qed.

Lemma evaluate_position g ms n d (w : World) u w' :
  _evaluate g ms n d w = (Ok u, w') ->
  generator_position w' g = (generator_position w g + Z.to_nat n)%nat.
Proof.
  unfold _evaluate. intros H.
  apply bind_ok_inv in H. destruct H as (? & w1 & H1 & H).
  apply bind_ok_inv in H. destruct H as (? & w2 & H2 & H).
  apply bind_ok_inv in H. destruct H as (? & w3 & H3 & H).
  apply bind_ok_inv in H. destruct H as (? & w4 & H4 & H).
  match type of H with
  | ?c w4 = _ =>
      assert (Hp : preserves same_positions c) by pres_positions;
      specialize (Hp w4); rewrite H in Hp; cbn [snd] in Hp
  end.
  apply accumulation_position in H4.
  unfold range in H4. rewrite length_seq in H4.
  rewrite Hp, H4.
  unfold emit, modify in H1, H2, H3.
  injection H1 as _ <-. injection H2 as _ <-. injection H3 as _ <-.
  reflexivity.
Qed.

Lemma train_epoch_position (a : TrainArgs) lr epoch (w : World) lr' w' :
  eval_dataset a = "train" ->
  train_epoch a lr epoch w = (Ok lr', w') ->
  generator_position w' (train_generator a) =
    (generator_position w (train_generator a)
     + Z.to_nat (steps_per_epoch a)
     + (if evaluates a epoch then Z.to_nat (steps_per_epoch a) else 0))%nat.
Proof.
  intros Hd H. unfold train_epoch in H.
  apply bind_ok_inv in H. destruct H as (? & w1 & H1 & H).
  apply bind_ok_inv in H. destruct H as (? & w2 & H2 & H).
  apply bind_ok_inv in H. destruct H as (locals & w3 & H3 & H).
  apply bind_ok_inv in H. destruct H as (do_eval & w4 & H4 & H).
  apply bind_ok_inv in H. destruct H as (? & w5 & H5 & H).
  match type of H with
  | ?c w5 = _ =>
      assert (Hp : preserves same_positions c) by pres_positions;
      specialize (Hp w5); rewrite H in Hp; cbn [snd] in Hp
  end.
  apply train_steps_position in H3.
  unfold range in H3. rewrite length_seq in H3.
  assert (E1 : w1 = w).
  { destruct (training_loss_display_averaging a <? 0);
      [discriminate | now injection H1 as _ <-]. }
  assert (E2 : generator_position w2 = generator_position w1).
  { unfold emit, modify in H2. now injection H2 as _ <-. }
  assert (E4 : w4 = w3 /\ do_eval = evaluates a epoch).
  { unfold evaluates.
    destruct (0 <? Z.of_nat (List.length (metrics a))).
    - unfold py_mod, bind in H4.
      destruct (eval_frequency a =? 0); [discriminate|].
      unfold ret in H4. now injection H4 as <- <-.
    - now injection H4 as <- <-. }
  destruct E4 as [-> ->].
  rewrite Hp. subst w1. rewrite E2 in H3.
  destruct (evaluates a epoch).
  - cbn [when] in H.
    apply bind_ok_inv in H5. destruct H5 as (? & w6 & H6 & H5).
    assert (E5 : generator_position w5 = generator_position w6).
    { destruct (record_summaries a); cbn [when] in H5.
      - unfold bind, get, emit, modify in H5. now injection H5 as _ <-.
      - now injection H5 as _ <-. }
    rewrite Hd in H6.
    change (String.eqb "train" "train") with true in H6. cbv iota in H6.
    apply evaluate_position in H6.
    rewrite E5, H6, H3. reflexivity.
  - cbn [when] in H5. injection H5 as _ <-. rewrite H3. lia.
Qed.

Lemma train_epochs_position (a : TrainArgs) (l : list Z) :
  eval_dataset a = "train" ->
  forall lr (w : World) lr' w',
    foldM (train_epoch a) l lr w = (Ok lr', w') ->
    generator_position w' (train_generator a) =
      (generator_position w (train_generator a)
       + Z.to_nat (steps_per_epoch a)
         * (List.length l + List.length (filter (evaluates a) l)))%nat.
Proof.
  intros Hd.
  induction l as [|epoch l IH]; intros lr w lr' w' H; simpl in H.
  - injection H as _ <-. simpl. lia.
  - apply bind_ok_inv in H. destruct H as (lr1 & w1 & H1 & H).
    eapply train_epoch_position in H1; [|exact Hd]. apply IH in H.
    rewrite H, H1. cbn [filter List.length].
    destruct (evaluates a epoch); cbn [List.length]; lia.
Qed.

(** X9: with [eval_dataset == 'train'] the evaluation runs on the
    training generator itself: a call of [train] that returns has pulled
    from it [steps_per_epoch] batches for the training steps of every
    epoch, and [steps_per_epoch] more after every epoch that is
    evaluated (metrics requested and epoch number a multiple of
    [eval_frequency]); the training steps of the next epoch go on after
    the batches the evaluation consumed. *)
Theorem evaluation_consumes_training_batches (a : TrainArgs) (w w' : World) :
  eval_dataset a = "train" ->
  train a w = (Ok tt, w') ->
  generator_position w' (train_generator a) =
    (generator_position w (train_generator a)
     + Z.to_nat (steps_per_epoch a)
       * (Z.to_nat (epochs a)
          + List.length (filter (evaluates a) (range1 (epochs a)))))%nat.
Proof.
  intros Hd H. unfold train in H.
  assert (Pg : preserves same_positions gpu_check) by pres_positions.
  assert (Pc : preserves same_positions (check_config a))
    by pres_positions.
  assert (Pi : preserves same_positions (_initialize_metrics (metrics a)))
    by pres_positions.
  assert (Ps : preserves same_positions (setup_writers a))
    by pres_positions.
  apply bind_ok_inv in H. destruct H as (? & w1 & H1 & H).
  apply bind_ok_inv in H. destruct H as (? & w2 & H2 & H).
  apply bind_ok_inv in H. destruct H as (? & w3 & H3 & H).
  apply bind_ok_inv in H. destruct H as (w4' & w4 & H4 & H).
  apply bind_ok_inv in H. destruct H as (? & w5 & H5 & H).
  apply bind_ok_inv in H. destruct H as (? & w6 & H6 & H).
  apply bind_ok_inv in H. destruct H as (? & w7 & H7 & H).
  apply bind_ok_inv in H. destruct H as (lr' & w8 & H8 & H).
  injection H as <-.
  specialize (Pg w). rewrite H1 in Pg.
  specialize (Pc w1). rewrite H2 in Pc.
  specialize (Pi w5). rewrite H6 in Pi.
  specialize (Ps w6). rewrite H7 in Ps.
  cbn [snd] in Pg, Pc, Pi, Ps. unfold same_positions in *.
  unfold modify in H3, H5. unfold get in H4.
  injection H3 as _ <-. injection H4 as <- <-. injection H5 as _ <-.
  eapply train_epochs_position in H8; [|exact Hd].
  rewrite H8, Ps, Pi. cbn. rewrite Pc, Pg.
  unfold range1. rewrite length_map, length_seq. reflexivity.
Qed.

End Consumption.

(** ** Periodic checkpoints *)

Section Periodic.

Context {G : GraphProvider}.

Variable a : TrainArgs.

Hypothesis H_save : save_during_training a = true.
Hypothesis H_best : save_best_only a = false.
Hypothesis H_steps : 0 < steps_per_epoch a.

Lemma same_checkpoints_refl w : same_checkpoints w w.
Proof. repeat split. Qed.

Lemma same_checkpoints_trans w1 w2 w3 :
  same_checkpoints w1 w2 -> same_checkpoints w2 w3 -> same_checkpoints w1 w3.
Proof. unfold same_checkpoints. intuition congruence. Qed.

Lemma train_steps_keep_saved l locals :
  preserves (fun w w' => saved_models w' = saved_models w)
            (foldM (train_step a) l locals).
Proof.
  assert (forall w : World, saved_models w = saved_models w) by reflexivity.
  assert (forall w1 w2 w3 : World,
             saved_models w2 = saved_models w1 ->
             saved_models w3 = saved_models w2 ->
             saved_models w3 = saved_models w1) by congruence.
  unfold train_step. pres ltac:(reflexivity).
Qed.

(** A [save] that goes through persists one model, which holds the step
    counter of the session. *)
Lemma save_persists dir tags name b1 b2 b3 (w w' : World) :
  variables_updated w = true ->
  save dir tags name b1 b2 b3 w = (Ok tt, w') ->
  sess_global_step w' = sess_global_step w /\
  exists m,
    saved_models w' = saved_models w ++ [m] /\
    sm_global_step m = sess_global_step w.
Proof.
  intros Hv H. unfold save in H. unfold bind at 1, get in H.
  rewrite Hv in H. simpl negb in H. cbv iota in H.
  apply bind_ok_inv in H. destruct H as (mn1 & w1 & H1 & H).
  apply bind_ok_inv in H. destruct H as (mn2 & w2 & H2 & H).
  apply bind_ok_inv in H. destruct H as (d & w3 & H3 & H).
  assert (E1 : w1 = w).
  { destruct b2; [destruct (training_loss w)|]; inversion H1; reflexivity. }
  assert (E2 : w2 = w1).
  { destruct b3.
    - match type of H2 with
      | foldM ?f ?l ?acc w1 = _ =>
          pose proof (@name_loop_keeps_world _ (metric_names w)
                        (metric_values w) l acc w1) as P
      end.
      rewrite H2 in P. symmetry. exact P.
    - inversion H2. reflexivity. }
  assert (E3 : w3 = w2).
  { destruct dir; inversion H3; reflexivity. }
  subst w3 w2 w1.
  match type of H with
  | (if ?b then _ else _) _ = _ => destruct b; [discriminate H|]
  end.
  unfold emit, bind, modify in H. inversion H; subst w'; clear H.
  cbn. split; [reflexivity|]. eexists. split; reflexivity.
Qed.

Lemma train_epoch_checkpoint lr epoch (w : World) lr' w' :
  train_epoch a lr epoch w = (Ok lr', w') ->
  sess_global_step w' =
    counter_after (Z.to_nat (steps_per_epoch a)) (sess_global_step w) /\
  exists new,
    saved_models w' = saved_models w ++ new /\
    map sm_global_step new =
      if epoch mod save_frequency a =? 0
      then [counter_after (Z.to_nat (steps_per_epoch a))
                          (sess_global_step w)]
      else [].
Proof.
  unfold train_epoch. intros H.
  apply bind_ok_inv in H. destruct H as (? & w1 & H1 & H).
  apply bind_ok_inv in H. destruct H as (? & w2 & H2 & H).
  apply bind_ok_inv in H. destruct H as ([lr1 h1] & w3 & H3 & H).
  apply bind_ok_inv in H. destruct H as (do_eval & w4 & H4 & H).
  apply bind_ok_inv in H. destruct H as (? & w5 & H5 & H).
  apply bind_ok_inv in H. destruct H as (do_save & w6 & H6 & H).
  apply bind_ok_inv in H. destruct H as ([] & w7 & H7 & H).
  apply bind_ok_inv in H. destruct H as (? & w8 & H8 & H).
  injection H as _ <-.
  assert (P12 : same_checkpoints w w2).
  { destruct (training_loss_display_averaging a <? 0); [discriminate H1|].
    injection H1 as _ <-. injection H2 as _ <-. repeat split. }
  assert (P3 : saved_models w3 = saved_models w2 /\
               sess_global_step w3 =
                 counter_after (Z.to_nat (steps_per_epoch a))
                               (sess_global_step w2) /\
               variables_updated w3 = true).
  { pose proof (train_steps_spec a (range (steps_per_epoch a)) lr [] w2) as Hs.
    pose proof (@train_steps_keep_saved (range (steps_per_epoch a))
                  (lr, []) w2) as Hsv.
    rewrite H3 in Hs, Hsv. cbn [snd] in Hsv.
    destruct Hs as (t & _ & _ & _ & _ & Hg & Hlen & _ & _ & Hvu).
    unfold range in Hlen, Hvu. rewrite length_seq in Hlen.
    rewrite Hlen in Hg. split; [exact Hsv|]. split; [exact Hg|].
    apply Hvu. destruct (Z.to_nat (steps_per_epoch a)) eqn:E0; [lia|].
    simpl. discriminate. }
  assert (P45 : same_checkpoints w3 w5).
  { assert (E4 : w4 = w3).
    { destruct (0 <? Z.of_nat (List.length (metrics a))).
      - apply bind_ok_inv in H4. destruct H4 as (? & ? & H4 & H4').
        unfold py_mod in H4.
        destruct (eval_frequency a =? 0); [discriminate H4|].
        injection H4 as _ <-. injection H4' as _ <-. reflexivity.
      - injection H4 as _ <-. reflexivity. }
    subst w4.
    match type of H5 with
    | ?c w3 = _ =>
        assert (Hp : preserves same_checkpoints c)
          by (pose proof same_checkpoints_refl;
              pose proof same_checkpoints_trans;
              pres ltac:(repeat split))
    end.
    specialize (Hp w3). rewrite H5 in Hp. exact Hp. }
  assert (P6 : w6 = w5 /\ do_save = (epoch mod save_frequency a =? 0)).
  { rewrite H_save in H6.
    apply bind_ok_inv in H6. destruct H6 as (? & ? & H6 & H6').
    unfold py_mod in H6.
    destruct (save_frequency a =? 0); [discriminate H6|].
    injection H6 as <- <-. injection H6' as <- <-. auto. }
  destruct P6 as [-> ->].
  assert (P8 : same_checkpoints w7 w8).
  { pose proof same_checkpoints_refl. pose proof same_checkpoints_trans.
    assert (Hp : preserves same_checkpoints (update_best a epoch))
      by (pres ltac:(repeat split)).
    specialize (Hp w7). rewrite H8 in Hp. exact Hp. }
  destruct P12 as (S2 & G2 & _). destruct P3 as (S3 & G3 & V3).
  destruct P45 as (S5 & G5 & V5). destruct P8 as (S8 & G8 & _).
  rewrite G2 in G3.
  destruct (epoch mod save_frequency a =? 0).
  - unfold when in H7. unfold decide_save in H7. rewrite H_best in H7.
    erewrite bind_ok in H7 by reflexivity.
    unfold when in H7. unfold bind, get in H7.
    apply save_persists in H7; [|congruence].
    destruct H7 as (G7 & m & S7 & Hm).
    split; [congruence|].
    exists [m]. split; [congruence|]. cbn. congruence.
  - injection H7 as <-.
    split; [congruence|].
    exists []. rewrite app_nil_r. split; [congruence | reflexivity].
Qed.

Lemma train_epochs_checkpoint (l : list Z) :
  forall lr (w : World) lr' w',
    foldM (train_epoch a) l lr w = (Ok lr', w') ->
    exists new,
      saved_models w' = saved_models w ++ new /\
      map sm_global_step new = checkpoint_steps a (sess_global_step w) l.
Proof.
  induction l as [|epoch l IH]; intros lr w lr' w' H.
  - injection H as _ <-. exists [].
    split; [now rewrite app_nil_r | reflexivity].
  - simpl foldM in H. apply bind_ok_inv in H.
    destruct H as (lr1 & w1 & E1 & H).
    destruct (train_epoch_checkpoint _ _ _ E1) as (Hg1 & new1 & Hs1 & Hm1).
    destruct (IH _ _ _ _ H) as (new & Hs & Hm).
    exists (new1 ++ new).
    rewrite Hs, Hs1, app_assoc, map_app, Hm, Hm1, Hg1.
    split; reflexivity.
Qed.

Lemma checkpoint_steps_closed (n : nat) :
  forall (s : nat) (g : Z),
    checkpoint_steps
      a (counter_after (Z.to_nat (steps_per_epoch a) * s) g)
      (map Z.of_nat (seq (S s) n)) =
    map (fun e => counter_after (Z.to_nat (steps_per_epoch a * e)) g)
        (filter (fun e => e mod save_frequency a =? 0)
                (map Z.of_nat (seq (S s) n))).
Proof.
  induction n as [|n IH]; intros s g; [reflexivity|].
  cbn [seq map checkpoint_steps filter].
  rewrite counter_after_add.
  replace (Z.to_nat (steps_per_epoch a) * s + Z.to_nat (steps_per_epoch a))%nat
    with (Z.to_nat (steps_per_epoch a) * S s)%nat by lia.
  rewrite IH.
  destruct (Z.of_nat (S s) mod save_frequency a =? 0); [|reflexivity].
  cbn [map app]. do 2 f_equal. lia.
Qed.

End Periodic.

Section PeriodicTheorem.

Context {G : GraphProvider}.

(** X10: a call of [train] that saves during training without
    [save_best_only], on epochs of at least one step, and returns, has
    saved one model after each epoch whose number is a multiple of
    [save_frequency] and no other.  The models hold, in the order of
    these epochs [e], the step counter after [steps_per_epoch * e]
    training steps from the start of the call: the initial counter plus
    [steps_per_epoch * e], while this stays within 32 bits. *)
Theorem checkpoints_every_save_frequency (a : TrainArgs) (w w' : World) :
  save_during_training a = true ->
  save_best_only a = false ->
  0 < steps_per_epoch a ->
  train a w = (Ok tt, w') ->
  exists new,
    saved_models w' = saved_models w ++ new /\
    map sm_global_step new =
      map (fun e => counter_after (Z.to_nat (steps_per_epoch a * e))
                                  (sess_global_step w))
          (filter (fun e => e mod save_frequency a =? 0)
                  (range1 (epochs a))) /\
    (int32 (sess_global_step w) ->
     sess_global_step w + steps_per_epoch a * epochs a <= 2147483647 ->
     map sm_global_step new =
       map (fun e => sess_global_step w + steps_per_epoch a * e)
           (filter (fun e => e mod save_frequency a =? 0)
                   (range1 (epochs a)))).
Proof.
  intros H_save H_best H_steps H.
  unfold train in H.
  apply bind_ok_inv in H. destruct H as (? & w1 & H1 & H).
  apply bind_ok_inv in H. destruct H as (? & w2 & H2 & H).
  apply bind_ok_inv in H. destruct H as (? & w3 & H3 & H).
  apply bind_ok_inv in H. destruct H as (w4' & w4 & H4 & H).
  apply bind_ok_inv in H. destruct H as (? & w5 & H5 & H).
  apply bind_ok_inv in H. destruct H as (? & w6 & H6 & H).
  apply bind_ok_inv in H. destruct H as (? & w7 & H7 & H).
  apply bind_ok_inv in H. destruct H as (? & w8 & H8 & H).
  injection H as <-. injection H4 as <- <-.
  assert (Hpre : same_checkpoints w w7).
  { pose proof same_checkpoints_refl as R. pose proof same_checkpoints_trans as T.
    assert (P1 : preserves same_checkpoints gpu_check)
      by (pres ltac:(repeat split)).
    assert (P2 : preserves same_checkpoints (check_config a))
      by (pres ltac:(repeat split)).
    assert (P6 : preserves same_checkpoints
                   (_initialize_metrics (metrics a)))
      by (pres ltac:(repeat split)).
    assert (P7 : preserves same_checkpoints (setup_writers a))
      by (pres ltac:(repeat split)).
    specialize (P1 w). rewrite H1 in P1.
    specialize (P2 w1). rewrite H2 in P2.
    specialize (P6 w5). rewrite H6 in P6.
    specialize (P7 w6). rewrite H7 in P7.
    injection H3 as _ <-. injection H5 as _ <-. cbn [snd] in *.
    eapply T; [exact P1|]. eapply T; [exact P2|].
    eapply T; [|exact P7]. eapply T; [|exact P6]. repeat split. }
  destruct Hpre as (S7 & G7 & _).
  destruct (@train_epochs_checkpoint _ a H_save H_best H_steps _ _ _ _ _ H8)
    as (new & Hs & Hm).
  pose proof (@checkpoint_steps_closed a H_steps (Z.to_nat (epochs a)) O
                (sess_global_step w)) as Hc.
  rewrite Nat.mul_0_r in Hc. cbn [counter_after] in Hc.
  fold (range1 (epochs a)) in Hc.
  assert (Hall : map sm_global_step new =
                 map (fun e => counter_after (Z.to_nat (steps_per_epoch a * e))
                                             (sess_global_step w))
                     (filter (fun e => e mod save_frequency a =? 0)
                             (range1 (epochs a)))).
  { rewrite Hm, G7. exact Hc. }
  exists new. split; [congruence|]. split; [exact Hall|].
  intros Hi Hmax. rewrite Hall. apply map_ext_in.
  intros e He. apply filter_In in He. destruct He as [He _].
  unfold range1 in He. apply in_map_iff in He.
  destruct He as (n & <- & Hn). apply in_seq in Hn.
  rewrite counter_after_small; [lia | exact Hi | nia].
Qed.

End PeriodicTheorem.

(** ** The name of a saved model *)

Section SavedName.

Context {G : GraphProvider}.

Lemma name_loop_extends (names : list string) (values : list pyfloat)
      (l : list nat) :
  forall acc (w : World) r w',
    foldM (fun model_name i =>
             metric_name <- py_getitem names i ;;
             v <- py_getitem values i ;;
             ret (model_name ++ [NMetric metric_name v])) l acc w
    = (Ok r, w') ->
    exists extra, r = acc ++ extra /\ ~ In NTimestamp extra.
Proof.
  induction l as [|i l IH]; intros acc w r w' H.
  - simpl in H. injection H as <- _. exists [].
    split; [now rewrite app_nil_r | intros []].
  - simpl in H.
    apply bind_ok_inv in H. destruct H as (acc1 & w1 & H1 & H).
    apply bind_ok_inv in H1. destruct H1 as (n & ? & _ & H1).
    apply bind_ok_inv in H1. destruct H1 as (v & ? & _ & H1).
    injection H1 as <- _.
    apply IH in H. destruct H as (extra & -> & Hno).
    exists (NMetric n v :: extra). split; [now rewrite <- app_assoc|].
    intros [Hd|Hin]; [discriminate | contradiction].
Qed.

(** X11: a call of [save] that goes through persists exactly one model:
    under the given directory and tags, holding the weights and the
    global step of the session, with a name that starts with the fixed
    prefix and carries a time stamp exactly when neither a name nor any
    of the three optional parts was asked for. *)
Theorem saved_model_is_named
        (dir : string) (tags : list string) (name : option string)
        (b1 b2 b3 : bool) (w w' : World) :
  variables_updated w = true ->
  save (Some dir) tags name b1 b2 b3 w = (Ok tt, w') ->
  exists m,
    saved_models w' = saved_models w ++ [m] /\
    sm_dir m = dir /\
    sm_tags m = tags /\
    sm_weights m = sess_weights w /\
    sm_global_step m = sess_global_step w /\
    hd_error (sm_name m) = Some NPrefix /\
    (In NTimestamp (sm_name m) <->
     name = None /\ b1 = false /\ b2 = false /\ b3 = false).
Proof.
  intros Hv H. unfold save in H. unfold bind at 1, get in H.
  rewrite Hv in H. simpl negb in H. cbv iota in H.
  apply bind_ok_inv in H. destruct H as (mn1 & w1 & H1 & H).
  apply bind_ok_inv in H. destruct H as (mn2 & w2 & H2 & H).
  apply bind_ok_inv in H. destruct H as (d & w3 & H3 & H).
  injection H3 as <- <-.
  match type of H with
  | (if ?b then _ else _) _ = _ => destruct b; [discriminate H|]
  end.
  unfold emit, bind, modify in H. injection H as <-.
  assert (E1 : w1 = w /\
               exists rest1,
                 mn1 = NPrefix :: rest1 /\
                 ~ In NTimestamp rest1 /\
                 (rest1 = [] <-> name = None /\ b1 = false /\ b2 = false)).
  { destruct b2; [destruct (training_loss w)|];
      try discriminate; injection H1 as <- <-;
      (split; [reflexivity|]);
      destruct name, b1; cbn; eexists; (split; [reflexivity|]);
      (split; [cbn; intuition discriminate|]);
      intuition (discriminate || reflexivity). }
  destruct E1 as (-> & rest1 & -> & Hno1 & Hnil1).
  assert (E2 : w2 = w /\
               exists rest2,
                 mn2 = NPrefix :: rest2 /\
                 ~ In NTimestamp rest2 /\
                 (rest2 = [] <->
                  name = None /\ b1 = false /\ b2 = false /\ b3 = false)).
  { destruct b3.
    - pose proof (@name_loop_keeps_world _ (metric_names w)
                    (metric_values w)
                    (seq 0 (List.length (metric_names w)))
                    ((NPrefix :: rest1) ++
                     [NEvalOn match self_eval_dataset w with
                              | Some d0 => String.eqb d0 "val"
                              | None => false
                              end]) w) as P.
      rewrite H2 in P. cbn [snd] in P. split; [now symmetry|].
      apply name_loop_extends in H2. destruct H2 as (extra & -> & Hex).
      eexists. split; [cbn; reflexivity|]. split.
      + rewrite !in_app_iff. cbn. intuition discriminate.
      + split; [|intuition discriminate].
        intros Hnil. destruct rest1; discriminate Hnil.
    - injection H2 as <- <-. split; [reflexivity|].
      exists rest1. split; [reflexivity|]. split; [exact Hno1|].
      intuition. }
  destruct E2 as (-> & rest2 & -> & Hno2 & Hnil2).
  eexists. cbn. split; [reflexivity|]. cbn.
  repeat (split; [reflexivity|]).
  destruct (negb (b1 || b2 || b3) && is_none name) eqn:Eb.
  - split; [reflexivity|]. split.
    + intros _. apply andb_true_iff in Eb. destruct Eb as [Eb En].
      apply negb_true_iff in Eb.
      destruct b1, b2, b3, name; try discriminate. auto.
    + intros _. right. apply in_or_app. right. left. reflexivity.
  - split; [reflexivity|]. split.
    + intros [Hd|Hin]; [discriminate | contradiction].
    + intros (-> & -> & -> & ->). discriminate Eb.
Qed.

End SavedName.

(** ** Saving into an export directory that exists *)

Section SavedTwice.

Context {G : GraphProvider}.

(** X12: [save] under an explicit name, without the optional parts of the
    name, into a directory that already holds a model at the export path
    [os.path.join(model_save_dir, 'saved_model_' + name)] raises
    [AssertionError], as [SavedModelBuilder] refuses an export directory
    that exists: nothing is persisted and the variables-updated flag
    stays set. *)
Theorem save_into_existing_directory_raises
        (dir : string) (tags : list string) (name : string) (w : World)
        (m : SavedModel) :
  variables_updated w = true ->
  In m (saved_models w) ->
  sm_path m =
    export_path dir [NPrefix; NName name] (time_at (List.length (trace w))) ->
  save (Some dir) tags (Some name) false false false w
  = (Raise AssertionError, w).
Proof.
  intros Hv Hin Hpath. unfold save. unfold bind at 1, get.
  rewrite Hv. change (negb true) with false. cbv iota zeta.
  erewrite bind_ok by reflexivity.
  erewrite bind_ok by reflexivity.
  erewrite bind_ok by reflexivity.
  cbn [orb negb andb app].
  match goal with
  | |- (if ?b then _ else _) _ = _ =>
      assert (Hex : b = true);
      [|rewrite Hex; reflexivity]
  end.
  apply existsb_exists. exists m. split; [exact Hin|].
  apply String.eqb_eq. exact Hpath.
Qed.

End SavedTwice.

(** ** The further properties at work on the concrete graph *)

Lemma second_save_is_a_no_op_witness :
  @save Toy.graph (Some "models") ["default"] None true true true
    (snd (@train_step Toy.graph (Toy.args 0 1 1 [] "loss" 5 5 false true)
            (Toy.schedule 0, []) O Toy.fresh))
  = (Ok tt,
     snd (@save Toy.graph (Some "models") ["default"] None true true true
            (snd (@train_step Toy.graph
                    (Toy.args 0 1 1 [] "loss" 5 5 false true)
                    (Toy.schedule 0, []) O Toy.fresh)))) /\
  fst (@save Toy.graph (Some "other") ["default"] (Some "again")
         true true true
         (snd (@save Toy.graph (Some "models") ["default"] None
                 true true true
                 (snd (@train_step Toy.graph
                         (Toy.args 0 1 1 [] "loss" 5 5 false true)
                         (Toy.schedule 0, []) O Toy.fresh)))))
  = Ok tt.
Proof.
  assert (E : @save Toy.graph (Some "models") ["default"] None
                true true true
                (snd (@train_step Toy.graph
                        (Toy.args 0 1 1 [] "loss" 5 5 false true)
                        (Toy.schedule 0, []) O Toy.fresh))
              = (Ok tt,
                 snd (@save Toy.graph (Some "models") ["default"] None
                        true true true
                        (snd (@train_step Toy.graph
                                (Toy.args 0 1 1 [] "loss" 5 5 false true)
                                (Toy.schedule 0, []) O Toy.fresh)))))
    by (vm_compute; reflexivity).
  split; [exact E|].
  rewrite (@second_save_is_a_no_op Toy.graph _ _ _ _ _ _
             (Some "other") ["default"] (Some "again") true true true
             _ _ E).
  reflexivity.
Defined.

Lemma save_before_evaluation_raises_witness :
  (variables_updated
     (snd (@train_step Toy.graph
             (Toy.args 0 1 1 ["loss"] "loss" 5 1 true false)
             (Toy.schedule 0, []) O
             (snd (@_initialize_metrics Toy.graph ["loss"] Toy.fresh))))
   = true) /\
  @save Toy.graph (Some "models") ["default"] None true true true
    (snd (@train_step Toy.graph
            (Toy.args 0 1 1 ["loss"] "loss" 5 1 true false)
            (Toy.schedule 0, []) O
            (snd (@_initialize_metrics Toy.graph ["loss"] Toy.fresh))))
  = (Raise IndexError,
     snd (@train_step Toy.graph
            (Toy.args 0 1 1 ["loss"] "loss" 5 1 true false)
            (Toy.schedule 0, []) O
            (snd (@_initialize_metrics Toy.graph ["loss"] Toy.fresh)))).
Proof.
  assert (Hv : variables_updated
                 (snd (@train_step Toy.graph
                         (Toy.args 0 1 1 ["loss"] "loss" 5 1 true false)
                         (Toy.schedule 0, []) O
                         (snd (@_initialize_metrics Toy.graph ["loss"]
                                 Toy.fresh)))) = true)
    by (vm_compute; reflexivity).
  split; [exact Hv|].
  apply (@save_before_evaluation_raises Toy.graph).
  - exact Hv.
  - intros _. vm_compute. discriminate.
  - vm_compute. constructor.
Defined.

Lemma decision_without_improvement_raises_witness :
  float_lt (Fin 1)
    (best_training_loss
       (snd (@train Toy.graph (Toy.args 0 1 1 [] "loss" 5 1 true true)
               Toy.fresh))) = false /\
  @decide_save Toy.graph (Toy.args 0 1 1 [] "loss" 5 1 true true)
    (snd (@train Toy.graph (Toy.args 0 1 1 [] "loss" 5 1 true true)
            Toy.fresh))
  = (Raise ValueError,
     snd (@train Toy.graph (Toy.args 0 1 1 [] "loss" 5 1 true true)
            Toy.fresh)).
Proof.
  assert (Hlt : float_lt (Fin 1)
                  (best_training_loss
                     (snd (@train Toy.graph
                             (Toy.args 0 1 1 [] "loss" 5 1 true true)
                             Toy.fresh))) = false)
    by (vm_compute; reflexivity).
  split; [exact Hlt|].
  apply (@decision_without_improvement_raises Toy.graph
           (Toy.args 0 1 1 [] "loss" 5 1 true true) _ (Fin 1)).
  - reflexivity.
  - reflexivity.
  - vm_compute. reflexivity.
  - vm_compute. reflexivity.
  - exact Hlt.
Defined.

Lemma initialized_metric_lists_are_consistent_witness :
  metric_names
    (snd (@_initialize_metrics Toy.graph ["accuracy"; "loss"; "loss"]
            Toy.evaluated))
  = metric_names
      (snd (@_initialize_metrics Toy.graph ["loss"; "accuracy"] Toy.fresh)).
Proof.
  destruct (@initialized_metric_lists_are_consistent Toy.graph
              ["loss"; "accuracy"] Toy.fresh) as (_ & _ & _ & _ & _ & H).
  apply (H ["accuracy"; "loss"; "loss"] Toy.evaluated).
  intros x. unfold mem. simpl.
  destruct (String.eqb x "accuracy"), (String.eqb x "loss"); reflexivity.
Defined.

Lemma evaluation_on_exhausted_source_witness :
  exists w',
    @_evaluate Toy.graph 1 ["loss"] 3 "Running evaluation"
      (snd (@_initialize_metrics Toy.graph ["loss"] Toy.evaluated))
    = (Raise StopIteration, w') /\
    generator_position w' 1%nat = 2%nat /\
    metric_values w' = [Fin (9 # 10)].
Proof.
  destruct (@evaluation_on_exhausted_source Toy.graph 1%nat ["loss"] 3
              "Running evaluation" 2%nat
              (snd (@_initialize_metrics Toy.graph ["loss"] Toy.evaluated)))
    as (w' & E & _ & Hp & _ & Hm & _).
  - vm_compute. constructor.
  - intros [|[|i]] Hi; simpl; try discriminate.
    exfalso. apply (Nat.lt_irrefl 2).
    apply Nat.le_lt_trans with (2 := Hi).
    apply le_n_S, le_n_S, Nat.le_0_l.
  - reflexivity.
  - exists w'. split; [exact E|]. split; [exact Hp|].
    rewrite Hm. vm_compute. reflexivity.
Defined.

Lemma learning_rates_follow_the_schedule_witness :
  exists t,
    trace (snd (@train Toy.graph
                  (Toy.recording 2 (Toy.args 0 2 2 [] "loss" 5 5 false true))
                  Toy.fresh))
    = trace Toy.fresh ++ t /\
    map fst (train_runs t) =
      [Fin 1; Fin (1 # 2); Fin (1 # 3); Fin (1 # 4)].
Proof.
  destruct (@learning_rates_follow_the_schedule
              Toy.graph
              (Toy.recording 2 (Toy.args 0 2 2 [] "loss" 5 5 false true))
              Toy.fresh) as (t & Ht & _ & Hc).
  assert (Hlen : List.length (train_runs t) = 4%nat).
  { change (trace Toy.fresh) with (@nil event) in Ht. cbn [app] in Ht.
    rewrite <- Ht. vm_compute. reflexivity. }
  assert (Hi : int32 (sess_global_step Toy.fresh)) by (split; discriminate).
  assert (Hmax : sess_global_step Toy.fresh
                 + Z.of_nat (List.length (train_runs t)) <= 2147483647)
    by (rewrite Hlen; discriminate).
  exists t. split; [exact Ht|].
  rewrite (Hc (fun _ => eq_refl) Hi Hmax), Hlen. reflexivity.
Defined.


Lemma best_training_loss_only_improves_witness :
  0 < epochs (Toy.args 0 2 2 [] "loss" 5 5 false true) /\
  exists l,
    training_loss
      (snd (@train Toy.graph (Toy.args 0 2 2 [] "loss" 5 5 false true)
              Toy.fresh)) = Some l /\
    float_lt l
      (best_training_loss
         (snd (@train Toy.graph (Toy.args 0 2 2 [] "loss" 5 5 false true)
                 Toy.fresh))) = false.
Proof.
  assert (E : @train Toy.graph (Toy.args 0 2 2 [] "loss" 5 5 false true)
                Toy.fresh
              = (Ok tt,
                 snd (@train Toy.graph
                        (Toy.args 0 2 2 [] "loss" 5 5 false true)
                        Toy.fresh))) by (vm_compute; reflexivity).
  split; [reflexivity|].
  destruct (@best_training_loss_only_improves Toy.graph
              (Toy.args 0 2 2 [] "loss" 5 5 false true) Toy.fresh)
    as (_ & H).
  exact (H eq_refl _ E).
Defined.

Lemma checkpoints_every_save_frequency_witness :
  exists w' new,
    @train Toy.graph (Toy.args 0 4 2 [] "loss" 5 2 true false) Toy.fresh
    = (Ok tt, w') /\
    saved_models w' = saved_models Toy.fresh ++ new /\
    map sm_global_step new = [4; 8].
Proof.
  assert (E : @train Toy.graph (Toy.args 0 4 2 [] "loss" 5 2 true false)
                Toy.fresh
              = (Ok tt,
                 snd (@train Toy.graph
                        (Toy.args 0 4 2 [] "loss" 5 2 true false)
                        Toy.fresh)))
    by (vm_compute; reflexivity).
  assert (Hsteps : 0 < 2) by reflexivity.
  assert (Hi : int32 0) by (split; discriminate).
  assert (Hmax : 0 + 2 * 4 <= 2147483647) by discriminate.
  destruct (@checkpoints_every_save_frequency Toy.graph
              (Toy.args 0 4 2 [] "loss" 5 2 true false) Toy.fresh _
              eq_refl eq_refl Hsteps E)
    as (new & Hs & _ & Hm).
  eexists. exists new. split; [exact E|]. split; [exact Hs|].
  rewrite (Hm Hi Hmax). reflexivity.
Defined.

Lemma saved_model_is_named_witness :
  exists m,
    saved_models
      (snd (@save Toy.graph (Some "models") ["default"] None
              false false false
              (snd (@train_step Toy.graph
                      (Toy.args 0 1 1 [] "loss" 5 5 false true)
                      (Toy.schedule 0, []) O Toy.fresh))))
    = [m] /\
    In NTimestamp (sm_name m).
Proof.
  assert (Hv : variables_updated
                 (snd (@train_step Toy.graph
                         (Toy.args 0 1 1 [] "loss" 5 5 false true)
                         (Toy.schedule 0, []) O Toy.fresh)) = true)
    by (vm_compute; reflexivity).
  assert (E : @save Toy.graph (Some "models") ["default"] None
                false false false
                (snd (@train_step Toy.graph
                        (Toy.args 0 1 1 [] "loss" 5 5 false true)
                        (Toy.schedule 0, []) O Toy.fresh))
              = (Ok tt,
                 snd (@save Toy.graph (Some "models") ["default"] None
                        false false false
                        (snd (@train_step Toy.graph
                                (Toy.args 0 1 1 [] "loss" 5 5 false true)
                                (Toy.schedule 0, []) O Toy.fresh)))))
    by (vm_compute; reflexivity).
  destruct (@saved_model_is_named Toy.graph "models" ["default"] None
              false false false _ _ Hv E)
    as (m & Hs & _ & _ & _ & _ & _ & Ht).
  exists m. split; [exact Hs|].
  apply Ht. repeat split.
Defined.

Lemma evaluation_consumes_training_batches_witness :
  eval_dataset (Toy.args 0 4 3 ["mean_iou"] "loss" 2 5 false true)
  = "train" /\
  generator_position
    (snd (@train Toy.graph
            (Toy.args 0 4 3 ["mean_iou"] "loss" 2 5 false true)
            Toy.fresh)) 0%nat = 18%nat.
Proof.
  assert (E : @train Toy.graph
                (Toy.args 0 4 3 ["mean_iou"] "loss" 2 5 false true)
                Toy.fresh
              = (Ok tt,
                 snd (@train Toy.graph
                        (Toy.args 0 4 3 ["mean_iou"] "loss" 2 5 false true)
                        Toy.fresh))) by (vm_compute; reflexivity).
  split; [reflexivity|].
  etransitivity;
    [exact (@evaluation_consumes_training_batches Toy.graph
              (Toy.args 0 4 3 ["mean_iou"] "loss" 2 5 false true)
              Toy.fresh _ eq_refl E)|].
  vm_compute. reflexivity.
Defined.

Lemma save_into_existing_directory_raises_witness :
  exists w1 w2 w3,
    @train Toy.graph (Toy.args 0 1 1 [] "loss" 5 5 false true) Toy.fresh
    = (Ok tt, w1) /\
    @save Toy.graph (Some "models") ["default"] (Some "final")
          false false false w1
    = (Ok tt, w2) /\
    @train Toy.graph (Toy.args 0 1 1 [] "loss" 5 5 false true) w2
    = (Ok tt, w3) /\
    @save Toy.graph (Some "models") ["default"] (Some "final")
          false false false w3
    = (Raise AssertionError, w3) /\
    List.length (saved_models w3) = 1%nat.
Proof.
  pose (w1 := snd (@train Toy.graph
                     (Toy.args 0 1 1 [] "loss" 5 5 false true) Toy.fresh)).
  pose (w2 := snd (@save Toy.graph (Some "models") ["default"] (Some "final")
                         false false false w1)).
  pose (w3 := snd (@train Toy.graph
                     (Toy.args 0 1 1 [] "loss" 5 5 false true) w2)).
  assert (E1 : @train Toy.graph (Toy.args 0 1 1 [] "loss" 5 5 false true)
                 Toy.fresh = (Ok tt, w1))
    by (vm_compute; reflexivity).
  assert (E2 : @save Toy.graph (Some "models") ["default"] (Some "final")
                     false false false w1 = (Ok tt, w2))
    by (vm_compute; reflexivity).
  assert (E3 : @train Toy.graph (Toy.args 0 1 1 [] "loss" 5 5 false true) w2
               = (Ok tt, w3))
    by (vm_compute; reflexivity).
  assert (Hv : variables_updated w3 = true) by (vm_compute; reflexivity).
  assert (Hs : exists m, saved_models w3 = [m] /\
                         sm_path m = "models/saved_model_final").
  { eexists. split; vm_compute; reflexivity. }
  destruct Hs as (m & Hm & Hp).
  exists w1, w2, w3. split; [exact E1|]. split; [exact E2|].
  split; [exact E3|]. split.
  - apply (@save_into_existing_directory_raises
             Toy.graph "models" ["default"] "final" w3 m Hv).
    + rewrite Hm. left. reflexivity.
    + rewrite Hp. vm_compute. reflexivity.
  - rewrite Hm. reflexivity.
Defined.
